(** * Audio-Intent-Detection: a shallow embedding of [main.ipynb]

    The notebook reads a CSV of spoken commands, trims silence, drops
    recordings that are too long, turns every recording into an MFCC matrix
    of one fixed shape, one-hot encodes the labels and, at inference time,
    writes a CSV of predicted labels.

    Conventions of the embedding.
    - Python numbers ([int], [float]) are exact: [Z] for integers, [Q] for
      everything that went through a true division or came from a float.
    - A Python exception is a value of [exn]; a call that may raise returns a
      [result].  Code that reads or writes objects shared between cells (the
      DataFrames) runs in the state monad [M] over a [world].
    - numpy, pandas, librosa, scikit-learn and keras are not part of the
      notebook.  Their list-like operations ([np.pad], slicing, [np.where],
      [np.unique], [np.argmax], [to_categorical], [DataFrame.drop], ...) are
      written out from their documented behaviour; the signal processing and
      the I/O ([librosa.load], [librosa.effects.trim], [librosa.feature.mfcc],
      [pd.read_csv], [load_model], [model.predict]) are parameters of the
      development.
    - The cells of [convert_to_mfcc] and [get_cnn_model] start with [ef] in
      the notebook file; they are read as [def]. *)

From Stdlib Require Import QArith Qround ZArith.
From stdpp Require Import base option list gmap strings sorting.

Set Warnings "-clear-no-such-hyp".

(** ** Exceptions and results *)

Inductive exn : Type :=
  | KeyError
  | ValueError
  | TypeError
  | NameError
  | UnboundLocalError
  | ZeroDivisionError
  | IndexError
  | OSError.

Inductive result (A : Type) : Type :=
  | Ok (a : A)
  | Raise (e : exn).
Arguments Ok {A} a.
Arguments Raise {A} e.

#[global] Instance result_ret : MRet result := λ A a, Ok a.
#[global] Instance result_bind : MBind result := λ A B f r,
  match r with
  | Ok a => f a
  | Raise e => Raise e
  end.

(** [for v in l: acc = f(acc, v)] where the body may raise. *)
Fixpoint for_each {A S : Type} (f : S → A → result S) (l : list A) (s : S)
  : result S :=
  match l with
  | [] => Ok s
  | a :: l' => s' ← f s a; for_each f l' s'
  end.

(** [[f(v) for v in l]] where [f] may raise. *)
Fixpoint map_result {A B : Type} (f : A → result B) (l : list A)
  : result (list B) :=
  match l with
  | [] => Ok []
  | a :: l' => b ← f a; bs ← map_result f l'; Ok (b :: bs)
  end.

(** ** numpy arrays *)

(** A one-dimensional float array. *)
Abbreviation wave := (list Q).
(** A two-dimensional float array, row-major: [m[i][j]] is [m !! i !! j]. *)
Abbreviation matrix := (list (list Q)).

(** [m.shape[0]] and [m.shape[1]]. *)
Definition shape0 (m : matrix) : nat := length m.
Definition shape1 (m : matrix) : nat := length (hd [] m).

(** [m] is a well-formed array of shape [(r, c)]. *)
Definition has_shape (m : matrix) (r c : nat) : Prop :=
  length m = r ∧ Forall (λ row, length row = c) m.

(** [np.pad(m, pad_width=((0, 0), (0, pad_width)), mode="constant")]:
    [pad_width] zeros after every row; a negative width is refused. *)
Definition np_pad_right (m : matrix) (pad_width : Z) : result matrix :=
  if (pad_width <? 0)%Z then Raise ValueError
  else Ok ((λ row, row ++ replicate (Z.to_nat pad_width) 0%Q) <$> m).

(** The length of [a[0:stop]] for [len(a) = n]: a negative [stop] counts from
    the end, and both ends are clipped to the array. *)
Definition slice_stop (n : nat) (stop : Z) : nat :=
  if (stop <? 0)%Z then Z.to_nat (Z.max 0 (Z.of_nat n + stop))
  else Nat.min n (Z.to_nat stop).

(** [m[:, 0:stop]]. *)
Definition np_slice_cols (m : matrix) (stop : Z) : matrix :=
  take (slice_stop (shape1 m) stop) <$> m.

(** ** The body of the loop of [convert_to_mfcc] *)

(** [max_pad_len = (max_audio_len * srr) / 512] *)
Definition max_pad_len (srr : Z) (max_audio_len : Q) : Q :=
  (max_audio_len * inject_Z srr) / 512.

(** [pad_width = ceil(max_pad_len - mfcc.shape[1])] *)
Definition pad_width (mfcc : matrix) (srr : Z) (max_audio_len : Q) : Z :=
  Qceiling (max_pad_len srr max_audio_len - inject_Z (Z.of_nat (shape1 mfcc))).

(** The test [mfcc.shape[1] <= max_pad_len]. *)
Definition fits (mfcc : matrix) (srr : Z) (max_audio_len : Q) : bool :=
  Qle_bool (inject_Z (Z.of_nat (shape1 mfcc))) (max_pad_len srr max_audio_len).

(** Lines 119-125: pad on the right or keep the first columns. *)
Definition pad_or_truncate (mfcc : matrix) (srr : Z) (max_audio_len : Q)
  : result matrix :=
  if fits mfcc srr max_audio_len
  then np_pad_right mfcc (pad_width mfcc srr max_audio_len)
  else Ok (np_slice_cols mfcc (Qceiling (max_pad_len srr max_audio_len))).

(** [target_frames = ceil(max_audio_len * sample_rate / 512)], the number of
    columns every matrix is brought to. *)
Definition target_frames (srr : Z) (max_audio_len : Q) : Z :=
  Qceiling (max_pad_len srr max_audio_len).

(** Every row of a two-dimensional array has [shape1] entries. *)
Definition rectangular (m : matrix) : Prop :=
  Forall (λ row, length row = shape1 m) m.

(** ** pandas DataFrames *)

(** What one cell of a DataFrame holds in this notebook. *)
Inductive cell : Type :=
  | CStr (s : string)
  | CInt (z : Z)
  | CWave (w : wave)
  | CMfcc (m : matrix).

(** One row: column name to cell. *)
Abbreviation row := (gmap string cell).

(** A DataFrame: the column names and the rows in order, each with its index
    label.  [pd.read_csv] and [pd.DataFrame] label the rows [0, 1, 2, ...];
    [drop] keeps the labels of the rows that stay. *)
Record DataFrame : Type := mkDataFrame {
  columns : list string;
  body : list (nat * row)
}.

(** A CSV file: the header and the records. *)
Record csv : Type := mkCsv {
  header : list string;
  records : list row
}.

(** [df.index] and [len(df)]. *)
Definition index (df : DataFrame) : list nat := fst <$> body df.
Definition df_len (df : DataFrame) : nat := length (body df).

(** [df.iterrows()]: the pairs [(index, row)], taken from the frame as it is
    when the loop starts. *)
Definition iterrows (df : DataFrame) : list (nat * row) := body df.

(** [row[col]] *)
Definition row_get (r : row) (col : string) : result cell :=
  match r !! col with
  | Some c => Ok c
  | None => Raise KeyError
  end.

(** [df.at[idx, col] = v] for a label [idx] of the frame and an existing
    column: the cell of the row labelled [idx] is replaced.  The frames of
    the notebook have unique labels. *)
Definition at_set (df : DataFrame) (idx : nat) (col : string) (v : cell)
  : DataFrame :=
  mkDataFrame (columns df)
    ((λ ir : nat * row, if decide (ir.1 = idx) then (ir.1, <[col := v]> ir.2) else ir)
       <$> body df).

(** [df[col] = v] for a scalar [v]: the column is added (or overwritten) with
    [v] in every row. *)
Definition set_column_scalar (df : DataFrame) (col : string) (v : cell)
  : DataFrame :=
  mkDataFrame
    (if bool_decide (col ∈ columns df) then columns df else columns df ++ [col])
    ((λ ir : nat * row, (ir.1, <[col := v]> ir.2)) <$> body df).

(** [df[col] = f(row)] computed row by row (a Series aligned on the index). *)
Definition set_column_rows (df : DataFrame) (col : string) (vs : list cell)
  : DataFrame :=
  mkDataFrame
    (if bool_decide (col ∈ columns df) then columns df else columns df ++ [col])
    (zip_with (λ (ir : nat * row) v, (ir.1, <[col := v]> ir.2)) (body df) vs).

(** [df.drop(cols, axis=1)]: a new frame without the columns; a name that is
    not a column is a [KeyError]. *)
Definition drop_columns (df : DataFrame) (cols : list string)
  : result DataFrame :=
  if bool_decide (Forall (λ c, c ∈ columns df) cols)
  then Ok (mkDataFrame
             (filter (λ c, c ∉ cols) (columns df))
             ((λ ir : nat * row, (ir.1, foldr delete ir.2 cols)) <$> body df))
  else Raise KeyError.

(** [df[cols]] for a list of names: a new frame with these columns only. *)
Definition select_columns (df : DataFrame) (cols : list string)
  : result DataFrame :=
  if bool_decide (Forall (λ c, c ∈ columns df) cols)
  then Ok (mkDataFrame cols
             ((λ ir : nat * row,
                 (ir.1, filter (λ kv : string * cell, kv.1 ∈ cols) ir.2))
                <$> body df))
  else Raise KeyError.

(** [df.drop(labels, axis=0)]: a new frame without the rows that carry one of
    the labels; a label that is not in the index is a [KeyError]. *)
Definition drop_rows (df : DataFrame) (labels : list nat) : result DataFrame :=
  if bool_decide (Forall (λ l, l ∈ index df) labels)
  then Ok (mkDataFrame (columns df)
             (filter (λ ir : nat * row, ir.1 ∉ labels) (body df)))
  else Raise KeyError.

(** [df[a] + df[b]] on two columns of strings. *)
Definition str_add (r : row) (a b : string) : result cell :=
  ca ← row_get r a;
  cb ← row_get r b;
  match ca, cb with
  | CStr sa, CStr sb => Ok (CStr (sa +:+ sb))
  | _, _ => Raise TypeError
  end.

(** [pd.read_csv] on the content of a file: rows labelled [0 .. n-1]. *)
Definition frame_of_csv (f : csv) : DataFrame :=
  mkDataFrame (header f) (imap (λ i r, (i, r)) (records f)).

(** What [df.to_csv(path, index=False)] writes. *)
Definition csv_of_frame (df : DataFrame) : csv :=
  mkCsv (columns df) (snd <$> body df).

(** [pd.DataFrame(values)] for a one-dimensional array of strings: a single
    column, named by the integer 0 (written ["0"] here), rows labelled
    [0 .. n-1]. *)
Definition pd_DataFrame (values : list string) : DataFrame :=
  mkDataFrame ["0"] (imap (λ i s, (i, {[ "0" := CStr s ]})) values).

(** [df[col] = df.index] *)
Definition set_column_index (df : DataFrame) (col : string) : DataFrame :=
  mkDataFrame
    (if bool_decide (col ∈ columns df) then columns df else columns df ++ [col])
    ((λ ir : nat * row, (ir.1, <[col := CInt (Z.of_nat ir.1)]> ir.2)) <$> body df).

(** [df.iloc[:, positions]]: the columns at these positions, in this order. *)
Definition iloc_columns (df : DataFrame) (positions : list nat)
  : result DataFrame :=
  cols ← map_result (λ p, match columns df !! p with
                          | Some c => Ok c
                          | None => Raise IndexError
                          end) positions;
  Ok (mkDataFrame cols
        ((λ ir : nat * row,
            (ir.1, filter (λ kv : string * cell, kv.1 ∈ cols) ir.2))
           <$> body df)).

(** [df.rename(columns={old: new}, inplace=True)]; a missing [old] is
    ignored, as pandas does by default. *)
Definition rename_row (old new : string) (r : row) : row :=
  match r !! old with
  | Some c => <[new := c]> (delete old r)
  | None => r
  end.
Definition rename_column (df : DataFrame) (old new : string) : DataFrame :=
  mkDataFrame
    ((λ c, if decide (c = old) then new else c) <$> columns df)
    ((λ ir : nat * row, (ir.1, rename_row old new ir.2)) <$> body df).

(** ** The world of the notebook *)

(** The objects that cells and functions share: the DataFrames, by
    reference; the CSV files on disk; and the two notebook globals that
    [remove_outliers] reads, [X_trimed] and [srr] ([None] while unbound). *)
Record world : Type := mkWorld {
  heap : gmap nat DataFrame;
  files : gmap string csv;
  glob_X_trimed : option nat;
  glob_srr : option Z
}.

Definition M (A : Type) : Type := world → result (A * world).

#[global] Instance M_ret : MRet M := λ A a w, Ok (a, w).
#[global] Instance M_bind : MBind M := λ A B f m w,
  match m w with
  | Ok (a, w') => f a w'
  | Raise e => Raise e
  end.

(** A computation that does not touch the world. *)
Definition lift {A : Type} (r : result A) : M A := λ w,
  match r with
  | Ok a => Ok (a, w)
  | Raise e => Raise e
  end.

(** Reading the DataFrame a reference points to.  A Python reference always
    points to an object; the [NameError] is for a location that was never
    allocated. *)
Definition deref (l : nat) : M DataFrame := λ w,
  match heap w !! l with
  | Some df => Ok (df, w)
  | None => Raise NameError
  end.

(** Mutating the object at [l]. *)
Definition store (l : nat) (df : DataFrame) : M unit := λ w,
  Ok (tt, mkWorld (<[l := df]> (heap w)) (files w) (glob_X_trimed w) (glob_srr w)).

(** A new object. *)
Definition alloc (df : DataFrame) : M nat := λ w,
  let l := fresh (dom (heap w)) in
  Ok (l, mkWorld (<[l := df]> (heap w)) (files w) (glob_X_trimed w) (glob_srr w)).

(** [df.copy()]: a new object with the same content. *)
Definition df_copy (l : nat) : M nat := df ← deref l; alloc df.

(** [pd.read_csv(path)] *)
Definition pd_read_csv (path : string) : M DataFrame := λ w,
  match files w !! path with
  | Some f => Ok (frame_of_csv f, w)
  | None => Raise OSError
  end.

(** [df.to_csv(path, index=False)] *)
Definition to_csv (df : DataFrame) (path : string) : M unit := λ w,
  Ok (tt, mkWorld (heap w) (<[path := csv_of_frame df]> (files w))
            (glob_X_trimed w) (glob_srr w)).

(** Reading and binding the notebook globals. *)
Definition get_X_trimed : M nat := λ w,
  match glob_X_trimed w with
  | Some l => Ok (l, w)
  | None => Raise NameError
  end.
Definition get_srr : M Z := λ w,
  match glob_srr w with
  | Some z => Ok (z, w)
  | None => Raise NameError
  end.
Definition set_X_trimed (l : nat) : M unit := λ w,
  Ok (tt, mkWorld (heap w) (files w) (Some l) (glob_srr w)).
Definition set_srr (z : Z) : M unit := λ w,
  Ok (tt, mkWorld (heap w) (files w) (glob_X_trimed w) (Some z)).

(** [for v in l: ...] with a body that runs in [M]. *)
Fixpoint for_each_M {A S : Type} (f : S → A → M S) (l : list A) (s : S) : M S :=
  match l with
  | [] => mret s
  | a :: l' => s' ← f s a; for_each_M f l' s'
  end.

(** ** What the notebook calls but does not define *)

(** The signal processing, the audio decoding and the trained network.
    [librosa_load path] is [librosa.load(path, mono=True, sr=None)]: the
    samples and the file's own sample rate.  [librosa_effects_trim w top_db
    hop_length] is the first component of [librosa.effects.trim].
    [librosa_feature_mfcc w sr] is [librosa.feature.mfcc(w, sr=sr)]. *)
Record library : Type := mkLibrary {
  librosa_load : string → result (wave * Z);
  librosa_effects_trim : wave → Z → Z → result wave;
  librosa_feature_mfcc : wave → Z → result matrix;
  keras_model : Type;
  load_model : string → result keras_model;
  model_predict : keras_model → list matrix → result (list (list Q))
}.

Definition as_str (c : cell) : result string :=
  match c with
  | CStr s => Ok s
  | _ => Raise TypeError
  end.

Definition as_wave (c : cell) : result wave :=
  match c with
  | CWave w => Ok w
  | _ => Raise TypeError
  end.

Definition as_mfcc (c : cell) : result matrix :=
  match c with
  | CMfcc m => Ok m
  | _ => Raise TypeError
  end.

(** [librosa.get_duration(y, sr=sr)]: [y.shape[-1] / sr]. *)
Definition get_duration (y : cell) (sr : Z) : result Q :=
  n ← match y with
      | CWave w => Ok (length w)
      | CMfcc m => Ok (shape1 m)
      | _ => Raise TypeError
      end;
  if (sr =? 0)%Z then Raise ZeroDivisionError
  else Ok (inject_Z (Z.of_nat n) / inject_Z sr)%Q.

(** [np.where(np.array(t) > v)[0]]: the positions of the entries above [v],
    counted from [i]. *)
Fixpoint np_where_gt_from (i : nat) (t : list Q) (v : Q) : list nat :=
  match t with
  | [] => []
  | d :: t' =>
      if Qle_bool d v then np_where_gt_from (S i) t' v
      else i :: np_where_gt_from (S i) t' v
  end.
Definition np_where_gt (t : list Q) (v : Q) : list nat := np_where_gt_from 0 t v.

(** ** Labels *)

(** [np.unique] on strings: the distinct values in increasing order. *)
Fixpoint insert_sorted (s : string) (l : list string) : list string :=
  match l with
  | [] => [s]
  | x :: l' =>
      match String.compare s x with
      | Lt => s :: x :: l'
      | Eq => x :: l'
      | Gt => x :: insert_sorted s l'
      end
  end.
Definition np_unique (y : list string) : list string := foldr insert_sorted [] y.

(** A fitted [sklearn.preprocessing.LabelEncoder]. *)
Record LabelEncoder : Type := mkLabelEncoder {
  classes_ : list string
}.

(** The position of [s] in [l]. *)
Fixpoint index_of (s : string) (l : list string) : option nat :=
  match l with
  | [] => None
  | x :: l' => if decide (s = x) then Some 0 else S <$> index_of s l'
  end.

(** [le.transform(y)]: a label that was not fitted is a [ValueError]. *)
Definition le_transform (le : LabelEncoder) (y : list string)
  : result (list nat) :=
  map_result (λ s, match index_of s (classes_ le) with
                   | Some k => Ok k
                   | None => Raise ValueError
                   end) y.

(** [le.fit_transform(y)], with the encoder it fits. *)
Definition le_fit_transform (y : list string)
  : result (list nat * LabelEncoder) :=
  let le := mkLabelEncoder (np_unique y) in
  temp ← le_transform le y;
  Ok (temp, le).

(** [le.inverse_transform(codes)]: a code outside [0 .. len(classes_)-1] is
    a [ValueError]. *)
Definition le_inverse_transform (le : LabelEncoder) (codes : list nat)
  : result (list string) :=
  map_result (λ k, match classes_ le !! k with
                   | Some s => Ok s
                   | None => Raise ValueError
                   end) codes.

(** Python's [max] on a sequence of integers. *)
Definition py_max (l : list nat) : result nat :=
  match l with
  | [] => Raise ValueError
  | k :: l' => Ok (foldr Nat.max k l')
  end.

(** [keras.utils.to_categorical(codes, num_classes)]: one row of zeros per
    code, with a 1 written at the code's position. *)
Definition to_categorical (codes : list nat) (num_classes : nat)
  : result (list (list Q)) :=
  map_result (λ k, if decide (k < num_classes)
                   then Ok (<[k := 1%Q]> (replicate num_classes 0%Q))
                   else Raise IndexError) codes.

(** [np.argmax] of a one-dimensional array: the first position of the
    largest entry. *)
Fixpoint argmax_from (best_i : nat) (best : Q) (i : nat) (l : list Q) : nat :=
  match l with
  | [] => best_i
  | q :: l' =>
      if Qle_bool q best then argmax_from best_i best (S i) l'
      else argmax_from i q (S i) l'
  end.
Definition np_argmax (l : list Q) : result nat :=
  match l with
  | [] => Raise ValueError
  | q :: l' => Ok (argmax_from 0 q 1 l')
  end.

(** Lines 169-184.  [y] is the array of label strings. *)
Definition convert_y_to_oneHot (y : list string)
  : result (list (list Q) * LabelEncoder) :=
  '(temp, le) ← le_fit_transform y;
  m ← py_max temp;
  y_oneHot ← to_categorical temp (m + 1);
  Ok (y_oneHot, le).

(** scikit-learn flattens an [N x 1] column of labels before fitting. *)
Definition column_or_1d (y : list (list cell)) : result (list string) :=
  map_result (λ r, match r with
                   | [c] => as_str c
                   | _ => Raise ValueError
                   end) y.

(** ** The functions of the notebook *)

(** What [read_data] returns: [x, y, srr] for training data, [x, srr]
    otherwise. *)
Inductive read_data_result : Type :=
  | TrainData (x y : nat) (srr : Z)
  | TestData (x : nat) (srr : Z).

(** The body of the loop of [read_data], lines 59-60.  The state is the
    frame and the local [srr], which is unbound before the first round. *)
Definition read_data_step (L : library) (st : DataFrame * option Z)
    (ir : nat * row) : result (DataFrame * option Z) :=
  path ← row_get ir.2 "path";
  path ← as_str path;
  '(wav, srr) ← librosa_load L path;
  Ok (at_set st.1 ir.1 "Signal" (CWave wav), Some srr).

(** Reading a local that no assignment has reached. *)
Definition local_srr (srr : option Z) : result Z :=
  match srr with
  | Some z => Ok z
  | None => Raise UnboundLocalError
  end.

(** Lines 62-70: what is returned, by the value of [data]. *)
Definition read_data_return (data : string) (development_pd : DataFrame)
    (srr : option Z) : M read_data_result :=
  if String.eqb data "train" then
    x ← lift (drop_columns development_pd ["Id"; "action"; "object"; "path"]);
    x ← alloc x;
    y ← lift (select_columns development_pd ["action"; "object"]);
    intention ← lift (map_result (λ ir : nat * row, str_add ir.2 "action" "object")
                        (body development_pd));
    y ← alloc (set_column_rows y "intention" intention);
    srr ← lift (local_srr srr);
    mret (TrainData x y srr)
  else
    x ← lift (drop_columns development_pd ["path"]);
    x ← alloc x;
    srr ← lift (local_srr srr);
    mret (TestData x srr).

(** Lines 38-70. *)
Definition read_data (L : library) (csv_path data : string)
  : M read_data_result :=
  development_pd ← pd_read_csv csv_path;
  let development_pd := set_column_scalar development_pd "Signal" (CStr EmptyString) in
  '(development_pd, srr) ←
    lift (for_each (read_data_step L) (iterrows development_pd)
            (development_pd, None));
  read_data_return data development_pd srr.

(** The body of the loop of [trim_audios], lines 91-94. *)
Definition trim_audios_step (L : library) (top_db hop_length : Z)
    (x : DataFrame) (ir : nat * row) : result DataFrame :=
  signal ← row_get ir.2 "Signal";
  signal ← as_wave signal;
  wav ← librosa_effects_trim L signal top_db hop_length;
  Ok (at_set x ir.1 "Signal" (CWave wav)).

(** Lines 79-96.  [x] is a reference: the loop writes into the frame that
    the caller passed, and the same reference is returned. *)
Definition trim_audios (L : library) (x : nat) (top_db hop_length : Z) : M nat :=
  df ← deref x;
  df ← lift (for_each (trim_audios_step L top_db hop_length) (iterrows df) df);
  _ ← store x df;
  mret x.

(** The body of the loop of [convert_to_mfcc], lines 118-126. *)
Definition convert_to_mfcc_step (L : library) (srr : Z) (max_audio_len : Q)
    (x : DataFrame) (ir : nat * row) : result DataFrame :=
  signal ← row_get ir.2 "Signal";
  signal ← as_wave signal;
  mfcc ← librosa_feature_mfcc L signal srr;
  mfcc ← pad_or_truncate mfcc srr max_audio_len;
  Ok (at_set x ir.1 "Signal" (CMfcc mfcc)).

(** Lines 105-128.  Again [x] is written in place and returned. *)
Definition convert_to_mfcc (L : library) (x : nat) (srr : Z) (max_audio_len : Q)
  : M nat :=
  df ← deref x;
  df ← lift (for_each (convert_to_mfcc_step L srr max_audio_len) (iterrows df) df);
  _ ← store x df;
  mret x.

(** Lines 137-160.  The result is [x_temp_2] alone when [data] is not
    ["train"], and the pair [x_temp_2, y_temp] otherwise. *)
Definition convert_to_numpy (x : nat) (x_columns : list string)
    (y : option nat) (y_columns : list string) (data : string)
  : M (list matrix * option (list (list cell))) :=
  dx ← deref x;
  x_temp ← lift (select_columns dx x_columns);
  x_temp_2 ← lift (map_result (λ ir : nat * row,
                                 c ← row_get ir.2 "Signal"; as_mfcc c)
                     (body x_temp));
  if negb (String.eqb data "train") then mret (x_temp_2, None)
  else
    y ← lift (match y with Some y => Ok y | None => Raise TypeError end);
    dy ← deref y;
    y_temp ← lift (select_columns dy y_columns);
    y_temp ← lift (map_result (λ ir : nat * row,
                                 map_result (row_get ir.2) (columns y_temp))
                     (body y_temp));
    mret (x_temp_2, Some y_temp).

(** The body of the loop of [remove_outliers], line 262: the sample rate is
    the notebook global [srr]. *)
Definition remove_outliers_step (t : list Q) (ir : nat * row) : M (list Q) :=
  signal ← lift (row_get ir.2 "Signal");
  srr ← get_srr;
  d ← lift (get_duration signal srr);
  mret (t ++ [d]).

(** Lines 249-269.  The loop runs over the notebook global [X_trimed], not
    over the parameter [x]; [x] and [y] are only copied and cut. *)
Definition remove_outliers (x y : nat) (max_length : Q) : M (nat * nat) :=
  X_trimed ← get_X_trimed;
  df ← deref X_trimed;
  t ← for_each_M remove_outliers_step (iterrows df) [];
  let ouliers_index := np_where_gt t max_length in
  dx ← deref x;
  x_removed_ouliers ← lift (drop_rows dx ouliers_index);
  x_removed_ouliers ← alloc x_removed_ouliers;
  dy ← deref y;
  y_removed_ouliers ← lift (drop_rows dy ouliers_index);
  y_removed_ouliers ← alloc y_removed_ouliers;
  mret (x_removed_ouliers, y_removed_ouliers).

(** Lines 308-311: the table of predictions, columns [Id] and [Predicted]. *)
Definition prediction_table (predicted_y_string : list string)
  : result DataFrame :=
  let df := pd_DataFrame predicted_y_string in
  let df := set_column_index df "Id" in
  df ← iloc_columns df [1; 0];
  Ok (rename_column df "0" "Predicted").

(** Lines 278-314. *)
Definition test_output_csv (L : library)
    (saved_model_path output_csv_path evaluate_csv_path : string)
    (le : LabelEncoder) (max_audio_length : Q) (top_db hop_length : Z) : M Z :=
  model ← lift (load_model L saved_model_path);
  r ← read_data L evaluate_csv_path "Not_train";
  '(x_test, srr_test) ← lift (match r with
                              | TestData x srr => Ok (x, srr)
                              | TrainData _ _ _ => Raise ValueError
                              end);
  X_test_trimed ← trim_audios L x_test top_db hop_length;
  X_copy ← df_copy X_test_trimed;
  X_mfcc_test ← convert_to_mfcc L X_copy srr_test max_audio_length;
  '(X_n_test, _) ← convert_to_numpy X_mfcc_test ["Signal"] None [] "not train";
  predicted_y ← lift (model_predict L model X_n_test);
  predicted_y ← lift (map_result np_argmax predicted_y);
  predicted_y_string ← lift (le_inverse_transform le predicted_y);
  df ← lift (prediction_table predicted_y_string);
  _ ← to_csv df output_csv_path;
  mret 0%Z.

(** Line 323. *)
Definition max_lenght : Q := 5 # 2.

(** Lines 326-329, once [read_data] has returned [X], [Y] and [srr]:
    trimming, outlier removal and feature extraction.  The assignments to
    [srr] and [X_trimed] bind the globals that [remove_outliers] reads. *)
Definition training_features (L : library) (X Y : nat) (srr : Z)
  : M (nat * nat) :=
  _ ← set_srr srr;
  X_trimed ← trim_audios L X 10 10;
  _ ← set_X_trimed X_trimed;
  '(X_no_outliers, y_no_outliers) ← remove_outliers X_trimed Y max_lenght;
  X_mfcc ← convert_to_mfcc L X_no_outliers srr max_lenght;
  mret (X_mfcc, y_no_outliers).

(** Lines 326-338. *)
Definition training_cell_rest (L : library) (X Y : nat) (srr : Z)
  : M (list matrix * list (list Q) * LabelEncoder) :=
  '(X_mfcc, y_no_outliers) ← training_features L X Y srr;
  '(X_n, Y_n) ← convert_to_numpy X_mfcc ["Signal"] (Some y_no_outliers)
                  ["intention"] "train";
  Y_n ← lift (match Y_n with Some a => Ok a | None => Raise ValueError end);
  Y_n ← lift (column_or_1d Y_n);
  '(y_oneHot, le) ← lift (convert_y_to_oneHot Y_n);
  mret (X_n, y_oneHot, le).

(** Lines 323-338. *)
Definition training_cell (L : library)
  : M (list matrix * list (list Q) * LabelEncoder) :=
  r ← read_data L "./dsl_data/development.csv" "train";
  '(X, Y, srr) ← lift (match r with
                       | TrainData x y srr => Ok (x, y, srr)
                       | TestData _ _ => Raise ValueError
                       end);
  training_cell_rest L X Y srr.

(** ** A small library and file system to run the notebook on *)

(** Silence is a sample equal to zero: trimming drops the zeros at both
    ends. *)
Fixpoint strip_zeros (w : wave) : wave :=
  match w with
  | [] => []
  | q :: w' => if Qeq_bool q 0 then strip_zeros w' else w
  end.
Definition demo_trim (w : wave) (top_db hop_length : Z) : result wave :=
  Ok (rev (strip_zeros (rev (strip_zeros w)))).

(** Four audio files, with sample rates 1, 1, 1 and 2. *)
Definition demo_load (path : string) : result (wave * Z) :=
  if String.eqb path "one.wav" then Ok ([0; 3; 0; 0]%Q, 1%Z)
  else if String.eqb path "two.wav" then Ok ([5; 0; 1]%Q, 1%Z)
  else if String.eqb path "four.wav" then Ok ([1; 2; 3; 4]%Q, 1%Z)
  else if String.eqb path "fast.wav" then Ok ([0; 7; 7]%Q, 2%Z)
  else Raise OSError.

(** Two coefficients per frame and one frame per sample. *)
Definition demo_mfcc (w : wave) (sr : Z) : result matrix :=
  Ok [w; (λ q, q + 1)%Q <$> w].

(** A network with two output units. *)
Definition demo_predict (_ : unit) (xs : list matrix) : result (list (list Q)) :=
  Ok ((λ m : matrix,
         match m with
         | (q :: _) :: _ => if Qle_bool q 3 then [1 # 4; 3 # 4]%Q else [2 # 3; 1 # 3]%Q
         | _ => [1 # 2; 1 # 2]%Q
         end) <$> xs).

Definition demo_library : library :=
  mkLibrary demo_load demo_trim demo_mfcc unit (λ _, Ok tt) demo_predict.

Definition demo_record (path action object : string) (Id : Z) : row :=
  {[ "path" := CStr path; "action" := CStr action; "object" := CStr object;
     "Id" := CInt Id ]}.

(** A development set of three recordings that last 1, 2 and 4 seconds
    once trimmed. *)
Definition demo_development : csv :=
  mkCsv ["Id"; "path"; "action"; "object"]
    [ demo_record "one.wav" "increase" "volume" 0;
      demo_record "two.wav" "decrease" "heat" 1;
      demo_record "four.wav" "increase" "volume" 2 ].

(** An evaluation set of two recordings. *)
Definition demo_evaluation : csv :=
  mkCsv ["Id"; "path"]
    [ {[ "Id" := CInt 0; "path" := CStr "two.wav" ]};
      {[ "Id" := CInt 1; "path" := CStr "one.wav" ]} ].

Definition demo_world : world :=
  mkWorld ∅
    {[ "./dsl_data/development.csv" := demo_development;
       "./dsl_data/evaluation.csv" := demo_evaluation ]}
    None None.

Definition demo_encoder : LabelEncoder :=
  mkLabelEncoder ["decreaseheat"; "increasevolume"].

(** ** Vocabulary of the statements *)

(** The three loops that rewrite the ["Signal"] column have one shape: a
    cell is computed from the row, then written back with [at_set]. *)
Definition signal_step (g : row → result cell) (x : DataFrame)
    (ir : nat * row) : result DataFrame :=
  c ← g ir.2;
  Ok (at_set x ir.1 "Signal" c).

Definition cell_of (r : result cell) : cell :=
  match r with
  | Ok c => c
  | Raise _ => CStr EmptyString
  end.

(** The frame in which every row has had its ["Signal"] replaced by what [g]
    computes from the row. *)
Definition signal_row (g : row → result cell) (ir : nat * row) : nat * row :=
  (ir.1, <["Signal" := cell_of (g ir.2)]> ir.2).
Definition map_signal (g : row → result cell) (df : DataFrame) : DataFrame :=
  mkDataFrame (columns df) (signal_row g <$> body df).

(** The ["Signal"] column of a frame, top to bottom. *)
Definition signals (df : DataFrame) : list (option cell) :=
  (λ ir : nat * row, ir.2 !! "Signal") <$> body df.

(** The cell that one round of [trim_audios] writes. *)
Definition trim_cell (L : library) (top_db hop_length : Z) (r : row)
  : result cell :=
  signal ← row_get r "Signal";
  signal ← as_wave signal;
  wav ← librosa_effects_trim L signal top_db hop_length;
  Ok (CWave wav).

(** The cell that one round of [convert_to_mfcc] writes. *)
Definition mfcc_cell (L : library) (srr : Z) (max_audio_len : Q) (r : row)
  : result cell :=
  signal ← row_get r "Signal";
  signal ← as_wave signal;
  mfcc ← librosa_feature_mfcc L signal srr;
  mfcc ← pad_or_truncate mfcc srr max_audio_len;
  Ok (CMfcc mfcc).

(** The world after the object at [l] has become [df]. *)
Definition with_object (w : world) (l : nat) (df : DataFrame) : world :=
  mkWorld (<[l := df]> (heap w)) (files w) (glob_X_trimed w) (glob_srr w).

(** Three trimmed recordings of 1, 2 and 4 samples in one frame, the object
    0 of the heap. *)
Definition demo_trimmed : DataFrame :=
  mkDataFrame ["Signal"]
    [ (0, {[ "Signal" := CWave [3]%Q ]});
      (1, {[ "Signal" := CWave [5; 1]%Q ]});
      (2, {[ "Signal" := CWave [1; 2; 3; 4]%Q ]}) ].


(** The order in which [np.unique] lists strings. *)
Definition str_lt (s1 s2 : string) : Prop := String.compare s1 s2 = Lt.

(** The labels that go with [demo_trimmed], the object 1 of the heap below. *)
Definition demo_labels : DataFrame :=
  mkDataFrame ["intention"]
    [ (0, {[ "intention" := CStr "increasevolume" ]});
      (1, {[ "intention" := CStr "decreaseheat" ]});
      (2, {[ "intention" := CStr "increasevolume" ]}) ].

(** A second data set: recordings of 4, 1 and 2 samples and their labels. *)
Definition demo_other : DataFrame :=
  mkDataFrame ["Signal"]
    [ (0, {[ "Signal" := CWave [1; 2; 3; 4]%Q ]});
      (1, {[ "Signal" := CWave [7]%Q ]});
      (2, {[ "Signal" := CWave [8; 9]%Q ]}) ].
Definition demo_other_labels : DataFrame :=
  mkDataFrame ["intention"]
    [ (0, {[ "intention" := CStr "decreaseheat" ]});
      (1, {[ "intention" := CStr "increasevolume" ]});
      (2, {[ "intention" := CStr "decreaseheat" ]}) ].

(** The notebook after the training cell has run on [demo_trimmed] at a
    sample rate of [rate]: the globals [X_trimed] and [srr] are bound, and
    the second data set has been loaded as the objects 2 and 3. *)
Definition demo_session (rate : Z) : world :=
  mkWorld {[ 0 := demo_trimmed; 1 := demo_labels;
             2 := demo_other; 3 := demo_other_labels ]}
    ∅ (Some 0) (Some rate).

(** What a call of [remove_outliers] hands back: the two returned frames. *)
Definition returned_frames (r : result (nat * nat * world))
  : option (option DataFrame * option DataFrame) :=
  match r with
  | Ok ((lx, ly), w) => Some (heap w !! lx, heap w !! ly)
  | Raise _ => None
  end.

(** The durations of the recordings of a frame at a sample rate. *)
Definition durations (df : DataFrame) (sr : Z) : result (list Q) :=
  map_result (λ ir : nat * row, c ← row_get ir.2 "Signal"; get_duration c sr)
    (body df).

Definition frame_indexes (p : option DataFrame * option DataFrame)
  : option (list nat) * option (list nat) :=
  (index <$> p.1, index <$> p.2).

(** Two recordings as the loader returns them, silence included. *)
Definition demo_untrimmed : DataFrame :=
  mkDataFrame ["Signal"]
    [ (0, {[ "Signal" := CWave [0; 3; 0; 0]%Q ]});
      (1, {[ "Signal" := CWave [5; 0; 1]%Q ]}) ].

Definition demo_untrimmed_world : world :=
  mkWorld {[ 0 := demo_untrimmed ]} ∅ None (Some 1%Z).

(** What [trim_audios] does to one recording: [ir'] is the row [ir] with
    the samples replaced by the trimmed ones. *)
Definition trimmed_recording (L : library) (top_db hop_length : Z)
    (ir ir' : nat * row) : Prop :=
  ∃ wv wv' : wave,
    ir.2 !! "Signal" = Some (CWave wv)
    ∧ librosa_effects_trim L wv top_db hop_length = Ok wv'
    ∧ ir' = (ir.1, <["Signal" := CWave wv']> ir.2).

(** ** Vocabulary for [read_data] and [test_output_csv] *)

(** The audio file of a record, decoded: line 59. *)
Definition load_row (L : library) (r : row) : result (wave * Z) :=
  path ← row_get r "path";
  path ← as_str path;
  librosa_load L path.

(** The cell that one round of [read_data] writes. *)
Definition load_cell (L : library) (r : row) : result cell :=
  '(wav, _) ← load_row L r;
  Ok (CWave wav).

(** The value of the local [srr] after one round of [read_data]. *)
Definition rate_of (L : library) (r : row) : option Z :=
  match load_row L r with
  | Ok (_, rate) => Some rate
  | Raise _ => None
  end.

(** The frame that [read_data] has built when its loop ends: the records of
    the file, labelled [0 .. n-1], each with its decoded samples. *)
Definition loaded_frame (L : library) (f : csv) : DataFrame :=
  map_signal (load_cell L)
    (set_column_scalar (frame_of_csv f) "Signal" (CStr EmptyString)).

(** The sample rate that the last of the files reports. *)
Definition last_rate (wrs : list (wave * Z)) : option Z := snd <$> last wrs.

(** The labels that [test_output_csv] predicts for the records of an
    evaluation file, stage by stage on plain lists. *)
Definition predicted_labels (L : library) (model : keras_model L)
    (le : LabelEncoder) (max_audio_length : Q) (top_db hop_length : Z)
    (rs : list row) : result (list string) :=
  wrs ← map_result (load_row L) rs;
  srr ← local_srr (last_rate wrs);
  trimmed ← map_result (λ wr : wave * Z,
                          librosa_effects_trim L wr.1 top_db hop_length) wrs;
  X_n_test ← map_result (λ wv, mfcc ← librosa_feature_mfcc L wv srr;
                               pad_or_truncate mfcc srr max_audio_length)
               trimmed;
  predicted_y ← model_predict L model X_n_test;
  predicted_y ← map_result np_argmax predicted_y;
  le_inverse_transform le predicted_y.

(** The file that [test_output_csv] writes for a list of predicted labels. *)
Definition prediction_csv (labels : list string) : csv :=
  mkCsv ["Id"; "Predicted"]
    (imap (λ i s, {[ "Id" := CInt (Z.of_nat i); "Predicted" := CStr s ]}) labels).

(** A frame with unique labels whose ["Signal"] column holds the cells [cs],
    top to bottom. *)
Definition holds_signals (df : DataFrame) (cs : list cell) : Prop :=
  "Signal" ∈ columns df ∧ NoDup (index df) ∧ signals df = Some <$> cs.


(** An evaluation file without rows. *)
Definition demo_empty_world : world :=
  mkWorld ∅ {[ "./dsl_data/evaluation.csv" := mkCsv ["Id"; "path"] [] ]}
    None None.
(** The evaluation set again, with label columns whose labels
    ([activatelights]) the encoder [demo_encoder] has never seen. *)
Definition demo_evaluation_labelled : csv :=
  mkCsv ["Id"; "path"; "action"; "object"]
    [ demo_record "two.wav" "activate" "lights" 0;
      demo_record "one.wav" "activate" "lights" 1 ].

Definition demo_labelled_world : world :=
  mkWorld ∅ {[ "./dsl_data/evaluation.csv" := demo_evaluation_labelled ]}
    None None.

(** A record of the file carries a label, the concatenation of its action
    and its object, that is not a class of the encoder. *)
Definition carries_unseen_label (le : LabelEncoder) (f : csv) : Prop :=
  ∃ r a o,
    r ∈ records f
    ∧ r !! "action" = Some (CStr a) ∧ r !! "object" = Some (CStr o)
    ∧ (a +:+ o) ∉ classes_ le.

(** The sample rate in what [read_data] returns. *)
Definition srr_of (r : read_data_result) : Z :=
  match r with
  | TrainData _ _ srr => srr
  | TestData _ srr => srr
  end.

(** A development file: the four columns that [read_data] drops or selects
    for training data are there, and actions and objects are strings. *)
Definition training_columns (f : csv) : Prop :=
  Forall (λ c, c ∈ header f) ["Id"; "action"; "object"; "path"]
  ∧ Forall (λ r : row, ∃ a o, r !! "action" = Some (CStr a)
                              ∧ r !! "object" = Some (CStr o)) (records f).

(** The columns that [read_data] needs, by the value of [data]. *)
Definition read_data_columns (data : string) (f : csv) : Prop :=
  if String.eqb data "train" then training_columns f else "path" ∈ header f.
(** The duration in seconds of [t] at the sample rate [sr], and the
    recordings among [ts] that last at most [max_length]. *)
Definition duration (sr : Z) (t : wave) : Q :=
  (inject_Z (Z.of_nat (length t)) / inject_Z sr)%Q.
Definition retained (sr : Z) (max_length : Q) (ts : list wave) : list wave :=
  filter (λ t, Qle_bool (duration sr t) max_length = true) ts.

(** The recordings of the frame at [X_mfcc] are the matrices that
    [convert_to_mfcc] computes, at the sample rate [sr], for the trimmed
    recordings [ts] that last at most [max_lenght] seconds at this rate. *)
Definition features_at_rate (L : library) (sr : Z) (ts : list wave)
    (w : world) (X_mfcc : nat) : Prop :=
  ∃ df ms,
    heap w !! X_mfcc = Some df
    ∧ holds_signals df (CMfcc <$> ms)
    ∧ Forall2 (λ t m, (mfcc ← librosa_feature_mfcc L t sr;
                       pad_or_truncate mfcc sr max_lenght) = Ok m)
        (retained sr max_lenght ts) ms.
(** A loader that reports other sample rates for the first two files of
    [demo_development]. *)
Definition demo_load_other_rates (path : string) : result (wave * Z) :=
  if String.eqb path "one.wav" then Ok ([0; 3; 0; 0]%Q, 8000%Z)
  else if String.eqb path "two.wav" then Ok ([5; 0; 1]%Q, 44100%Z)
  else demo_load path.


(** [w'] is [w] with new objects only: what was in the heap is still there
    and unchanged, and the files and the globals are the same. *)
Definition only_allocates (w w' : world) : Prop :=
  (∀ l df, heap w !! l = Some df → heap w' !! l = Some df)
  ∧ files w' = files w
  ∧ glob_X_trimed w' = glob_X_trimed w
  ∧ glob_srr w' = glob_srr w.

(** The row of [X] and the row of [Y] that [read_data] builds from the
    record [r] of a development file whose audio file holds the samples
    [wv]. *)
Definition training_rows (r : row) (wv : wave) (rx ry : row) : Prop :=
  ∃ a o : string,
    r !! "action" = Some (CStr a)
    ∧ r !! "object" = Some (CStr o)
    ∧ rx !! "Signal" = Some (CWave wv)
    ∧ (∀ c, c ∈ ["Id"; "action"; "object"; "path"] → rx !! c = None)
    ∧ (∀ c, c ∉ ["Id"; "action"; "object"; "path"] → c ≠ "Signal" →
            rx !! c = r !! c)
    ∧ ry !! "action" = Some (CStr a)
    ∧ ry !! "object" = Some (CStr o)
    ∧ ry !! "intention" = Some (CStr (a +:+ o))
    ∧ (∀ c, c ∉ ["action"; "object"; "intention"] → ry !! c = None).

(** A session in which [X_trimed] names the frame of three recordings while
    [remove_outliers] is called on a frame of one row. *)
Definition demo_short_session : world :=
  mkWorld {[ 0 := demo_trimmed; 1 := demo_labels;
             2 := mkDataFrame ["Signal"] [ (0, {[ "Signal" := CWave [7]%Q ]}) ];
             3 := mkDataFrame ["intention"]
                    [ (0, {[ "intention" := CStr "decreaseheat" ]}) ] ]}
    ∅ (Some 0) (Some 1%Z).

(** ** Vocabulary for the training cell *)

(** The recordings, each with its label, that the training cell keeps:
    those that last at most [max_lenght] seconds at the rate [sr]. *)
Definition kept (sr : Z) (ts : list wave) (labels : list string)
  : list (wave * string) :=
  filter (λ p : wave * string, Qle_bool (duration sr p.1) max_lenght = true)
    (zip ts labels).

(** The label of a record of the development file: its action followed by
    its object. *)
Definition intention_of (r : row) (s : string) : Prop :=
  ∃ a o, r !! "action" = Some (CStr a) ∧ r !! "object" = Some (CStr o)
         ∧ s = a +:+ o.

(** A frame whose ["intention"] column holds the strings [labels], top to
    bottom. *)
Definition holds_intentions (df : DataFrame) (labels : list string) : Prop :=
  "intention" ∈ columns df
  ∧ Forall2 (λ (ir : nat * row) s, ir.2 !! "intention" = Some (CStr s))
      (body df) labels.

(** The matrix that [convert_to_mfcc] stores for the recording [t]. *)
Definition feature_of (L : library) (sr : Z) (t : wave) : result matrix :=
  mfcc ← librosa_feature_mfcc L t sr;
  pad_or_truncate mfcc sr max_lenght.

(** A development set in which every recording lasts more than
    [max_lenght] seconds once trimmed. *)
Definition demo_long_world : world :=
  mkWorld ∅
    {[ "./dsl_data/development.csv" :=
         mkCsv ["Id"; "path"; "action"; "object"]
           [ demo_record "two.wav" "decrease" "heat" 0;
             demo_record "four.wav" "increase" "volume" 1 ] ]}
    None None.

(** * Properties *)

(** ** Rounding facts used by the padding arithmetic *)

Lemma Qceiling_unique (q : Q) (z : Z) :
  (inject_Z (z - 1) < q)%Q → (q <= inject_Z z)%Q → Qceiling q = z.
Proof.
  intros Hlo Hhi.
  pose proof (Qceiling_lt q) as H1. pose proof (Qle_ceiling q) as H2.
  assert (inject_Z (z - 1) < inject_Z (Qceiling q))%Q as H3
    by (eapply Qlt_le_trans; eauto).
  assert (inject_Z (Qceiling q - 1) < inject_Z z)%Q as H4
    by (eapply Qlt_le_trans; eauto).
  rewrite <- Zlt_Qlt in H3, H4. lia.
Qed.

Lemma Qceiling_minus_Z (q : Q) (n : Z) :
  Qceiling (q - inject_Z n) = (Qceiling q - n)%Z.
Proof.
  pose proof (Qceiling_lt q) as H1. pose proof (Qle_ceiling q) as H2.
  apply Qceiling_unique.
  - replace (Qceiling q - n - 1)%Z with ((Qceiling q - 1) + - n)%Z by lia.
    rewrite inject_Z_plus, inject_Z_opp.
    unfold Qminus. apply Qplus_lt_le_compat; [done | apply Qle_refl].
  - replace (Qceiling q - n)%Z with (Qceiling q + - n)%Z by lia.
    rewrite inject_Z_plus, inject_Z_opp.
    unfold Qminus. apply Qplus_le_compat; [done | apply Qle_refl].
Qed.

Lemma Z_le_Qceiling (q : Q) (n : Z) :
  (inject_Z n <= q)%Q → (n ≤ Qceiling q)%Z.
Proof.
  intros H. rewrite Zle_Qle. eapply Qle_trans; [exact H | apply Qle_ceiling].
Qed.

Lemma Qceiling_le_Z (q : Q) (n : Z) :
  (q <= inject_Z n)%Q → (Qceiling q ≤ n)%Z.
Proof.
  intros H. pose proof (Qceiling_lt q) as H1.
  assert (inject_Z (Qceiling q - 1) < inject_Z n)%Q as H2
    by (eapply Qlt_le_trans; eauto).
  rewrite <- Zlt_Qlt in H2. lia.
Qed.

Lemma max_pad_len_nonneg (srr : Z) (max_audio_len : Q) :
  (0 <= max_audio_len)%Q → (0 < srr)%Z → (0 <= max_pad_len srr max_audio_len)%Q.
Proof.
  intros Hm Hs. unfold max_pad_len.
  apply Qle_shift_div_l; [reflexivity |].
  rewrite Qmult_0_l. apply Qmult_le_0_compat; [done |].
  change 0%Q with (inject_Z 0). rewrite <- Zle_Qle. lia.
Qed.

Lemma target_frames_nonneg (srr : Z) (max_audio_len : Q) :
  (0 <= max_audio_len)%Q → (0 < srr)%Z → (0 ≤ target_frames srr max_audio_len)%Z.
Proof.
  intros Hm Hs. unfold target_frames.
  apply Z_le_Qceiling. apply max_pad_len_nonneg; done.
Qed.

(** ** What [pad_or_truncate] computes *)

Lemma fits_true (m : matrix) (srr : Z) (max_audio_len : Q) :
  fits m srr max_audio_len = true →
  (Z.of_nat (shape1 m) ≤ target_frames srr max_audio_len)%Z ∧
  pad_width m srr max_audio_len
    = (target_frames srr max_audio_len - Z.of_nat (shape1 m))%Z.
Proof.
  unfold fits, pad_width, target_frames. intros H%Qle_bool_iff. split.
  - by apply Z_le_Qceiling.
  - apply Qceiling_minus_Z.
Qed.

Lemma fits_false (m : matrix) (srr : Z) (max_audio_len : Q) :
  fits m srr max_audio_len = false →
  (target_frames srr max_audio_len ≤ Z.of_nat (shape1 m))%Z.
Proof.
  unfold fits, target_frames. intros H.
  apply Qceiling_le_Z. apply Qlt_le_weak, Qnot_le_lt.
  intros Hle%Qle_bool_iff. congruence.
Qed.

Lemma pad_or_truncate_spec (m : matrix) (srr : Z) (max_audio_len : Q) :
  rectangular m → (0 <= max_audio_len)%Q → (0 < srr)%Z →
  pad_or_truncate m srr max_audio_len =
    Ok (if decide (Z.of_nat (shape1 m) ≤ target_frames srr max_audio_len)%Z
        then (λ row, row ++ replicate
                (Z.to_nat (target_frames srr max_audio_len - Z.of_nat (shape1 m)))
                0%Q) <$> m
        else take (Z.to_nat (target_frames srr max_audio_len)) <$> m).
Proof.
  intros Hrect Hm Hs.
  pose proof (target_frames_nonneg srr max_audio_len Hm Hs) as Hnn.
  unfold pad_or_truncate.
  destruct (fits m srr max_audio_len) eqn:Hfits.
  - apply fits_true in Hfits as [Hle Hpw]. rewrite Hpw.
    unfold np_pad_right.
    destruct (Z.ltb_spec (target_frames srr max_audio_len - Z.of_nat (shape1 m)) 0);
      [lia |].
    by rewrite decide_True.
  - apply fits_false in Hfits. f_equal.
    unfold np_slice_cols, slice_stop. fold (target_frames srr max_audio_len).
    destruct (Z.ltb_spec (target_frames srr max_audio_len) 0); [lia |].
    replace (shape1 m `min` Z.to_nat (target_frames srr max_audio_len))
      with (Z.to_nat (target_frames srr max_audio_len)) by lia.
    case_decide as Hle; [| done].
    assert (Z.of_nat (shape1 m) = target_frames srr max_audio_len) as <- by lia.
    rewrite Z.sub_diag, Nat2Z.id. simpl.
    apply Forall_fmap_ext_1.
    eapply Forall_impl; [exact Hrect |].
    intros row Hrow. simpl in Hrow.
    by rewrite app_nil_r, <- Hrow, firstn_all.
Qed.

Lemma pad_or_truncate_shape (m : matrix) (srr : Z) (max_audio_len : Q) :
  rectangular m → (0 <= max_audio_len)%Q → (0 < srr)%Z →
  ∃ m', pad_or_truncate m srr max_audio_len = Ok m' ∧
        has_shape m' (shape0 m) (Z.to_nat (target_frames srr max_audio_len)).
Proof.
  intros Hrect Hm Hs.
  pose proof (target_frames_nonneg srr max_audio_len Hm Hs) as Hnn.
  eexists. split; [by apply pad_or_truncate_spec |].
  unfold has_shape, shape0. case_decide as Hle.
  - split; [by rewrite length_fmap |].
    apply Forall_fmap. eapply Forall_impl; [exact Hrect |].
    intros row Hrow. simpl in *. rewrite length_app, length_replicate. lia.
  - split; [by rewrite length_fmap |].
    apply Forall_fmap. eapply Forall_impl; [exact Hrect |].
    intros row Hrow. simpl in *. rewrite length_take. lia.
Qed.


(** With [max_audio_len = 2.5] and [srr = 512] the quotient is 2.5 and the
    target 3: a matrix of 3 columns fails the test [3 <= 2.5], is sliced to
    its first 3 columns and so stays as it is. *)
Example pad_or_truncate_fractional_boundary :
  fits [[1; 2; 3]; [4; 5; 6]]%Q 512 (5 # 2) = false
  ∧ target_frames 512 (5 # 2) = 3%Z
  ∧ pad_or_truncate [[1; 2; 3]; [4; 5; 6]]%Q 512 (5 # 2)
    = Ok [[1; 2; 3]; [4; 5; 6]]%Q.
Proof. repeat split; reflexivity. Qed.


(** ** Loops over the rows of a frame *)

Lemma for_each_ext {A S : Type} (f g : S → A → result S) (l : list A) (s : S) :
  (∀ s a, f s a = g s a) → for_each f l s = for_each g l s.
Proof.
  intros Hfg. revert s. induction l as [| a l IH]; intros s; simpl; [done |].
  rewrite Hfg. destruct (g s a); simpl; [apply IH | done].
Qed.

Lemma map_result_Forall2 {A B : Type} (f : A → result B) (l : list A)
    (l' : list B) :
  map_result f l = Ok l' ↔ Forall2 (λ a b, f a = Ok b) l l'.
Proof.
  revert l'. induction l as [| a l IH]; intros l'; simpl.
  - split.
    + intros [= <-]. constructor.
    + intros ->%Forall2_nil_inv_l. done.
  - split.
    + destruct (f a) as [b |] eqn:Hfa; simpl; [| done].
      destruct (map_result f l) as [bs |] eqn:Hl; simpl; [| done].
      intros [= <-]. constructor; [done |]. by apply IH.
    + intros (b & bs & Hb & Hbs & ->)%Forall2_cons_inv_l.
      rewrite Hb. simpl. apply IH in Hbs. rewrite Hbs. done.
Qed.

Lemma at_set_rows_other (i : nat) (col : string) (v : cell)
    (l : list (nat * row)) :
  i ∉ l.*1 →
  (λ ir : nat * row, if decide (ir.1 = i) then (ir.1, <[col := v]> ir.2) else ir)
    <$> l = l.
Proof.
  induction l as [| ir l IH]; intros Hi; simpl; [done |].
  rewrite fmap_cons in Hi. apply not_elem_of_cons in Hi as [Hne Hi].
  rewrite decide_False by done. f_equal. by apply IH.
Qed.

Lemma signal_step_Ok (g : row → result cell) (x : DataFrame)
    (ir : nat * row) (c : cell) :
  g ir.2 = Ok c → signal_step g x ir = Ok (at_set x ir.1 "Signal" c).
Proof. intros Hc. unfold signal_step. by rewrite Hc. Qed.

Lemma for_each_signal_step_gen (g : row → result cell) (cols : list string)
    (pre todo : list (nat * row)) :
  NoDup ((pre ++ todo).*1) →
  Forall (λ ir : nat * row, ∃ c, g ir.2 = Ok c) todo →
  for_each (signal_step g) todo
    (mkDataFrame cols ((signal_row g <$> pre) ++ todo))
  = Ok (mkDataFrame cols (signal_row g <$> (pre ++ todo))).
Proof.
  revert pre. induction todo as [| ir todo IH]; intros pre Hnd Hok; simpl.
  - by rewrite !app_nil_r.
  - apply Forall_cons in Hok as [[c Hc] Hok].
    rewrite (signal_step_Ok g _ ir c Hc). simpl.
    rewrite fmap_app, NoDup_app in Hnd. destruct Hnd as (Hnd1 & Hnd2 & Hnd3).
    rewrite fmap_cons in Hnd2, Hnd3. apply NoDup_cons in Hnd3 as [Hnd3 Hnd4].
    unfold at_set. simpl. rewrite fmap_app, fmap_cons. simpl.
    rewrite decide_True by done.
    rewrite (at_set_rows_other ir.1 "Signal" c todo) by done.
    rewrite at_set_rows_other.
    2:{ rewrite <- list_fmap_compose. simpl. intros Hin.
        apply (Hnd2 _ Hin). left. }
    assert ((ir.1, <["Signal" := c]> ir.2) = signal_row g ir) as ->.
    { unfold signal_row. by rewrite Hc. }
    replace (pre ++ ir :: todo) with ((pre ++ [ir]) ++ todo)
      by (by rewrite <- (assoc_L (++))).
    replace ((signal_row g <$> pre) ++ signal_row g ir :: todo)
      with ((signal_row g <$> (pre ++ [ir])) ++ todo)
      by (by rewrite fmap_app, <- (assoc_L (++))).
    apply IH; [| done].
    rewrite !fmap_app. simpl. apply NoDup_app. split.
    + apply NoDup_app. split; [done |]. split; [| apply NoDup_singleton].
      intros x Hx Hx'%list_elem_of_singleton. subst x.
      apply (Hnd2 _ Hx). left.
    + split; [| done].
      intros x [Hx | Hx%list_elem_of_singleton]%elem_of_app Hx'.
      * apply (Hnd2 _ Hx). by right.
      * by subst x.
Qed.

Lemma for_each_signal_step (g : row → result cell) (df : DataFrame) :
  NoDup (index df) →
  Forall (λ ir : nat * row, ∃ c, g ir.2 = Ok c) (body df) →
  for_each (signal_step g) (iterrows df) df = Ok (map_signal g df).
Proof.
  intros Hnd Hok. destruct df as [cols rows].
  apply (for_each_signal_step_gen g cols [] rows); done.
Qed.

(** ** The two loops that rewrite a frame in place *)

Lemma trim_audios_step_signal (L : library) (top_db hop_length : Z)
    (x : DataFrame) (ir : nat * row) :
  trim_audios_step L top_db hop_length x ir
  = signal_step (trim_cell L top_db hop_length) x ir.
Proof.
  unfold trim_audios_step, signal_step, trim_cell.
  destruct (row_get ir.2 "Signal") as [c |]; simpl; [| done].
  destruct (as_wave c) as [wv |]; simpl; [| done].
  by destruct (librosa_effects_trim L wv top_db hop_length).
Qed.

Lemma convert_to_mfcc_step_signal (L : library) (srr : Z) (max_audio_len : Q)
    (x : DataFrame) (ir : nat * row) :
  convert_to_mfcc_step L srr max_audio_len x ir
  = signal_step (mfcc_cell L srr max_audio_len) x ir.
Proof.
  unfold convert_to_mfcc_step, signal_step, mfcc_cell.
  destruct (row_get ir.2 "Signal") as [c |]; simpl; [| done].
  destruct (as_wave c) as [wv |]; simpl; [| done].
  destruct (librosa_feature_mfcc L wv srr) as [m |]; simpl; [| done].
  by destruct (pad_or_truncate m srr max_audio_len).
Qed.

Lemma trim_audios_spec (L : library) (x : nat) (top_db hop_length : Z)
    (w : world) (df : DataFrame) :
  heap w !! x = Some df → NoDup (index df) →
  Forall (λ ir : nat * row, ∃ c, trim_cell L top_db hop_length ir.2 = Ok c)
    (body df) →
  trim_audios L x top_db hop_length w
  = Ok (x, with_object w x (map_signal (trim_cell L top_db hop_length) df)).
Proof.
  intros Hx Hnd Hok. unfold trim_audios, mbind, M_bind, deref. rewrite Hx.
  rewrite (for_each_ext _ _ _ _ (trim_audios_step_signal L top_db hop_length)).
  by rewrite for_each_signal_step.
Qed.

Lemma convert_to_mfcc_spec (L : library) (x : nat) (srr : Z)
    (max_audio_len : Q) (w : world) (df : DataFrame) :
  heap w !! x = Some df → NoDup (index df) →
  Forall (λ ir : nat * row, ∃ c, mfcc_cell L srr max_audio_len ir.2 = Ok c)
    (body df) →
  convert_to_mfcc L x srr max_audio_len w
  = Ok (x, with_object w x (map_signal (mfcc_cell L srr max_audio_len) df)).
Proof.
  intros Hx Hnd Hok. unfold convert_to_mfcc, mbind, M_bind, deref. rewrite Hx.
  rewrite (for_each_ext _ _ _ _ (convert_to_mfcc_step_signal L srr max_audio_len)).
  by rewrite for_each_signal_step.
Qed.

Lemma pad_or_truncate_Ok (m : matrix) (srr : Z) (max_audio_len : Q) :
  ∃ m', pad_or_truncate m srr max_audio_len = Ok m'.
Proof.
  unfold pad_or_truncate.
  destruct (fits m srr max_audio_len) eqn:Hfits; [| by eexists].
  apply fits_true in Hfits as [Hle Hpw]. rewrite Hpw. unfold np_pad_right.
  destruct (Z.ltb_spec (target_frames srr max_audio_len - Z.of_nat (shape1 m)) 0);
    [lia | by eexists].
Qed.



(** ** The order on strings and [np.unique] *)

Lemma ascii_compare_refl (a : Ascii.ascii) : Ascii.compare a a = Eq.
Proof. unfold Ascii.compare. apply N.compare_refl. Qed.

Lemma ascii_compare_lt_trans (a b c : Ascii.ascii) :
  Ascii.compare a b = Lt → Ascii.compare b c = Lt → Ascii.compare a c = Lt.
Proof. unfold Ascii.compare. rewrite !N.compare_lt_iff. lia. Qed.

Lemma string_compare_refl (s : string) : String.compare s s = Eq.
Proof.
  induction s as [| a s IH]; simpl; [done |]. by rewrite ascii_compare_refl.
Qed.

Lemma str_lt_irrefl (s : string) : ¬ str_lt s s.
Proof. unfold str_lt. by rewrite string_compare_refl. Qed.

Lemma str_lt_trans (s1 s2 s3 : string) :
  str_lt s1 s2 → str_lt s2 s3 → str_lt s1 s3.
Proof.
  unfold str_lt. revert s2 s3.
  induction s1 as [| a s1 IH]; intros [| b s2] [| c s3]; simpl; try done.
  destruct (Ascii.compare a b) eqn:Hab; [| | done].
  - apply Ascii.compare_eq_iff in Hab as ->.
    destruct (Ascii.compare b c) eqn:Hbc; [| done | done]. apply IH.
  - destruct (Ascii.compare b c) eqn:Hbc; [| | done].
    + apply Ascii.compare_eq_iff in Hbc as <-. by rewrite Hab.
    + by rewrite (ascii_compare_lt_trans a b c).
Qed.

Lemma insert_sorted_elem (s x : string) (l : list string) :
  x ∈ insert_sorted s l ↔ x = s ∨ x ∈ l.
Proof.
  induction l as [| a l IH]; simpl.
  - set_solver.
  - destruct (String.compare s a) eqn:Hc.
    + apply String.compare_eq_iff in Hc as ->. set_solver.
    + set_solver.
    + set_solver.
Qed.

Lemma insert_sorted_sorted (s : string) (l : list string) :
  StronglySorted str_lt l → StronglySorted str_lt (insert_sorted s l).
Proof.
  induction 1 as [| a l Hl IH Ha]; simpl.
  - repeat constructor.
  - destruct (String.compare s a) eqn:Hc.
    + by constructor.
    + constructor; [by constructor |]. constructor; [done |].
      eapply Forall_impl; [exact Ha |]. intros y Hy.
      by apply (str_lt_trans s a y).
    + constructor; [done |]. apply Forall_forall.
      intros y [-> | Hy]%insert_sorted_elem.
      * unfold str_lt. rewrite String.compare_antisym, Hc. done.
      * by apply (proj1 (Forall_forall _ _) Ha).
Qed.

Lemma np_unique_sorted (y : list string) : StronglySorted str_lt (np_unique y).
Proof.
  induction y as [| s y IH]; simpl; [constructor |].
  by apply insert_sorted_sorted.
Qed.

Lemma np_unique_elem (y : list string) (x : string) : x ∈ np_unique y ↔ x ∈ y.
Proof.
  induction y as [| s y IH]; simpl; [done |].
  rewrite insert_sorted_elem, IH. set_solver.
Qed.

Lemma sorted_NoDup (l : list string) : StronglySorted str_lt l → NoDup l.
Proof.
  induction 1 as [| a l Hl IH Ha]; constructor; [| done].
  intros Hin. apply (proj1 (Forall_forall _ _) Ha) in Hin.
  by apply str_lt_irrefl in Hin.
Qed.

Lemma np_unique_NoDup (y : list string) : NoDup (np_unique y).
Proof. apply sorted_NoDup, np_unique_sorted. Qed.


(** ** Codes *)

Lemma index_of_Some (s : string) (l : list string) (k : nat) :
  index_of s l = Some k → l !! k = Some s.
Proof.
  revert k. induction l as [| a l IH]; intros k; simpl; [done |].
  case_decide as Ha.
  - intros [= <-]. by subst.
  - destruct (index_of s l) as [k' |]; simpl; [| done].
    intros [= <-]. by apply IH.
Qed.

Lemma index_of_elem (s : string) (l : list string) :
  s ∈ l → ∃ k, index_of s l = Some k.
Proof.
  induction l as [| a l IH]; simpl; [by intros ?%elem_of_nil |].
  intros Hin. case_decide as Ha; [by eexists |].
  apply elem_of_cons in Hin as [-> | Hin]; [done |].
  destruct (IH Hin) as [k ->]. by eexists.
Qed.

Lemma index_of_lookup (s : string) (l : list string) (k : nat) :
  NoDup l → l !! k = Some s → index_of s l = Some k.
Proof.
  intros Hnd Hk. destruct (index_of_elem s l) as [k' Hk'].
  { by eapply list_elem_of_lookup_2. }
  rewrite Hk'. f_equal. apply index_of_Some in Hk'.
  by eapply NoDup_lookup.
Qed.

Lemma le_transform_Forall2 (le : LabelEncoder) (y : list string)
    (codes : list nat) :
  le_transform le y = Ok codes
  ↔ Forall2 (λ s k, index_of s (classes_ le) = Some k) y codes.
Proof.
  unfold le_transform. rewrite map_result_Forall2.
  split; intros H; (eapply Forall2_impl; [exact H |]); intros s k; simpl.
  - destruct (index_of s (classes_ le)); by intros [= ->].
  - by intros ->.
Qed.

Lemma le_inverse_transform_Forall2 (le : LabelEncoder) (codes : list nat)
    (y : list string) :
  le_inverse_transform le codes = Ok y
  ↔ Forall2 (λ k s, classes_ le !! k = Some s) codes y.
Proof.
  unfold le_inverse_transform. rewrite map_result_Forall2.
  split; intros H; (eapply Forall2_impl; [exact H |]); intros k s; simpl.
  - destruct (classes_ le !! k); by intros [= ->].
  - by intros ->.
Qed.

Lemma le_transform_fitted (y y' : list string) :
  y' ⊆ y →
  ∃ codes, le_transform (mkLabelEncoder (np_unique y)) y' = Ok codes.
Proof.
  intros Hsub. induction y' as [| s y' IH].
  - by eexists.
  - destruct IH as [codes Hcodes]; [set_solver |].
    destruct (index_of_elem s (np_unique y)) as [k Hk].
    { apply np_unique_elem. set_solver. }
    exists (k :: codes). apply le_transform_Forall2.
    constructor; [done |]. by apply le_transform_Forall2.
Qed.

Lemma py_max_spec (l : list nat) :
  l ≠ [] → ∃ m, py_max l = Ok m ∧ Forall (λ k, k ≤ m) l ∧ m ∈ l.
Proof.
  destruct l as [| k l]; [done |]. intros _. simpl. eexists. split; [done |].
  induction l as [| a l [IH1 IH2]]; simpl.
  - split; [by repeat constructor | set_solver].
  - apply Forall_cons in IH1 as [IH0 IH1]. split.
    + constructor; [lia |]. constructor; [lia |].
      eapply Forall_impl; [exact IH1 |]. simpl. lia.
    + destruct (Nat.max_spec a (foldr Nat.max k l)) as [[_ ->] | [_ ->]];
        set_solver.
Qed.

(** ** One-hot rows and [np.argmax] *)

Lemma argmax_from_zeros (best_i i n : nat) :
  argmax_from best_i 1 i (replicate n 0%Q) = best_i.
Proof. revert i. induction n as [| n IH]; intros i; simpl; [done | apply IH]. Qed.

Lemma argmax_from_one_hot (best_i i a b : nat) :
  argmax_from best_i 0 i (replicate a 0%Q ++ 1%Q :: replicate b 0%Q) = i + a.
Proof.
  revert i. induction a as [| a IH]; intros i; simpl.
  - rewrite argmax_from_zeros. lia.
  - rewrite IH. lia.
Qed.

Lemma np_argmax_one_hot (n k : nat) :
  k < n → np_argmax (<[k := 1%Q]> (replicate n 0%Q)) = Ok k.
Proof.
  intros Hk. rewrite insert_replicate_lt by done.
  destruct k as [| k]; simpl.
  - by rewrite argmax_from_zeros.
  - by rewrite argmax_from_one_hot.
Qed.

Lemma to_categorical_Forall2 (codes : list nat) (n : nat) :
  Forall (λ k, k < n) codes →
  ∃ rows, to_categorical codes n = Ok rows
    ∧ Forall2 (λ k v, v = <[k := 1%Q]> (replicate n 0%Q)) codes rows.
Proof.
  induction 1 as [| k codes Hk Hcodes (rows & Hrows & IH)].
  - by eexists.
  - exists (<[k := 1%Q]> (replicate n 0%Q) :: rows). split.
    + unfold to_categorical in *. simpl. rewrite decide_True by done. simpl.
      by rewrite Hrows.
    + by constructor.
Qed.

(** ** [convert_y_to_oneHot] *)

Lemma convert_y_to_oneHot_spec (y : list string) :
  y ≠ [] →
  ∃ codes,
    Forall2 (λ s k, index_of s (np_unique y) = Some k) y codes
    ∧ Forall (λ k, k < length (np_unique y)) codes
    ∧ convert_y_to_oneHot y
      = Ok ((λ k, <[k := 1%Q]> (replicate (length (np_unique y)) 0%Q)) <$> codes,
            mkLabelEncoder (np_unique y)).
Proof.
  intros Hy.
  destruct (le_transform_fitted y y) as [codes Hcodes]; [done |].
  pose proof (proj1 (le_transform_Forall2 _ _ _) Hcodes) as Hidx. simpl in Hidx.
  assert (Forall (λ k, k < length (np_unique y)) codes) as Hlt.
  { apply Forall_forall. intros k Hk.
    apply list_elem_of_lookup in Hk as [i Hi].
    destruct (Forall2_lookup_r _ _ _ _ _ Hidx Hi) as (s & _ & Hs).
    apply index_of_Some in Hs. by eapply lookup_lt_Some. }
  assert (codes ≠ []) as Hne.
  { intros ->. apply Forall2_nil_inv_r in Hidx. done. }
  destruct (py_max_spec codes Hne) as (m & Hmax & Hle & Hin).
  assert (m + 1 = length (np_unique y)) as Hm.
  { assert (m < length (np_unique y)) as Hm1
      by (by apply (proj1 (Forall_forall _ _) Hlt)).
    destruct (lookup_lt_is_Some_2 (np_unique y) (length (np_unique y) - 1))
      as [s Hs]; [lia |].
    assert (s ∈ y) as Hsy.
    { apply np_unique_elem. by eapply list_elem_of_lookup_2. }
    apply list_elem_of_lookup in Hsy as [i Hi].
    destruct (Forall2_lookup_l _ _ _ _ _ Hidx Hi) as (k & Hk & Hsk).
    rewrite (index_of_lookup s _ _ (np_unique_NoDup y) Hs) in Hsk.
    injection Hsk as <-.
    assert (length (np_unique y) - 1 ≤ m); [| lia].
    apply (proj1 (Forall_forall _ _) Hle). by eapply list_elem_of_lookup_2. }
  destruct (to_categorical_Forall2 codes (length (np_unique y)) Hlt)
    as (rows & Hrows & Hoh).
  exists codes. split; [done |]. split; [done |].
  unfold convert_y_to_oneHot, le_fit_transform. rewrite Hcodes. simpl.
  rewrite Hmax. simpl. rewrite Hm, Hrows. simpl. do 2 f_equal.
  clear -Hoh. induction Hoh as [| k v codes rows -> _ IH]; simpl; [done |].
  by rewrite IH.
Qed.



(** C5. For every label of the training data, the arg-max position of its
    one-hot vector decodes, through the encoder that [convert_y_to_oneHot]
    returns, to the label itself; so decoding the whole one-hot array gives
    the training labels back. *)
Theorem C5_one_hot_round_trip (y : list string) (label : string) :
  label ∈ y →
  ∃ y_oneHot le,
    convert_y_to_oneHot y = Ok (y_oneHot, le)
    ∧ (∀ i, y !! i = Some label →
         ∃ v k, y_oneHot !! i = Some v ∧ np_argmax v = Ok k
                ∧ le_inverse_transform le [k] = Ok [label])
    ∧ (codes ← map_result np_argmax y_oneHot; le_inverse_transform le codes)
      = Ok y.
Proof.
  intros Hin.
  assert (y ≠ []) as Hy by (intros ->; by apply elem_of_nil in Hin).
  destruct (convert_y_to_oneHot_spec y Hy) as (codes & Hidx & Hlt & Hconv).
  eexists _, _. split; [exact Hconv |]. split.
  - intros i Hi.
    destruct (Forall2_lookup_l _ _ _ _ _ Hidx Hi) as (k & Hk & Hsk).
    exists (<[k := 1%Q]> (replicate (length (np_unique y)) 0%Q)), k.
    split; [by rewrite list_lookup_fmap, Hk |]. split.
    + apply np_argmax_one_hot. by apply (proj1 (Forall_forall _ _) Hlt),
        (list_elem_of_lookup_2 _ i).
    + unfold le_inverse_transform. simpl.
      by rewrite (index_of_Some _ _ _ Hsk).
  - assert (map_result np_argmax
              ((λ k, <[k := 1%Q]> (replicate (length (np_unique y)) 0%Q)) <$> codes)
            = Ok codes) as ->.
    { apply map_result_Forall2, Forall2_fmap_l, Forall_Forall2_diag.
      eapply Forall_impl; [exact Hlt |]. intros k Hk.
      by apply np_argmax_one_hot. }
    simpl. apply le_inverse_transform_Forall2. simpl.
    apply Forall2_flip. eapply Forall2_impl; [exact Hidx |].
    intros s k. apply index_of_Some.
Qed.

Lemma C5_witness :
  ∃ y_oneHot le,
    convert_y_to_oneHot ["increasevolume"; "decreaseheat"; "increasevolume"]
      = Ok (y_oneHot, le)
    ∧ (codes ← map_result np_argmax y_oneHot; le_inverse_transform le codes)
      = Ok ["increasevolume"; "decreaseheat"; "increasevolume"].
Proof.
  destruct (C5_one_hot_round_trip
              ["increasevolume"; "decreaseheat"; "increasevolume"]
              "decreaseheat")
    as (y_oneHot & le & Hconv & _ & Hround); [compute_done |].
  exists y_oneHot, le. split; [exact Hconv | exact Hround].
Defined.

(** ** [remove_outliers] and the notebook globals *)

(** Called as the training cell calls it, on the frame that the global
    [X_trimed] names: of the recordings of 1, 2 and 4 seconds the first two
    remain, in this order, with their labels. *)
Example remove_outliers_in_the_demo_session :
  returned_frames (remove_outliers 0 1 3 (demo_session 1))
  = Some (Some (mkDataFrame ["Signal"]
                  [ (0, {[ "Signal" := CWave [3]%Q ]});
                    (1, {[ "Signal" := CWave [5; 1]%Q ]}) ]),
          Some (mkDataFrame ["intention"]
                  [ (0, {[ "intention" := CStr "increasevolume" ]});
                    (1, {[ "intention" := CStr "decreaseheat" ]}) ])).
Proof. vm_compute. reflexivity. Qed.

(** C3 (fails on the code). [remove_outliers] is given a frame [x] whose
    recordings last 4, 1 and 2 seconds, and [max_length = 3].  The durations
    are taken from the global [X_trimed] (1, 2 and 4 seconds), so the row
    that is dropped is the third one: the recording of 4 seconds is retained
    and the one of 2 seconds is removed. *)
Theorem C3_retains_a_recording_longer_than_max_length :
  durations demo_other 1 = Ok [4; 1; 2]%Q
  ∧ returned_frames (remove_outliers 2 3 3 (demo_session 1))
    = Some (Some (mkDataFrame ["Signal"]
                    [ (0, {[ "Signal" := CWave [1; 2; 3; 4]%Q ]});
                      (1, {[ "Signal" := CWave [7]%Q ]}) ]),
            Some (mkDataFrame ["intention"]
                    [ (0, {[ "intention" := CStr "decreaseheat" ]});
                      (1, {[ "intention" := CStr "increasevolume" ]}) ]))
  ∧ ¬ (4 <= 3)%Q.
Proof. split; [| split]; [reflexivity | vm_compute; reflexivity | by vm_compute]. Qed.

(** C4 (fails on the code). Two calls of [remove_outliers] with the same
    arguments, on the same heap and files, return different frames when the
    global [srr] differs: at 1 sample per second the recording of 4 samples
    is dropped, at 2 samples per second it is kept. *)
Theorem C4_result_depends_on_global_srr :
  heap (demo_session 1) = heap (demo_session 2)
  ∧ files (demo_session 1) = files (demo_session 2)
  ∧ glob_X_trimed (demo_session 1) = glob_X_trimed (demo_session 2)
  ∧ (frame_indexes <$> returned_frames (remove_outliers 0 1 3 (demo_session 1)))
    = Some (Some [0; 1], Some [0; 1])
  ∧ (frame_indexes <$> returned_frames (remove_outliers 0 1 3 (demo_session 2)))
    = Some (Some [0; 1; 2], Some [0; 1; 2]).
Proof. repeat split; vm_compute; reflexivity. Qed.

(** ** [trim_audios] writes into the frame it is given *)

(** C8 (as stated, fails): after [trim_audios] has returned, the frame that
    was passed in does not hold the original samples any more.  Here the
    recording [0, 3, 0, 0] of the frame at reference 0 has become [3]. *)
Lemma C8_counterexample :
  ¬ (∀ (L : library) (x : nat) (top_db hop_length : Z) (w w' : world) (r : nat),
       trim_audios L x top_db hop_length w = Ok (r, w') →
       heap w' !! x = heap w !! x).
Proof.
  intros H.
  specialize (H demo_library 0 10%Z 10%Z demo_untrimmed_world _ _ eq_refl).
  apply (f_equal (fmap signals)) in H. vm_compute in H. discriminate H.
Qed.

(** C8 (amended). [trim_audios] replaces, in the frame object it is given,
    the samples of every recording by the trimmed samples and returns the
    reference it was given.  Nothing else changes: not the other objects,
    not the files, not the globals (the sample rate among them). *)
Theorem C8_trim_audios_overwrites_in_place
    (L : library) (x : nat) (top_db hop_length : Z) (w : world)
    (df : DataFrame) :
  heap w !! x = Some df → NoDup (index df) →
  Forall (λ ir : nat * row, ∃ wv wv',
            ir.2 !! "Signal" = Some (CWave wv)
            ∧ librosa_effects_trim L wv top_db hop_length = Ok wv') (body df) →
  ∃ df' w',
    trim_audios L x top_db hop_length w = Ok (x, w')
    ∧ heap w' !! x = Some df'
    ∧ columns df' = columns df
    ∧ Forall2 (trimmed_recording L top_db hop_length) (body df) (body df')
    ∧ (∀ l, l ≠ x → heap w' !! l = heap w !! l)
    ∧ files w' = files w
    ∧ glob_X_trimed w' = glob_X_trimed w
    ∧ glob_srr w' = glob_srr w.
Proof.
  intros Hx Hnd Hrows.
  exists (map_signal (trim_cell L top_db hop_length) df),
         (with_object w x (map_signal (trim_cell L top_db hop_length) df)).
  split.
  { apply trim_audios_spec; [done | done |].
    eapply Forall_impl; [exact Hrows |].
    intros ir (wv & wv' & Hsig & Htrim). unfold trim_cell, row_get.
    rewrite Hsig. simpl. rewrite Htrim. by eexists. }
  split; [apply lookup_insert_eq |]. split; [done |]. split.
  { unfold map_signal. simpl. apply Forall2_fmap_r, Forall_Forall2_diag.
    eapply Forall_impl; [exact Hrows |].
    intros ir (wv & wv' & Hsig & Htrim). exists wv, wv'.
    split; [done |]. split; [done |].
    unfold signal_row, trim_cell, row_get. rewrite Hsig. simpl.
    by rewrite Htrim. }
  split; [| done].
  intros l Hl. simpl. by rewrite lookup_insert_ne.
Qed.

Lemma C8_witness :
  ∃ df' w',
    trim_audios demo_library 0 10 10 demo_untrimmed_world = Ok (0, w')
    ∧ heap w' !! 0 = Some df'
    ∧ Forall2 (trimmed_recording demo_library 10 10)
        (body demo_untrimmed) (body df').
Proof.
  destruct (C8_trim_audios_overwrites_in_place demo_library 0 10 10
              demo_untrimmed_world demo_untrimmed)
    as (df' & w' & Hrun & Hx & _ & Hrows & _).
  - reflexivity.
  - compute_done.
  - repeat constructor; eexists _, _; (split; reflexivity).
  - exists df', w'. split; [exact Hrun |]. split; [exact Hx | exact Hrows].
Defined.

(** ** [read_data] *)

Lemma index_frame_of_csv (f : csv) :
  index (frame_of_csv f) = seq 0 (length (records f)).
Proof.
  unfold index, frame_of_csv. simpl. rewrite fmap_imap.
  rewrite <- (list_fmap_id (seq 0 (length (records f)))).
  apply (imap_seq_0 (records f) id).
Qed.

Lemma index_set_column_scalar (df : DataFrame) (col : string) (v : cell) :
  index (set_column_scalar df col v) = index df.
Proof.
  unfold index, set_column_scalar. simpl. rewrite <- list_fmap_compose.
  by apply list_fmap_ext.
Qed.

Lemma index_map_signal (g : row → result cell) (df : DataFrame) :
  index (map_signal g df) = index df.
Proof.
  unfold index, map_signal. simpl. rewrite <- list_fmap_compose.
  by apply list_fmap_ext.
Qed.

Lemma load_row_insert_signal (L : library) (r : row) (c : cell) :
  load_row L (<["Signal" := c]> r) = load_row L r.
Proof. unfold load_row, row_get. by rewrite lookup_insert_ne. Qed.

Lemma read_data_step_load_row (L : library) (st : DataFrame * option Z)
    (ir : nat * row) :
  read_data_step L st ir
  = (wr ← load_row L ir.2;
     Ok (at_set st.1 ir.1 "Signal" (CWave wr.1), Some wr.2)).
Proof.
  unfold read_data_step, load_row.
  destruct (row_get ir.2 "path") as [c |]; simpl; [| done].
  destruct (as_str c) as [path |]; simpl; [| done].
  by destruct (librosa_load L path) as [[wv rate] |].
Qed.

Lemma read_data_loop (L : library) (todo : list (nat * row))
    (df : DataFrame) (srr : option Z) :
  Forall (λ ir : nat * row, ∃ wr, load_row L ir.2 = Ok wr) todo →
  for_each (read_data_step L) todo (df, srr)
  = (df' ← for_each (signal_step (load_cell L)) todo df;
     Ok (df', foldl (λ _ ir, rate_of L ir.2) srr todo)).
Proof.
  revert df srr. induction todo as [| ir todo IH]; intros df srr Hok; simpl.
  - done.
  - apply Forall_cons in Hok as [[[wv rate] Hwr] Hok].
    assert (read_data_step L (df, srr) ir
            = Ok (at_set df ir.1 "Signal" (CWave wv), Some rate)) as ->.
    { rewrite read_data_step_load_row. by rewrite Hwr. }
    assert (signal_step (load_cell L) df ir
            = Ok (at_set df ir.1 "Signal" (CWave wv))) as ->.
    { apply signal_step_Ok. unfold load_cell. by rewrite Hwr. }
    simpl. rewrite IH by done.
    assert (rate_of L ir.2 = Some rate) as ->; [| done].
    unfold rate_of. by rewrite Hwr.
Qed.

Lemma foldl_rate_of (L : library) (rows : list (nat * row))
    (wrs : list (wave * Z)) (srr : option Z) :
  Forall2 (λ (ir : nat * row) wr, load_row L ir.2 = Ok wr) rows wrs →
  foldl (λ _ ir, rate_of L ir.2) srr rows
  = match last_rate wrs with Some z => Some z | None => srr end.
Proof.
  intros H. revert srr.
  induction H as [| ir wr rows wrs Hwr H IH]; intros srr; simpl; [done |].
  rewrite IH. unfold rate_of, last_rate. rewrite Hwr.
  destruct wrs as [| wr' wrs]; simpl; [by destruct wr |].
  destruct (last (wr' :: wrs)) eqn:Hlast; simpl; [done |].
  by apply last_None in Hlast.
Qed.

Lemma read_data_loaded (L : library) (csv_path data : string) (w : world)
    (f : csv) (wrs : list (wave * Z)) :
  files w !! csv_path = Some f →
  Forall2 (λ r wr, load_row L r = Ok wr) (records f) wrs →
  read_data L csv_path data w
  = read_data_return data (loaded_frame L f) (last_rate wrs) w.
Proof.
  intros Hf Hload.
  unfold read_data, mbind at 1, M_bind at 1, pd_read_csv. rewrite Hf.
  set (dev := set_column_scalar (frame_of_csv f) "Signal" (CStr EmptyString)).
  assert (Forall2 (λ (ir : nat * row) wr, load_row L ir.2 = Ok wr)
            (body dev) wrs) as Hrows.
  { unfold dev, set_column_scalar, frame_of_csv. simpl.
    apply Forall2_fmap_l. rewrite Forall2_lookup. intros i.
    rewrite list_lookup_imap.
    pose proof (proj1 (Forall2_lookup _ _ _) Hload i) as Hi.
    destruct Hi as [r wr Hi |]; simpl; constructor.
    simpl. by rewrite load_row_insert_signal. }
  unfold mbind, M_bind, lift, iterrows.
  rewrite read_data_loop.
  2:{ eapply Forall2_Forall_l; [exact Hrows |].
      apply Forall_forall. intros wr _ ir Hir. by exists wr. }
  rewrite for_each_signal_step.
  - simpl. rewrite (foldl_rate_of L _ wrs) by done.
    unfold loaded_frame. fold dev. by destruct (last_rate wrs).
  - unfold dev. rewrite index_set_column_scalar, index_frame_of_csv.
    apply NoDup_seq.
  - eapply Forall2_Forall_l; [exact Hrows |].
    apply Forall_forall. intros [wv rate] _ ir Hir.
    exists (CWave wv). unfold load_cell. by rewrite Hir.
Qed.

(** ** Frames seen through their ["Signal"] column *)

Lemma signals_lookup (df : DataFrame) (cs : list cell) (i : nat) :
  signals df = Some <$> cs →
  match body df !! i with
  | Some ir => ∃ c, ir.2 !! "Signal" = Some c ∧ cs !! i = Some c
  | None => cs !! i = None
  end.
Proof.
  intros H. apply (f_equal (λ l, l !! i)) in H. unfold signals in H.
  rewrite !list_lookup_fmap in H.
  destruct (body df !! i) as [ir |]; simpl in H.
  - destruct (cs !! i) as [c |]; simpl in H; [| done].
    exists c. split; [congruence | done].
  - by destruct (cs !! i).
Qed.

Lemma map_signal_cells (k : cell → result cell) (df : DataFrame)
    (cs cs' : list cell) :
  holds_signals df cs →
  Forall2 (λ c c', k c = Ok c') cs cs' →
  Forall (λ ir : nat * row, ∃ c, (c ← row_get ir.2 "Signal"; k c) = Ok c)
    (body df)
  ∧ holds_signals (map_signal (λ r, c ← row_get r "Signal"; k c) df) cs'.
Proof.
  intros (Hcol & Hnd & Hsig) Hk.
  assert (∀ i ir, body df !! i = Some ir →
            ∃ c', (c ← row_get ir.2 "Signal"; k c) = Ok c' ∧ cs' !! i = Some c')
    as Hrow.
  { intros i ir Hir. pose proof (signals_lookup df cs i Hsig) as Hi.
    rewrite Hir in Hi. destruct Hi as (c & Hc & Hci).
    destruct (Forall2_lookup_l _ _ _ _ _ Hk Hci) as (c' & Hc' & Hkc).
    exists c'. unfold row_get. rewrite Hc. simpl. by rewrite Hkc. }
  split.
  - apply Forall_lookup. intros i ir Hir.
    destruct (Hrow i ir Hir) as (c' & Hc' & _). by exists c'.
  - split; [done |]. split; [by rewrite index_map_signal |].
    apply list_eq. intros i. unfold signals, map_signal. simpl.
    rewrite <- list_fmap_compose, !list_lookup_fmap.
    destruct (body df !! i) as [ir |] eqn:Hir; simpl.
    + destruct (Hrow i ir Hir) as (c' & Hc' & Hi).
      rewrite lookup_insert_eq, Hc', Hi. done.
    + pose proof (signals_lookup df cs i Hsig) as Hi. rewrite Hir in Hi.
      apply Forall2_length in Hk.
      apply lookup_ge_None in Hi.
      rewrite (proj2 (lookup_ge_None cs' i)); [done | lia].
Qed.

Lemma trim_audios_signals (L : library) (x : nat) (top_db hop_length : Z)
    (w : world) (df : DataFrame) (wvs ts : list wave) :
  heap w !! x = Some df →
  holds_signals df (CWave <$> wvs) →
  Forall2 (λ wv t, librosa_effects_trim L wv top_db hop_length = Ok t) wvs ts →
  ∃ df', trim_audios L x top_db hop_length w = Ok (x, with_object w x df')
    ∧ holds_signals df' (CWave <$> ts)
    ∧ index df' = index df.
Proof.
  intros Hx Hdf Htrim.
  destruct (map_signal_cells
              (λ c, signal ← as_wave c;
                    wav ← librosa_effects_trim L signal top_db hop_length;
                    Ok (CWave wav))
              df (CWave <$> wvs) (CWave <$> ts) Hdf) as [Hok Hsig].
  { apply Forall2_fmap. eapply Forall2_impl; [exact Htrim |].
    intros wv t Ht. simpl in *. by rewrite Ht. }
  eexists. split; [| split; [exact Hsig | apply index_map_signal]].
  apply trim_audios_spec; [done | apply Hdf | exact Hok].
Qed.

Lemma convert_to_mfcc_signals (L : library) (x : nat) (srr : Z)
    (max_audio_len : Q) (w : world) (df : DataFrame) (wvs : list wave)
    (ms : list matrix) :
  heap w !! x = Some df →
  holds_signals df (CWave <$> wvs) →
  Forall2 (λ wv m, (mfcc ← librosa_feature_mfcc L wv srr;
                    pad_or_truncate mfcc srr max_audio_len) = Ok m) wvs ms →
  ∃ df', convert_to_mfcc L x srr max_audio_len w = Ok (x, with_object w x df')
    ∧ holds_signals df' (CMfcc <$> ms)
    ∧ index df' = index df.
Proof.
  intros Hx Hdf Hmfcc.
  destruct (map_signal_cells
              (λ c, signal ← as_wave c;
                    mfcc ← librosa_feature_mfcc L signal srr;
                    mfcc ← pad_or_truncate mfcc srr max_audio_len;
                    Ok (CMfcc mfcc))
              df (CWave <$> wvs) (CMfcc <$> ms) Hdf) as [Hok Hsig].
  { apply Forall2_fmap. eapply Forall2_impl; [exact Hmfcc |].
    intros wv m Hm. simpl in *.
    destruct (librosa_feature_mfcc L wv srr) as [m0 |]; simpl in *; [| done].
    by rewrite Hm. }
  eexists. split; [| split; [exact Hsig | apply index_map_signal]].
  apply convert_to_mfcc_spec; [done | apply Hdf | exact Hok].
Qed.

Lemma df_copy_spec (x : nat) (w : world) (df : DataFrame) :
  heap w !! x = Some df →
  df_copy x w
  = Ok (fresh (dom (heap w)), with_object w (fresh (dom (heap w))) df).
Proof.
  intros Hx. unfold df_copy, mbind, M_bind, deref. by rewrite Hx.
Qed.

Lemma M_bind_Ok {A B : Type} (m : M A) (f : A → M B) (w w' : world) (a : A) :
  m w = Ok (a, w') → (m ≫= f) w = f a w'.
Proof. intros H. unfold mbind, M_bind. by rewrite H. Qed.

Lemma M_bind_lift {A B : Type} (r : result A) (f : A → M B) (w : world) (a : A) :
  r = Ok a → (lift r ≫= f) w = f a w.
Proof. intros ->. done. Qed.

Lemma deref_Ok (x : nat) (w : world) (df : DataFrame) :
  heap w !! x = Some df → deref x w = Ok (df, w).
Proof. intros H. unfold deref. by rewrite H. Qed.

Lemma convert_to_numpy_test (x : nat) (y : option nat)
    (y_columns : list string) (data : string) (w : world) (df : DataFrame)
    (ms : list matrix) :
  heap w !! x = Some df →
  holds_signals df (CMfcc <$> ms) →
  String.eqb data "train" = false →
  convert_to_numpy x ["Signal"] y y_columns data w = Ok ((ms, None), w).
Proof.
  intros Hx (Hcol & Hnd & Hsig) Hdata.
  unfold convert_to_numpy.
  rewrite (M_bind_Ok _ _ _ _ _ (deref_Ok x w df Hx)).
  erewrite M_bind_lift.
  2:{ unfold select_columns. rewrite bool_decide_eq_true_2; [done |].
      by repeat constructor. }
  erewrite M_bind_lift; [by rewrite Hdata |]. simpl.
  apply map_result_Forall2, Forall2_fmap_l, Forall2_lookup. intros i.
  pose proof (signals_lookup df _ i Hsig) as Hi.
  rewrite list_lookup_fmap in Hi.
  destruct (body df !! i) as [ir |].
  - destruct Hi as (c & Hc & Hci).
    destruct (ms !! i) as [m |]; simpl in Hci; [| done].
    injection Hci as <-. constructor. simpl. unfold row_get.
    rewrite (map_lookup_filter_Some_2 _ _ "Signal" (CMfcc m)); [done | done |].
    simpl. set_solver.
  - destruct (ms !! i); [done | constructor].
Qed.

Lemma result_bind_Ok_inv {A B : Type} (r : result A) (f : A → result B) (b : B) :
  r ≫= f = Ok b → ∃ a, r = Ok a ∧ f a = Ok b.
Proof. destruct r as [a |]; simpl; [by exists a | done]. Qed.

Lemma loaded_frame_signals (L : library) (f : csv) (wrs : list (wave * Z)) :
  Forall2 (λ r wr, load_row L r = Ok wr) (records f) wrs →
  holds_signals (loaded_frame L f) (CWave <$> wrs.*1)
  ∧ columns (loaded_frame L f)
    = columns (set_column_scalar (frame_of_csv f) "Signal" (CStr EmptyString))
  ∧ df_len (loaded_frame L f) = length (records f).
Proof.
  intros Hload. unfold loaded_frame. split; [split; [| split] | split].
  - simpl. case_bool_decide; [done |]. set_solver.
  - rewrite index_map_signal, index_set_column_scalar, index_frame_of_csv.
    apply NoDup_seq.
  - apply list_eq. intros i. unfold signals, map_signal. simpl.
    rewrite <- !list_fmap_compose, !list_lookup_fmap, list_lookup_imap.
    pose proof (proj1 (Forall2_lookup _ _ _) Hload i) as Hi.
    destruct Hi as [r [wv rate] Hi |]; simpl; [| done].
    rewrite lookup_insert_eq. unfold load_cell.
    by rewrite load_row_insert_signal, Hi.
  - done.
  - unfold df_len, map_signal, set_column_scalar, frame_of_csv. simpl.
    by rewrite !length_fmap, length_imap.
Qed.

Lemma read_data_return_test (data : string) (dev : DataFrame) (rate : Z)
    (w : world) (cs : list cell) :
  String.eqb data "train" = false →
  "path" ∈ columns dev →
  holds_signals dev cs →
  ∃ df,
    read_data_return data dev (Some rate) w
    = Ok (TestData (fresh (dom (heap w))) rate,
          with_object w (fresh (dom (heap w))) df)
    ∧ holds_signals df cs
    ∧ df_len df = df_len dev.
Proof.
  intros Hdata Hpath (Hcol & Hnd & Hsig).
  unfold read_data_return. rewrite Hdata.
  eexists. split; [| split].
  - erewrite M_bind_lift.
    2:{ unfold drop_columns. rewrite bool_decide_eq_true_2; [done |].
        by repeat constructor. }
    reflexivity.
  - split; [| split]; simpl.
    + apply list_elem_of_filter. split; [| done].
      intros [Heq | Hin]%elem_of_cons; [done | by apply elem_of_nil in Hin].
    + unfold index in *. simpl. rewrite <- list_fmap_compose.
      erewrite list_fmap_ext; [exact Hnd |]. done.
    + rewrite <- Hsig. unfold signals. simpl. rewrite <- list_fmap_compose.
      apply list_fmap_ext. intros i ir _. simpl.
      by rewrite lookup_delete_ne.
  - unfold df_len. simpl. by rewrite length_fmap.
Qed.

Lemma prediction_row (i : nat) (s : string) :
  rename_row "0" "Predicted"
    (filter (λ kv : string * cell, kv.1 ∈ ["Id"; "0"])
       (<["Id" := CInt (Z.of_nat i)]> ({[ "0" := CStr s ]} : row)))
  = {[ "Id" := CInt (Z.of_nat i); "Predicted" := CStr s ]}.
Proof.
  rewrite map_filter_id.
  2:{ intros k c Hk. simpl.
      apply lookup_insert_Some in Hk as [[<- _] | [_ Hk]]; [set_solver |].
      apply lookup_singleton_Some in Hk as [<- _]. set_solver. }
  unfold rename_row.
  rewrite lookup_insert_ne by done. rewrite lookup_singleton_eq.
  rewrite delete_insert_ne by done. rewrite delete_singleton_eq.
  rewrite insert_empty. apply insert_insert_ne. done.
Qed.

Lemma prediction_table_csv (labels : list string) :
  ∃ df, prediction_table labels = Ok df
        ∧ csv_of_frame df = prediction_csv labels.
Proof.
  unfold prediction_table. eexists. split; [reflexivity |].
  unfold csv_of_frame, prediction_csv. simpl. f_equal.
  rewrite <- !list_fmap_compose, fmap_imap.
  apply imap_ext. intros i s _. simpl. apply prediction_row.
Qed.

(** ** [test_output_csv] *)

Lemma test_output_csv_spec (L : library)
    (saved_model_path output_csv_path evaluate_csv_path : string)
    (le : LabelEncoder) (max_audio_length : Q) (top_db hop_length : Z)
    (w : world) (model : keras_model L) (f : csv) (labels : list string) :
  load_model L saved_model_path = Ok model →
  files w !! evaluate_csv_path = Some f →
  "path" ∈ header f →
  predicted_labels L model le max_audio_length top_db hop_length (records f)
    = Ok labels →
  ∃ w',
    test_output_csv L saved_model_path output_csv_path evaluate_csv_path le
      max_audio_length top_db hop_length w = Ok (0%Z, w')
    ∧ files w' = <[output_csv_path := prediction_csv labels]> (files w)
    ∧ glob_X_trimed w' = glob_X_trimed w
    ∧ glob_srr w' = glob_srr w.
Proof.
  intros Hmodel Hf Hpath Hlabels.
  unfold predicted_labels in Hlabels.
  apply result_bind_Ok_inv in Hlabels as (wrs & Hwrs & Hlabels).
  apply result_bind_Ok_inv in Hlabels as (srr & Hsrr & Hlabels).
  apply result_bind_Ok_inv in Hlabels as (trimmed & Htrim & Hlabels).
  apply result_bind_Ok_inv in Hlabels as (X_n_test & Hmfcc & Hlabels).
  apply result_bind_Ok_inv in Hlabels as (ps & Hps & Hlabels).
  apply result_bind_Ok_inv in Hlabels as (codes & Hcodes & Hlabels).
  apply map_result_Forall2 in Hwrs, Htrim, Hmfcc.
  assert (last_rate wrs = Some srr) as Hlast.
  { unfold local_srr in Hsrr. destruct (last_rate wrs); by simplify_eq. }
  destruct (loaded_frame_signals L f wrs Hwrs) as (Hdev & Hcols & _).
  (* read_data *)
  destruct (read_data_return_test "Not_train" (loaded_frame L f) srr w
              (CWave <$> wrs.*1) eq_refl) as (df1 & Hread & Hdf1 & _);
    [| done |].
  { rewrite Hcols. simpl. case_bool_decide; set_solver. }
  set (l1 := fresh (dom (heap w))) in *.
  set (w1 := with_object w l1 df1) in *.
  (* trim_audios *)
  destruct (trim_audios_signals L l1 top_db hop_length w1 df1 (wrs.*1) trimmed)
    as (df2 & Htrim_run & Hdf2 & _); [apply lookup_insert_eq | done | |].
  { by apply Forall2_fmap_l. }
  set (w2 := with_object w1 l1 df2) in *.
  (* copy *)
  pose proof (df_copy_spec l1 w2 df2 (lookup_insert_eq _ _ _)) as Hcopy.
  set (l2 := fresh (dom (heap w2))) in *.
  set (w3 := with_object w2 l2 df2) in *.
  (* convert_to_mfcc *)
  destruct (convert_to_mfcc_signals L l2 srr max_audio_length w3 df2 trimmed
              X_n_test) as (df3 & Hmfcc_run & Hdf3 & _);
    [apply lookup_insert_eq | done | done |].
  set (w4 := with_object w3 l2 df3) in *.
  (* convert_to_numpy *)
  pose proof (convert_to_numpy_test l2 None [] "not train" w4 df3 X_n_test
                (lookup_insert_eq _ _ _) Hdf3 eq_refl) as Hnumpy.
  destruct (prediction_table_csv labels) as (df & Htable & Hcsv).
  eexists. split.
  - unfold test_output_csv.
    erewrite M_bind_lift by exact Hmodel.
    erewrite M_bind_Ok.
    2:{ rewrite (read_data_loaded L _ _ w f wrs Hf Hwrs), Hlast. exact Hread. }
    erewrite M_bind_lift by reflexivity. cbv beta iota zeta.
    erewrite M_bind_Ok by exact Htrim_run.
    erewrite M_bind_Ok by exact Hcopy.
    erewrite M_bind_Ok by exact Hmfcc_run.
    erewrite M_bind_Ok by exact Hnumpy. cbv beta iota zeta.
    erewrite M_bind_lift by exact Hps.
    erewrite M_bind_lift by exact Hcodes.
    erewrite M_bind_lift by exact Hlabels.
    erewrite M_bind_lift by exact Htable.
    reflexivity.
  - simpl. by rewrite Hcsv.
Qed.

Lemma map_result_Ok {A B : Type} (f : A → result B) (l : list A) :
  Forall (λ a, ∃ b, f a = Ok b) l → ∃ l', map_result f l = Ok l'.
Proof.
  induction 1 as [| a l [b Hb] _ [l' IH]]; simpl; [by eexists |].
  rewrite Hb. simpl. rewrite IH. by eexists.
Qed.








(** ** Labels at inference time *)

Lemma load_row_path (L : library) (r r' : row) :
  r !! "path" = r' !! "path" → load_row L r = load_row L r'.
Proof. intros H. unfold load_row, row_get. by rewrite H. Qed.

Lemma map_result_load_row_paths (L : library) (rs rs' : list row) :
  (λ r : row, r !! "path") <$> rs = (λ r : row, r !! "path") <$> rs' →
  map_result (load_row L) rs = map_result (load_row L) rs'.
Proof.
  revert rs'. induction rs as [| r rs IH]; intros [| r' rs']; simpl; try done.
  intros [= Hr Hrs]. by rewrite (load_row_path L r r' Hr), (IH rs' Hrs).
Qed.

Lemma le_inverse_transform_unknown (le : LabelEncoder) (codes : list nat) :
  (∃ k, k ∈ codes ∧ length (classes_ le) ≤ k) →
  le_inverse_transform le codes = Raise ValueError.
Proof.
  intros (k & Hin & Hk). unfold le_inverse_transform.
  induction codes as [| c codes IH]; [by apply elem_of_nil in Hin |]. simpl.
  destruct (classes_ le !! c) as [s |] eqn:Hc; simpl; [| done].
  apply elem_of_cons in Hin as [-> | Hin].
  - apply lookup_lt_Some in Hc. lia.
  - by rewrite IH.
Qed.

(** C9 (as stated, fails): an evaluation file whose records carry the label
    [activatelights], which the encoder does not know, is processed without
    any error: a result is returned. *)
Lemma C9_counterexample :
  ¬ (∀ (L : library)
       (saved_model_path output_csv_path evaluate_csv_path : string)
       (le : LabelEncoder) (max_audio_length : Q) (top_db hop_length : Z)
       (w : world) (f : csv),
       files w !! evaluate_csv_path = Some f →
       carries_unseen_label le f →
       ∃ e, test_output_csv L saved_model_path output_csv_path
              evaluate_csv_path le max_audio_length top_db hop_length w
            = Raise e).
Proof.
  intros H.
  destruct (H demo_library "audio_classification.hdf5" "output.csv"
              "./dsl_data/evaluation.csv" demo_encoder 3%Q 10%Z 10%Z
              demo_labelled_world demo_evaluation_labelled) as [e Hrun].
  - reflexivity.
  - exists (demo_record "two.wav" "activate" "lights" 0), "activate", "lights".
    split; [by left |]. split; [reflexivity |]. split; [reflexivity |].
    compute_done.
  - vm_compute in Hrun. discriminate Hrun.
Qed.

(** C9 (amended). [test_output_csv] does not read the labels of the
    evaluation file: two files with the same [path] column give the same
    predictions, whatever their other columns hold, so a label that the
    encoder does not know raises nothing.  The encoder is only used to
    decode: every predicted label is one of its classes, and decoding an
    index outside [0 .. C-1] is a [ValueError], not a default class. *)
Theorem C9_labels_of_the_evaluation_file_are_not_read (L : library)
    (saved_model_path output_csv_path evaluate_csv_path : string)
    (le : LabelEncoder) (max_audio_length : Q) (top_db hop_length : Z)
    (w1 w2 : world) (model : keras_model L) (f1 f2 : csv)
    (labels : list string) :
  load_model L saved_model_path = Ok model →
  files w1 !! evaluate_csv_path = Some f1 →
  files w2 !! evaluate_csv_path = Some f2 →
  "path" ∈ header f1 → "path" ∈ header f2 →
  (λ r : row, r !! "path") <$> records f1
    = (λ r : row, r !! "path") <$> records f2 →
  predicted_labels L model le max_audio_length top_db hop_length (records f1)
    = Ok labels →
  (∃ w1', test_output_csv L saved_model_path output_csv_path
            evaluate_csv_path le max_audio_length top_db hop_length w1
          = Ok (0%Z, w1')
          ∧ files w1' !! output_csv_path = Some (prediction_csv labels))
  ∧ (∃ w2', test_output_csv L saved_model_path output_csv_path
              evaluate_csv_path le max_audio_length top_db hop_length w2
            = Ok (0%Z, w2')
            ∧ files w2' !! output_csv_path = Some (prediction_csv labels))
  ∧ Forall (λ s, s ∈ classes_ le) labels
  ∧ (∀ codes, (∃ k, k ∈ codes ∧ length (classes_ le) ≤ k) →
              le_inverse_transform le codes = Raise ValueError).
Proof.
  intros Hmodel Hf1 Hf2 Hp1 Hp2 Hpaths Hlabels.
  assert (predicted_labels L model le max_audio_length top_db hop_length
            (records f2) = Ok labels) as Hlabels2.
  { rewrite <- Hlabels. unfold predicted_labels.
    by rewrite (map_result_load_row_paths L _ _ Hpaths). }
  split; [| split; [| split]].
  - destruct (test_output_csv_spec L saved_model_path output_csv_path
                evaluate_csv_path le max_audio_length top_db hop_length w1
                model f1 labels Hmodel Hf1 Hp1 Hlabels)
      as (w' & Hrun & Hfiles & _).
    exists w'. split; [done |]. rewrite Hfiles. apply lookup_insert_eq.
  - destruct (test_output_csv_spec L saved_model_path output_csv_path
                evaluate_csv_path le max_audio_length top_db hop_length w2
                model f2 labels Hmodel Hf2 Hp2 Hlabels2)
      as (w' & Hrun & Hfiles & _).
    exists w'. split; [done |]. rewrite Hfiles. apply lookup_insert_eq.
  - unfold predicted_labels in Hlabels.
    repeat (apply result_bind_Ok_inv in Hlabels as (? & _ & Hlabels)).
    apply le_inverse_transform_Forall2 in Hlabels.
    apply Forall_lookup. intros i s Hi.
    destruct (Forall2_lookup_r _ _ _ _ _ Hlabels Hi) as (k & _ & Hk).
    by eapply list_elem_of_lookup_2.
  - apply le_inverse_transform_unknown.
Qed.

Lemma C9_witness :
  (∃ w1', test_output_csv demo_library "audio_classification.hdf5"
            "output.csv" "./dsl_data/evaluation.csv" demo_encoder 3 10 10
            demo_world = Ok (0%Z, w1')
          ∧ files w1' !! "output.csv"
            = Some (prediction_csv ["decreaseheat"; "increasevolume"]))
  ∧ (∃ w2', test_output_csv demo_library "audio_classification.hdf5"
              "output.csv" "./dsl_data/evaluation.csv" demo_encoder 3 10 10
              demo_labelled_world = Ok (0%Z, w2')
            ∧ files w2' !! "output.csv"
              = Some (prediction_csv ["decreaseheat"; "increasevolume"])).
Proof.
  destruct (C9_labels_of_the_evaluation_file_are_not_read demo_library
              "audio_classification.hdf5" "output.csv"
              "./dsl_data/evaluation.csv" demo_encoder 3 10 10
              demo_world demo_labelled_world tt
              demo_evaluation demo_evaluation_labelled
              ["decreaseheat"; "increasevolume"])
    as (H1 & H2 & _).
  - reflexivity.
  - reflexivity.
  - reflexivity.
  - compute_done.
  - compute_done.
  - reflexivity.
  - vm_compute. reflexivity.
  - split; [exact H1 | exact H2].
Defined.

(** ** [read_data] on training data *)

Lemma zip_with_fst_index {B : Type} (g : nat * row → B → row)
    (rows : list (nat * row)) (vs : list B) :
  length vs = length rows →
  (zip_with (λ ir v, (ir.1, g ir v)) rows vs).*1 = rows.*1.
Proof.
  revert vs. induction rows as [| ir rows IH]; intros [| v vs] Hlen;
    simpl in *; try done.
  f_equal. apply IH. lia.
Qed.

Lemma read_data_return_train (data : string) (dev : DataFrame) (rate : Z)
    (w : world) (cs : list cell) :
  String.eqb data "train" = true →
  Forall (λ c, c ∈ columns dev) ["Id"; "action"; "object"; "path"] →
  Forall (λ ir : nat * row, ∃ a o, ir.2 !! "action" = Some (CStr a)
                                   ∧ ir.2 !! "object" = Some (CStr o))
    (body dev) →
  holds_signals dev cs →
  ∃ dfX dfY,
    let lx := fresh (dom (heap w)) in
    let ly := fresh (dom (heap (with_object w lx dfX))) in
    read_data_return data dev (Some rate) w
    = Ok (TrainData lx ly rate, with_object (with_object w lx dfX) ly dfY)
    ∧ holds_signals dfX cs
    ∧ index dfX = index dev
    ∧ index dfY = index dev.
Proof.
  intros Hdata Hcols Hrows (Hcol & Hnd & Hsig).
  destruct (map_result_Ok (λ ir : nat * row, str_add ir.2 "action" "object")
              (body dev)) as [intention Hint].
  { eapply Forall_impl; [exact Hrows |]. intros ir (a & o & Ha & Ho).
    unfold str_add, row_get. rewrite Ha, Ho. by eexists. }
  assert (length intention = length (body dev)) as Hlen.
  { symmetry. eapply Forall2_length. by apply map_result_Forall2. }
  unfold read_data_return. rewrite Hdata.
  eexists _, _. cbv zeta. split; [| split; [| split]].
  - erewrite M_bind_lift.
    2:{ unfold drop_columns. by rewrite bool_decide_eq_true_2. }
    erewrite M_bind_Ok by reflexivity.
    erewrite M_bind_lift.
    2:{ unfold select_columns. rewrite bool_decide_eq_true_2; [done |].
        apply Forall_cons in Hcols as [_ Hcols].
        apply Forall_cons in Hcols as [Ha Hcols].
        apply Forall_cons in Hcols as [Ho _]. by repeat constructor. }
    erewrite M_bind_lift by exact Hint.
    reflexivity.
  - split; [| split]; simpl.
    + apply list_elem_of_filter. split; [| done]. compute_done.
    + unfold index in *. simpl. rewrite <- list_fmap_compose.
      erewrite list_fmap_ext; [exact Hnd |]. done.
    + rewrite <- Hsig. unfold signals. simpl. rewrite <- list_fmap_compose.
      apply list_fmap_ext. intros i ir _. simpl.
      by rewrite !lookup_delete_ne.
  - unfold index. simpl. rewrite <- list_fmap_compose.
    by apply list_fmap_ext.
  - unfold index, set_column_rows. simpl.
    rewrite (zip_with_fst_index (λ ir v, <["intention" := v]> ir.2)).
    + rewrite <- list_fmap_compose. by apply list_fmap_ext.
    + by rewrite length_fmap.
Qed.

Lemma loaded_frame_columns (L : library) (f : csv) (c : string) :
  c ∈ header f → c ∈ columns (loaded_frame L f).
Proof.
  intros Hc. unfold loaded_frame. simpl. case_bool_decide; set_solver.
Qed.

Lemma loaded_frame_rows (L : library) (f : csv) (col : string)
    (P : option cell → Prop) :
  col ≠ "Signal" →
  Forall (λ r : row, P (r !! col)) (records f) →
  Forall (λ ir : nat * row, P (ir.2 !! col)) (body (loaded_frame L f)).
Proof.
  intros Hcol H. unfold loaded_frame, map_signal, signal_row. simpl.
  rewrite <- list_fmap_compose. apply Forall_fmap, Forall_lookup.
  intros i ir Hi. rewrite list_lookup_imap in Hi.
  destruct (records f !! i) as [r |] eqn:Hr; simpl in Hi; [| done].
  injection Hi as <-. simpl. rewrite !lookup_insert_ne by done.
  by apply (proj1 (Forall_lookup _ _) H i r).
Qed.

Lemma loaded_frame_ext (L L' : library) (f : csv) :
  Forall (λ r, load_cell L r = load_cell L' r) (records f) →
  loaded_frame L f = loaded_frame L' f.
Proof.
  intros H. unfold loaded_frame, map_signal. f_equal. apply Forall_fmap_ext_1.
  simpl. apply Forall_fmap, Forall_lookup. intros i ir Hi.
  rewrite list_lookup_imap in Hi.
  destruct (records f !! i) as [r |] eqn:Hr; simpl in Hi; [| done].
  injection Hi as <-. simpl. unfold signal_row. simpl.
  pose proof (proj1 (Forall_lookup _ _) H i r Hr) as Heq.
  unfold load_cell in *. by rewrite !load_row_insert_signal, Heq.
Qed.

Lemma read_data_Ok (L : library) (csv_path data : string) (w : world)
    (f : csv) (wrs : list (wave * Z)) (rate : Z) :
  files w !! csv_path = Some f →
  Forall2 (λ r wr, load_row L r = Ok wr) (records f) wrs →
  last_rate wrs = Some rate →
  read_data_columns data f →
  ∃ res w',
    read_data_return data (loaded_frame L f) (Some rate) w = Ok (res, w')
    ∧ srr_of res = rate
    ∧ (String.eqb data "train" = true →
       ∃ lx ly dfX dfY,
         res = TrainData lx ly rate
         ∧ heap w' !! lx = Some dfX ∧ heap w' !! ly = Some dfY ∧ lx ≠ ly
         ∧ holds_signals dfX (CWave <$> wrs.*1)
         ∧ index dfX = seq 0 (length wrs)
         ∧ index dfY = seq 0 (length wrs)).
Proof.
  intros Hf Hload Hlast Hcols.
  destruct (loaded_frame_signals L f wrs Hload) as (Hdev & _ & _).
  assert (index (loaded_frame L f) = seq 0 (length wrs)) as Hidx.
  { unfold loaded_frame.
    rewrite index_map_signal, index_set_column_scalar, index_frame_of_csv.
    by rewrite (Forall2_length _ _ _ Hload). }
  unfold read_data_columns in Hcols.
  destruct (String.eqb data "train") eqn:Hdata.
  - destruct Hcols as [Hhdr Hrows].
    destruct (read_data_return_train data (loaded_frame L f) rate w
                (CWave <$> wrs.*1) Hdata) as (dfX & dfY & Hrun & HX & HiX & HiY).
    + eapply Forall_impl; [exact Hhdr |]. intros c. apply loaded_frame_columns.
    + apply Forall_lookup. intros i ir Hi.
      pose proof (loaded_frame_rows L f "action"
                    (λ o, ∃ a, o = Some (CStr a))) as Ha.
      pose proof (loaded_frame_rows L f "object"
                    (λ o, ∃ a, o = Some (CStr a))) as Ho.
      destruct (proj1 (Forall_lookup _ _) (Ha ltac:(done) ltac:(
        eapply Forall_impl; [exact Hrows |]; intros r (a & o & -> & _);
        by eexists)) i ir Hi) as [a Hia].
      destruct (proj1 (Forall_lookup _ _) (Ho ltac:(done) ltac:(
        eapply Forall_impl; [exact Hrows |]; intros r (a' & o & _ & ->);
        by eexists)) i ir Hi) as [o Hio].
      by exists a, o.
    + done.
    + cbv zeta in Hrun. eexists _, _. split; [exact Hrun |]. split; [done |].
      intros _. eexists _, _, dfX, dfY. split; [done |].
      assert (fresh (dom (heap (with_object w (fresh (dom (heap w))) dfX)))
              ≠ fresh (dom (heap w))) as Hne.
      { intros Heq.
        apply (is_fresh (dom (heap (with_object w (fresh (dom (heap w))) dfX)))).
        rewrite Heq. simpl. rewrite dom_insert_L. set_solver. }
      split; [| split; [| split; [| split; [| split]]]].
      * simpl. rewrite lookup_insert_ne by done. apply lookup_insert_eq.
      * simpl. apply lookup_insert_eq.
      * done.
      * done.
      * by rewrite HiX.
      * by rewrite HiY.
  - destruct (read_data_return_test data (loaded_frame L f) rate w
                (CWave <$> wrs.*1) Hdata) as (df & Hrun & _).
    + by apply loaded_frame_columns.
    + done.
    + eexists _, _. split; [exact Hrun |]. split; [done |]. done.
Qed.

(** ** [remove_outliers] when [x] is the frame that [X_trimed] names *)

Lemma remove_outliers_loop (sr : Z) (rows : list (nat * row))
    (ts : list wave) (acc : list Q) (w : world) :
  glob_srr w = Some sr → sr ≠ 0%Z →
  Forall2 (λ (ir : nat * row) t, ir.2 !! "Signal" = Some (CWave t)) rows ts →
  for_each_M remove_outliers_step rows acc w
  = Ok (acc ++ (duration sr <$> ts), w).
Proof.
  intros Hsr Hnz H. revert acc.
  induction H as [| ir t rows ts Hir H IH]; intros acc; simpl.
  - by rewrite app_nil_r.
  - erewrite M_bind_Ok.
    2:{ unfold remove_outliers_step. erewrite M_bind_lift.
        2:{ unfold row_get. by rewrite Hir. }
        erewrite M_bind_Ok.
        2:{ unfold get_srr. by rewrite Hsr. }
        erewrite M_bind_lift; [reflexivity |].
        unfold get_duration. simpl.
        destruct (Z.eqb_spec sr 0); [done | reflexivity]. }
    rewrite IH. by rewrite <- (assoc_L (++)).
Qed.

Lemma np_where_gt_from_elem (i k : nat) (t : list Q) (v : Q) :
  k ∈ np_where_gt_from i t v
  ↔ i ≤ k ∧ ∃ d, t !! (k - i) = Some d ∧ Qle_bool d v = false.
Proof.
  revert i. induction t as [| d t IH]; intros i; simpl.
  - split; [by intros ?%elem_of_nil | by intros (_ & d & ? & _)].
  - assert (k ∈ np_where_gt_from (S i) t v
            ↔ S i ≤ k ∧ ∃ d', (d :: t) !! (k - i) = Some d'
                              ∧ Qle_bool d' v = false) as IH'.
    { rewrite IH. split.
      - intros (Hk & d' & Hd' & Hv). split; [done |]. exists d'. split; [| done].
        replace (k - i) with (S (k - S i)) by lia. done.
      - intros (Hk & d' & Hd' & Hv). split; [done |]. exists d'. split; [| done].
        replace (k - i) with (S (k - S i)) in Hd' by lia. done. }
    destruct (Qle_bool d v) eqn:Hd.
    + rewrite IH'. split.
      * intros (Hk & H). split; [lia | done].
      * intros (Hk & d' & Hd' & Hv). split; [| by exists d'].
        destruct (decide (k = i)) as [-> |]; [| lia].
        rewrite Nat.sub_diag in Hd'. simpl in Hd'. congruence.
    + rewrite elem_of_cons, IH'. split.
      * intros [-> | (Hk & H)].
        -- split; [done |]. exists d. by rewrite Nat.sub_diag.
        -- split; [lia | done].
      * intros (Hk & d' & Hd' & Hv).
        destruct (decide (k = i)) as [-> | Hne]; [by left |].
        right. split; [lia |]. by exists d'.
Qed.

Lemma filter_Forall2 {A B : Type} (R : A → B → Prop) (P : A → Prop)
    (Q : B → Prop) `{∀ a, Decision (P a)} `{∀ b, Decision (Q b)}
    (l : list A) (k : list B) :
  Forall2 (λ a b, R a b ∧ (P a ↔ Q b)) l k →
  Forall2 R (filter P l) (filter Q k).
Proof.
  induction 1 as [| a b l k [HR HPQ] _ IH]; [constructor |].
  rewrite !filter_cons.
  destruct (decide (P a)) as [HP | HP], (decide (Q b)) as [HQ | HQ];
    [by constructor | tauto | tauto | done].
Qed.

Lemma signals_Forall2 (df : DataFrame) (cs : list cell) :
  signals df = Some <$> cs
  ↔ Forall2 (λ (ir : nat * row) c, ir.2 !! "Signal" = Some c) (body df) cs.
Proof.
  unfold signals. split.
  - intros H. apply Forall2_same_length_lookup. split.
    + apply (f_equal length) in H. by rewrite !length_fmap in H.
    + intros i ir c Hir Hc. apply (f_equal (λ l, l !! i)) in H.
      rewrite !list_lookup_fmap, Hir, Hc in H. simpl in H. congruence.
  - destruct df as [cols rows]. simpl. intros H.
    induction H as [| ir c rows cs Hir _ IH]; simpl; [done |].
    f_equal; [exact Hir | exact IH].
Qed.

Lemma index_lookup (df : DataFrame) (off i : nat) (ir : nat * row) :
  index df = seq off (df_len df) → body df !! i = Some ir → ir.1 = off + i.
Proof.
  intros Hidx Hi. apply (f_equal (λ l, l !! i)) in Hidx. unfold index in Hidx.
  rewrite list_lookup_fmap, Hi in Hidx. simpl in Hidx. symmetry in Hidx.
  apply lookup_seq in Hidx as [-> _]. done.
Qed.

Lemma drop_rows_Ok (df : DataFrame) (labels : list nat) :
  Forall (λ l, l ∈ index df) labels →
  drop_rows df labels
  = Ok (mkDataFrame (columns df)
          (filter (λ ir : nat * row, ir.1 ∉ labels) (body df))).
Proof. intros H. unfold drop_rows. by rewrite bool_decide_eq_true_2. Qed.

Lemma NoDup_index_filter (P : nat * row → Prop) `{∀ ir, Decision (P ir)}
    (rows : list (nat * row)) :
  NoDup rows.*1 → NoDup (filter P rows).*1.
Proof.
  intros Hnd. eapply sublist_NoDup; [exact Hnd |].
  apply fmap_sublist, sublist_filter.
Qed.

Lemma index_filter (labels : list nat) (rows : list (nat * row)) :
  (filter (λ ir : nat * row, ir.1 ∉ labels) rows).*1
  = filter (λ l, l ∉ labels) rows.*1.
Proof.
  induction rows as [| ir rows IH]; [done |].
  rewrite fmap_cons, !filter_cons. simpl.
  destruct (decide (ir.1 ∉ labels)); simpl; [f_equal |]; exact IH.
Qed.

Lemma remove_outliers_on_X_trimed (x y : nat) (max_length : Q) (sr : Z)
    (w : world) (dfx dfy : DataFrame) (ts : list wave) :
  glob_X_trimed w = Some x → glob_srr w = Some sr → sr ≠ 0%Z →
  heap w !! x = Some dfx → heap w !! y = Some dfy →
  holds_signals dfx (CWave <$> ts) →
  index dfx = seq 0 (length ts) → index dfy = seq 0 (length ts) →
  ∃ dfx' dfy',
    let lx := fresh (dom (heap w)) in
    let ly := fresh (dom (heap (with_object w lx dfx'))) in
    remove_outliers x y max_length w
    = Ok ((lx, ly), with_object (with_object w lx dfx') ly dfy')
    ∧ holds_signals dfx' (CWave <$> retained sr max_length ts)
    ∧ index dfy' = index dfx'
    ∧ body dfx' `sublist_of` body dfx
    ∧ body dfy' `sublist_of` body dfy.
Proof.
  intros HX Hsr Hnz Hx Hy (Hcol & Hnd & Hsig) Hix Hiy.
  set (outliers := np_where_gt (duration sr <$> ts) max_length).
  assert (∀ i t, ts !! i = Some t →
            i ∉ outliers ↔ Qle_bool (duration sr t) max_length = true)
    as Hout.
  { intros i t Hi. unfold outliers, np_where_gt.
    rewrite np_where_gt_from_elem, Nat.sub_0_r, list_lookup_fmap, Hi. simpl.
    split.
    - intros Hn. destruct (Qle_bool (duration sr t) max_length) eqn:Hd; [done |].
      destruct Hn. split; [lia |]. by eexists.
    - intros Hd (_ & d & [= <-] & Hd'). congruence. }
  assert (Forall (λ l, l ∈ seq 0 (length ts)) outliers) as Hlabels.
  { apply Forall_forall. intros k Hk. unfold outliers, np_where_gt in Hk.
    apply np_where_gt_from_elem in Hk as (_ & d & Hd & _).
    apply lookup_lt_Some in Hd. rewrite length_fmap in Hd.
    apply elem_of_seq. lia. }
  assert (df_len dfx = length ts) as Hlen.
  { apply (f_equal length) in Hix. unfold index in Hix.
    by rewrite length_fmap, length_seq in Hix. }
  apply signals_Forall2, Forall2_fmap_r in Hsig.
  exists (mkDataFrame (columns dfx)
            (filter (λ ir : nat * row, ir.1 ∉ outliers) (body dfx))),
         (mkDataFrame (columns dfy)
            (filter (λ ir : nat * row, ir.1 ∉ outliers) (body dfy))).
  cbv zeta. split; [| split; [| split; [| split]]].
  - unfold remove_outliers.
    erewrite M_bind_Ok by (unfold get_X_trimed; by rewrite HX).
    erewrite M_bind_Ok by (by apply deref_Ok).
    erewrite M_bind_Ok by (by apply (remove_outliers_loop sr _ ts)).
    cbv zeta. simpl app. fold outliers.
    erewrite M_bind_Ok by (by apply deref_Ok).
    erewrite M_bind_lift by (apply drop_rows_Ok; by rewrite Hix).
    erewrite M_bind_Ok by reflexivity.
    erewrite M_bind_Ok.
    2:{ apply deref_Ok. simpl.
        rewrite lookup_insert_ne; [exact Hy |].
        intros Heq. apply (is_fresh (dom (heap w))). rewrite Heq.
        by apply elem_of_dom. }
    erewrite M_bind_lift by (apply drop_rows_Ok; by rewrite Hiy).
    reflexivity.
  - split; [done |]. split.
    + unfold index. simpl. by apply NoDup_index_filter.
    + apply signals_Forall2. simpl. apply Forall2_fmap_r.
      apply (filter_Forall2
               (λ (ir : nat * row) t, ir.2 !! "Signal" = Some (CWave t))).
      apply Forall2_same_length_lookup. split.
      * by eapply Forall2_length.
      * intros i ir t Hir Ht. split.
        -- by apply (Forall2_lookup_lr _ _ _ i ir t Hsig).
        -- rewrite (index_lookup dfx 0 i ir) by (by rewrite ?Hlen).
           by apply Hout.
  - unfold index. simpl. rewrite !index_filter.
    fold (index dfx) (index dfy). by rewrite Hix, Hiy.
  - simpl. apply sublist_filter.
  - simpl. apply sublist_filter.
Qed.

(** ** The training cell *)

Lemma training_features_spec (L : library) (X Y : nat) (srr : Z) (w : world)
    (dfX dfY : DataFrame) (wvs ts : list wave) :
  heap w !! X = Some dfX → heap w !! Y = Some dfY → X ≠ Y →
  holds_signals dfX (CWave <$> wvs) →
  index dfX = seq 0 (length wvs) → index dfY = seq 0 (length wvs) →
  srr ≠ 0%Z →
  Forall2 (λ wv t, librosa_effects_trim L wv 10 10 = Ok t) wvs ts →
  Forall (λ t, ∃ m, librosa_feature_mfcc L t srr = Ok m)
    (retained srr max_lenght ts) →
  ∃ X_mfcc y_no_outliers w',
    training_features L X Y srr w = Ok ((X_mfcc, y_no_outliers), w')
    ∧ glob_srr w' = Some srr
    ∧ features_at_rate L srr ts w' X_mfcc.
Proof.
  intros HX HY Hne HdfX HiX HiY Hnz Htrim Hmfcc.
  set (w1 := mkWorld (heap w) (files w) (glob_X_trimed w) (Some srr)).
  destruct (trim_audios_signals L X 10 10 w1 dfX wvs ts HX HdfX Htrim)
    as (df2 & Htrim_run & Hdf2 & Hi2).
  set (w2 := with_object w1 X df2) in *.
  set (w3 := mkWorld (heap w2) (files w2) (Some X) (glob_srr w2)).
  assert (length ts = length wvs) as Hlen
    by (symmetry; by eapply Forall2_length).
  destruct (remove_outliers_on_X_trimed X Y max_lenght srr w3 df2 dfY ts)
    as (dfx' & dfy' & Hrm & Hdfx' & _); try done.
  { apply lookup_insert_eq. }
  { simpl. by rewrite lookup_insert_ne. }
  { by rewrite Hi2, HiX, Hlen. }
  { by rewrite HiY, Hlen. }
  cbv zeta in Hrm.
  set (lx := fresh (dom (heap w3))) in *.
  set (w4 := with_object w3 lx dfx') in *.
  set (ly := fresh (dom (heap w4))) in *.
  set (w5 := with_object w4 ly dfy') in *.
  assert (lx ≠ ly) as Hlxy.
  { intros Heq. apply (is_fresh (dom (heap w4))). fold ly. rewrite <- Heq.
    simpl. rewrite dom_insert_L. set_solver. }
  destruct (map_result_Ok
              (λ t, mfcc ← librosa_feature_mfcc L t srr;
                    pad_or_truncate mfcc srr max_lenght)
              (retained srr max_lenght ts)) as [ms Hms].
  { eapply Forall_impl; [exact Hmfcc |]. intros t [m ->]. simpl.
    apply pad_or_truncate_Ok. }
  apply map_result_Forall2 in Hms.
  destruct (convert_to_mfcc_signals L lx srr max_lenght w5 dfx'
              (retained srr max_lenght ts) ms)
    as (df & Hmfcc_run & Hdf & _); [| done | done |].
  { simpl. rewrite lookup_insert_ne by done. apply lookup_insert_eq. }
  eexists _, _, _. split; [| split].
  - unfold training_features.
    erewrite M_bind_Ok by reflexivity. fold w1.
    erewrite M_bind_Ok by exact Htrim_run.
    erewrite M_bind_Ok by reflexivity. fold w3.
    erewrite M_bind_Ok by exact Hrm. cbv beta iota zeta.
    erewrite M_bind_Ok by exact Hmfcc_run.
    reflexivity.
  - done.
  - exists df, ms. split; [apply lookup_insert_eq |]. done.
Qed.

Lemma last_rate_snoc (wrs : list (wave * Z)) (wv : wave) (rate : Z) :
  last_rate (wrs ++ [(wv, rate)]) = Some rate.
Proof. unfold last_rate. by rewrite last_snoc. Qed.

Lemma other_rates (L' : library) (rs : list row) (wrs : list (wave * Z)) :
  Forall2 (λ r wr, ∃ rate', load_row L' r = Ok (wr.1, rate')) rs wrs →
  ∃ wrs', Forall2 (λ r wr', load_row L' r = Ok wr') rs wrs'
          ∧ wrs'.*1 = wrs.*1.
Proof.
  induction 1 as [| r wr rs wrs [rate' Hr] _ (wrs' & IH1 & IH2)].
  - by exists [].
  - exists ((wr.1, rate') :: wrs'). split; [by constructor |].
    rewrite !fmap_cons. simpl. f_equal. exact IH2.
Qed.

Lemma loaded_frame_same_waves (L L' : library) (f : csv)
    (wrs wrs' : list (wave * Z)) :
  Forall2 (λ r wr, load_row L r = Ok wr) (records f) wrs →
  Forall2 (λ r wr, load_row L' r = Ok wr) (records f) wrs' →
  wrs'.*1 = wrs.*1 →
  loaded_frame L f = loaded_frame L' f.
Proof.
  intros H H' Hw. apply loaded_frame_ext, Forall_lookup. intros i r Hr.
  destruct (Forall2_lookup_l _ _ _ _ _ H Hr) as ([wv rate] & Hi & Hl).
  destruct (Forall2_lookup_l _ _ _ _ _ H' Hr) as ([wv' rate'] & Hi' & Hl').
  apply (f_equal (λ l, l !! i)) in Hw.
  rewrite !list_lookup_fmap, Hi, Hi' in Hw. simpl in Hw. injection Hw as ->.
  unfold load_cell. by rewrite Hl, Hl'.
Qed.

(** C10. For a file with at least one row, [read_data] returns the sample
    rate that the audio file of the last row reports.  The rates of the
    earlier files are not compared with it: a loader that reports any other
    rates for them gives the same result.  In the training cell this one
    rate becomes the global [srr] from which [remove_outliers] computes the
    duration of every recording, and the rate at which [convert_to_mfcc]
    computes and pads the coefficients of every recording. *)
Theorem C10_read_data_returns_the_last_rate
    (L : library) (csv_path data : string) (w : world) (f : csv)
    (rs : list row) (r_last : row) (wrs : list (wave * Z)) (wv_last : wave)
    (rate_last : Z) :
  files w !! csv_path = Some f →
  records f = rs ++ [r_last] →
  Forall2 (λ r wr, load_row L r = Ok wr) rs wrs →
  load_row L r_last = Ok (wv_last, rate_last) →
  read_data_columns data f →
  ∃ res w',
    read_data L csv_path data w = Ok (res, w')
    ∧ srr_of res = rate_last
    ∧ (∀ L' : library,
         Forall2 (λ r wr, ∃ rate', load_row L' r = Ok (wr.1, rate')) rs wrs →
         load_row L' r_last = Ok (wv_last, rate_last) →
         read_data L' csv_path data w = Ok (res, w'))
    ∧ (csv_path = "./dsl_data/development.csv" → data = "train" →
       ∃ X Y,
         res = TrainData X Y rate_last
         ∧ training_cell L w = training_cell_rest L X Y rate_last w'
         ∧ ∀ ts,
             rate_last ≠ 0%Z →
             Forall2 (λ wv t, librosa_effects_trim L wv 10 10 = Ok t)
               (wrs.*1 ++ [wv_last]) ts →
             Forall (λ t, ∃ m, librosa_feature_mfcc L t rate_last = Ok m)
               (retained rate_last max_lenght ts) →
             ∃ X_mfcc y_no_outliers w'',
               training_features L X Y rate_last w'
                 = Ok ((X_mfcc, y_no_outliers), w'')
               ∧ glob_srr w'' = Some rate_last
               ∧ features_at_rate L rate_last ts w'' X_mfcc).
Proof.
  intros Hf Hrecs Hload Hlast Hcols.
  assert (Forall2 (λ r wr, load_row L r = Ok wr) (records f)
            (wrs ++ [(wv_last, rate_last)])) as Hall.
  { rewrite Hrecs. apply Forall2_app; [done |]. by repeat constructor. }
  pose proof (last_rate_snoc wrs wv_last rate_last) as Hrate.
  destruct (read_data_Ok L csv_path data w f _ rate_last Hf Hall Hrate Hcols)
    as (res & w' & Hret & Hsrr & Htrain).
  assert (read_data L csv_path data w = Ok (res, w')) as Hrun.
  { by rewrite (read_data_loaded L _ _ w f _ Hf Hall), Hrate. }
  exists res, w'. split; [done |]. split; [done |]. split.
  - intros L' Hload' Hlast'.
    destruct (other_rates L' rs wrs Hload') as (wrs' & Hwrs' & Hwaves).
    assert (Forall2 (λ r wr, load_row L' r = Ok wr) (records f)
              (wrs' ++ [(wv_last, rate_last)])) as Hall'.
    { rewrite Hrecs. apply Forall2_app; [done |]. by repeat constructor. }
    rewrite (read_data_loaded L' _ _ w f _ Hf Hall'), last_rate_snoc.
    rewrite <- (loaded_frame_same_waves L L' f _ _ Hall Hall'); [done |].
    by rewrite !fmap_app, Hwaves.
  - intros -> ->.
    destruct (Htrain eq_refl)
      as (X & Y & dfX & dfY & -> & HX & HY & Hne & HdfX & HiX & HiY).
    exists X, Y. split; [done |]. split.
    + unfold training_cell. erewrite M_bind_Ok by exact Hrun.
      by erewrite M_bind_lift by reflexivity.
    + intros ts Hnz Htrim Hmfcc.
      rewrite fmap_app in HdfX. simpl in HdfX.
      apply (training_features_spec L X Y rate_last w' dfX dfY
               (wrs.*1 ++ [wv_last]) ts); try done.
      * by rewrite HiX, !length_app, length_fmap.
      * by rewrite HiY, !length_app, length_fmap.
Qed.

Lemma C10_witness :
  ∃ res w',
    read_data demo_library "./dsl_data/development.csv" "train" demo_world
      = Ok (res, w')
    ∧ srr_of res = 1%Z
    ∧ read_data
        (mkLibrary demo_load_other_rates demo_trim demo_mfcc unit
           (λ _, Ok tt) demo_predict)
        "./dsl_data/development.csv" "train" demo_world = Ok (res, w')
    ∧ ∃ X Y, training_cell demo_library demo_world
             = training_cell_rest demo_library X Y 1 w'.
Proof.
  destruct (C10_read_data_returns_the_last_rate demo_library
              "./dsl_data/development.csv" "train" demo_world
              demo_development
              [ demo_record "one.wav" "increase" "volume" 0;
                demo_record "two.wav" "decrease" "heat" 1 ]
              (demo_record "four.wav" "increase" "volume" 2)
              [ ([0; 3; 0; 0]%Q, 1%Z); ([5; 0; 1]%Q, 1%Z) ]
              [1; 2; 3; 4]%Q 1%Z)
    as (res & w' & Hrun & Hsrr & Hother & Hcell).
  - reflexivity.
  - reflexivity.
  - repeat constructor.
  - reflexivity.
  - split.
    + repeat constructor; compute_done.
    + repeat constructor; eexists _, _; split; reflexivity.
  - exists res, w'. split; [exact Hrun |]. split; [exact Hsrr |]. split.
    + apply Hother; [| reflexivity].
      repeat constructor; eexists; reflexivity.
    + destruct (Hcell eq_refl eq_refl) as (X & Y & _ & Hrest & _).
      exists X, Y. exact Hrest.
Defined.

(** ** More on the padding step *)

Lemma pad_or_truncate_shape0 (mfcc : matrix) (srr : Z) (max_audio_len : Q) :
  ∃ mfcc', pad_or_truncate mfcc srr max_audio_len = Ok mfcc'
           ∧ shape0 mfcc' = shape0 mfcc.
Proof.
  unfold pad_or_truncate.
  destruct (fits mfcc srr max_audio_len) eqn:Hfits.
  - apply fits_true in Hfits as [Hle Hpw]. rewrite Hpw. unfold np_pad_right.
    destruct (Z.ltb_spec
                (target_frames srr max_audio_len - Z.of_nat (shape1 mfcc)) 0);
      [lia |].
    eexists. split; [done |]. unfold shape0. by rewrite length_fmap.
  - eexists. split; [done |]. unfold shape0, np_slice_cols.
    by rewrite length_fmap.
Qed.


(** X2. When [max_audio_len * srr / 512] rounds up to a negative number, the
    slice [mfcc[:, 0:ceil(max_pad_len)]] counts from the end: the matrix
    loses its last [-target_frames] columns (all of them when it has no
    more), so the width of the result follows the width of the input
    instead of being one fixed number. *)
Theorem X2_negative_target_cuts_from_the_end
    (mfcc : matrix) (srr : Z) (max_audio_len : Q) :
  (target_frames srr max_audio_len < 0)%Z →
  pad_or_truncate mfcc srr max_audio_len
  = Ok (take (Z.to_nat (Z.of_nat (shape1 mfcc) + target_frames srr max_audio_len))
          <$> mfcc).
Proof.
  intros Hneg. unfold pad_or_truncate.
  destruct (fits mfcc srr max_audio_len) eqn:Hfits.
  - apply fits_true in Hfits as [Hle _]. lia.
  - f_equal. unfold np_slice_cols, slice_stop.
    fold (target_frames srr max_audio_len).
    destruct (Z.ltb_spec (target_frames srr max_audio_len) 0); [| lia].
    by rewrite Z2Nat.inj_max, Nat.max_0_l.
Qed.

Lemma X2_witness :
  pad_or_truncate [[1; 2; 3]; [4; 5; 6]]%Q 512 (-2) = Ok [[1]; [4]]%Q
  ∧ pad_or_truncate [[1; 2; 3; 7]; [4; 5; 6; 8]]%Q 512 (-2)
    = Ok [[1; 2]; [4; 5]]%Q.
Proof.
  split.
  - apply (X2_negative_target_cuts_from_the_end [[1; 2; 3]; [4; 5; 6]]%Q 512 (-2)).
    reflexivity.
  - apply (X2_negative_target_cuts_from_the_end
             [[1; 2; 3; 7]; [4; 5; 6; 8]]%Q 512 (-2)).
    reflexivity.
Defined.

(** X3. Padding or cutting is idempotent: a matrix that went through the
    step already has [target_frames] columns and goes through it again
    unchanged. *)
Theorem X3_pad_or_truncate_idempotent
    (mfcc mfcc' : matrix) (srr : Z) (max_audio_len : Q) :
  rectangular mfcc → (0 <= max_audio_len)%Q → (0 < srr)%Z →
  pad_or_truncate mfcc srr max_audio_len = Ok mfcc' →
  pad_or_truncate mfcc' srr max_audio_len = Ok mfcc'.
Proof.
  intros Hrect Hm Hs Hrun.
  destruct (pad_or_truncate_shape mfcc srr max_audio_len Hrect Hm Hs)
    as (m' & Hm' & Hlen & Hcols).
  rewrite Hrun in Hm'. injection Hm' as <-.
  pose proof (target_frames_nonneg srr max_audio_len Hm Hs) as Hnn.
  destruct mfcc' as [| row rest] eqn:Hmfcc'.
  { destruct (pad_or_truncate_shape0 [] srr max_audio_len) as (m & -> & Hl).
    by destruct m. }
  rewrite <- Hmfcc' in *.
  assert (shape1 mfcc' = Z.to_nat (target_frames srr max_audio_len)) as Hs1.
  { rewrite Hmfcc' in Hcols |- *. by apply Forall_cons in Hcols as [? _]. }
  assert (rectangular mfcc') as Hrect' by (unfold rectangular; by rewrite Hs1).
  rewrite (pad_or_truncate_spec mfcc' srr max_audio_len Hrect' Hm Hs).
  rewrite decide_True by lia. f_equal.
  replace (target_frames srr max_audio_len - Z.of_nat (shape1 mfcc'))%Z
    with 0%Z by lia.
  simpl. rewrite <- (list_fmap_id mfcc') at 2. apply list_fmap_ext.
  intros i r _. simpl. apply app_nil_r.
Qed.

Lemma X3_witness :
  pad_or_truncate [[1; 2; 0]; [3; 4; 0]]%Q 512 3
  = Ok [[1; 2; 0]; [3; 4; 0]]%Q.
Proof.
  apply (X3_pad_or_truncate_idempotent [[1; 2]; [3; 4]]%Q _ 512 3).
  - repeat constructor.
  - done.
  - done.
  - reflexivity.
Defined.

(** ** More on [convert_y_to_oneHot] *)


Lemma np_unique_same_labels (y1 y2 : list string) :
  (∀ s, s ∈ y1 ↔ s ∈ y2) → np_unique y1 = np_unique y2.
Proof.
  intros Hsame.
  apply (StronglySorted_unique_strong str_lt);
    [| apply np_unique_sorted | apply np_unique_sorted |].
  - intros x1 x2 _ _ H12 H21.
    destruct (str_lt_irrefl x1). by apply (str_lt_trans x1 x2 x1).
  - apply NoDup_Permutation; [apply np_unique_NoDup | apply np_unique_NoDup |].
    intros s. by rewrite !np_unique_elem.
Qed.

(** X5. The encoder that [convert_y_to_oneHot] returns depends on the set
    of training labels only, not on their order or on how often each one
    occurs: two arrays with the same labels give the same encoder, with its
    classes in strictly increasing order, and give a label the same one-hot
    vector wherever it stands. *)
Theorem X5_encoder_depends_on_the_set_of_labels (y1 y2 : list string) :
  y1 ≠ [] →
  (∀ s, s ∈ y1 ↔ s ∈ y2) →
  ∃ oh1 oh2 le,
    convert_y_to_oneHot y1 = Ok (oh1, le)
    ∧ convert_y_to_oneHot y2 = Ok (oh2, le)
    ∧ StronglySorted str_lt (classes_ le)
    ∧ ∀ i j s, y1 !! i = Some s → y2 !! j = Some s → oh1 !! i = oh2 !! j.
Proof.
  intros Hy1 Hsame.
  assert (y2 ≠ []) as Hy2.
  { destruct y1 as [| s y1]; [done |]. intros ->.
    by apply (elem_of_nil s), Hsame; left. }
  destruct (convert_y_to_oneHot_spec y1 Hy1) as (c1 & Hi1 & _ & Hc1).
  destruct (convert_y_to_oneHot_spec y2 Hy2) as (c2 & Hi2 & _ & Hc2).
  rewrite <- (np_unique_same_labels y1 y2 Hsame) in Hi2, Hc2.
  eexists _, _, _. split; [exact Hc1 |]. split; [exact Hc2 |].
  split; [apply np_unique_sorted |].
  intros i j s Hi Hj. rewrite !list_lookup_fmap.
  destruct (Forall2_lookup_l _ _ _ _ _ Hi1 Hi) as (k1 & -> & Hk1).
  destruct (Forall2_lookup_l _ _ _ _ _ Hi2 Hj) as (k2 & -> & Hk2).
  simpl. congruence.
Qed.

Lemma X5_witness :
  ∃ oh1 oh2 le,
    convert_y_to_oneHot ["increasevolume"; "decreaseheat"; "increasevolume"]
      = Ok (oh1, le)
    ∧ convert_y_to_oneHot ["decreaseheat"; "increasevolume"] = Ok (oh2, le)
    ∧ oh1 !! 0 = oh2 !! 1.
Proof.
  destruct (X5_encoder_depends_on_the_set_of_labels
              ["increasevolume"; "decreaseheat"; "increasevolume"]
              ["decreaseheat"; "increasevolume"])
    as (oh1 & oh2 & le & H1 & H2 & _ & Hsame).
  - discriminate.
  - intros s. rewrite !elem_of_cons, !elem_of_nil. tauto.
  - exists oh1, oh2, le. split; [exact H1 |]. split; [exact H2 |].
    apply (Hsame 0 1 "increasevolume"); reflexivity.
Defined.

(** ** Running in [M]: inversion and frames *)

Lemma M_bind_Ok_inv {A B : Type} (m : M A) (f : A → M B) (w w' : world) (b : B) :
  (m ≫= f) w = Ok (b, w') → ∃ a w1, m w = Ok (a, w1) ∧ f a w1 = Ok (b, w').
Proof.
  unfold mbind, M_bind. destruct (m w) as [[a w1] |]; [| done]. by exists a, w1.
Qed.

Lemma lift_Ok_inv {A : Type} (r : result A) (w w' : world) (a : A) :
  lift r w = Ok (a, w') → r = Ok a ∧ w' = w.
Proof. unfold lift. destruct r; [| done]. by intros [= -> ->]. Qed.

Lemma M_bind_Raise {A B : Type} (m : M A) (f : A → M B) (w : world) (e : exn) :
  m w = Raise e → (m ≫= f) w = Raise e.
Proof. intros H. unfold mbind, M_bind. by rewrite H. Qed.

Lemma only_allocates_refl (w : world) : only_allocates w w.
Proof. by repeat split. Qed.

Lemma only_allocates_trans (w1 w2 w3 : world) :
  only_allocates w1 w2 → only_allocates w2 w3 → only_allocates w1 w3.
Proof.
  intros (H1 & F1 & X1 & S1) (H2 & F2 & X2 & S2). repeat split; [| congruence..].
  intros l df Hl. by apply H2, H1.
Qed.

Lemma alloc_spec (df : DataFrame) (w w' : world) (l : nat) :
  alloc df w = Ok (l, w') →
  heap w !! l = None ∧ heap w' !! l = Some df ∧ only_allocates w w'.
Proof.
  unfold alloc. intros [= <- <-].
  assert (heap w !! fresh (dom (heap w)) = None) as Hfresh.
  { apply not_elem_of_dom, is_fresh. }
  split; [done |]. split; [apply lookup_insert_eq |].
  repeat split. intros l df' Hl. simpl. rewrite lookup_insert_ne; [done |].
  intros <-. congruence.
Qed.

(** ** Errors and frames of [read_data] *)

Lemma read_data_loop_fails (L : library) (pre post : list (nat * row))
    (ir : nat * row) (st : DataFrame * option Z) (e : exn) :
  Forall (λ ir : nat * row, ∃ wr, load_row L ir.2 = Ok wr) pre →
  load_row L ir.2 = Raise e →
  for_each (read_data_step L) (pre ++ ir :: post) st = Raise e.
Proof.
  intros Hpre Hir. revert st.
  induction Hpre as [| ir0 pre [wr Hwr] _ IH]; intros st; simpl.
  - rewrite read_data_step_load_row, Hir. done.
  - rewrite read_data_step_load_row, Hwr. simpl. apply IH.
Qed.



Lemma read_data_no_rows
    (L : library) (csv_path data : string) (w : world) (f : csv) :
  files w !! csv_path = Some f →
  records f = [] →
  read_data_columns data f →
  read_data L csv_path data w = Raise UnboundLocalError.
Proof.
  intros Hf Hrecs Hcols.
  unfold read_data. erewrite M_bind_Ok.
  2:{ unfold pd_read_csv. by rewrite Hf. }
  unfold iterrows, set_column_scalar, frame_of_csv. simpl. rewrite Hrecs. simpl.
  erewrite M_bind_lift by reflexivity. cbv beta iota zeta.
  unfold read_data_return, read_data_columns in *.
  destruct (String.eqb data "train").
  - destruct Hcols as [Hhdr _].
    assert (Forall (λ c, c ∈ (if bool_decide ("Signal" ∈ header f)
                              then header f else header f ++ ["Signal"]))
              ["Id"; "action"; "object"; "path"]) as Hhdr'.
    { eapply Forall_impl; [exact Hhdr |]. intros c Hc.
      case_bool_decide; set_solver. }
    erewrite M_bind_lift.
    2:{ unfold drop_columns. simpl. by rewrite bool_decide_eq_true_2. }
    erewrite M_bind_Ok by reflexivity.
    erewrite M_bind_lift.
    2:{ unfold select_columns. simpl. rewrite bool_decide_eq_true_2; [done |].
        apply Forall_cons in Hhdr' as [_ Hhdr'].
        apply Forall_cons in Hhdr' as [Ha Hhdr'].
        apply Forall_cons in Hhdr' as [Ho _]. by repeat constructor. }
    erewrite M_bind_lift by reflexivity.
    erewrite M_bind_Ok by reflexivity.
    done.
  - erewrite M_bind_lift.
    2:{ unfold drop_columns. simpl. rewrite bool_decide_eq_true_2; [done |].
        constructor; [| constructor]. case_bool_decide; set_solver. }
    erewrite M_bind_Ok by reflexivity.
    done.
Qed.

(** X7. On a file without rows [read_data] raises [UnboundLocalError],
    whatever the value of [data]: the columns are dropped and selected
    first, then [srr], which only the loop assigns, is read. *)
Theorem X7_read_data_on_an_empty_file
    (L : library) (csv_path data : string) (w : world) (f : csv) :
  files w !! csv_path = Some f →
  records f = [] →
  read_data_columns data f →
  read_data L csv_path data w = Raise UnboundLocalError.
Proof. apply read_data_no_rows. Qed.

Lemma X7_witness :
  read_data demo_library "./dsl_data/evaluation.csv" "Not_train"
    demo_empty_world = Raise UnboundLocalError.
Proof.
  apply (X7_read_data_on_an_empty_file demo_library _ _ _
           (mkCsv ["Id"; "path"] [])).
  - reflexivity.
  - reflexivity.
  - unfold read_data_columns. simpl. compute_done.
Defined.

Lemma read_data_return_frame (data : string) (dev : DataFrame)
    (srr : option Z) (w w' : world) (res : read_data_result) :
  read_data_return data dev srr w = Ok (res, w') →
  only_allocates w w'
  ∧ match res with
    | TrainData x y _ =>
        heap w !! x = None ∧ heap w !! y = None ∧ x ≠ y
        ∧ is_Some (heap w' !! x) ∧ is_Some (heap w' !! y)
    | TestData x _ => heap w !! x = None ∧ is_Some (heap w' !! x)
    end.
Proof.
  unfold read_data_return. destruct (String.eqb data "train").
  - intros H.
    apply M_bind_Ok_inv in H as (x0 & w1 & [_ ->]%lift_Ok_inv & H).
    apply M_bind_Ok_inv in H as (x & w2 & Hx & H).
    apply M_bind_Ok_inv in H as (y0 & w3 & [_ ->]%lift_Ok_inv & H).
    apply M_bind_Ok_inv in H as (int & w4 & [_ ->]%lift_Ok_inv & H).
    apply M_bind_Ok_inv in H as (y & w5 & Hy & H).
    apply M_bind_Ok_inv in H as (z & w6 & [_ ->]%lift_Ok_inv & H).
    injection H as <- <-.
    apply alloc_spec in Hx as (Hx1 & Hx2 & Hx3).
    apply alloc_spec in Hy as (Hy1 & Hy2 & Hy3).
    split; [by eapply only_allocates_trans |].
    split; [done |]. split.
    { destruct (heap w !! y) as [df |] eqn:Hwy; [| done].
      apply (proj1 Hx3) in Hwy. congruence. }
    split; [congruence |]. split; [| by eexists].
    exists x0. by apply (proj1 Hy3).
  - intros H.
    apply M_bind_Ok_inv in H as (x0 & w1 & [_ ->]%lift_Ok_inv & H).
    apply M_bind_Ok_inv in H as (x & w2 & Hx & H).
    apply M_bind_Ok_inv in H as (z & w3 & [_ ->]%lift_Ok_inv & H).
    injection H as <- <-.
    apply alloc_spec in Hx as (Hx1 & Hx2 & Hx3).
    split; [done |]. split; [done | by eexists].
Qed.

(** X8. Whenever [read_data] returns, it has only created objects: the
    frames it returns are new (two different ones for training data), every
    frame that existed before is unchanged, and so are the files and the
    notebook globals. *)
Theorem X8_read_data_only_allocates
    (L : library) (csv_path data : string) (w w' : world)
    (res : read_data_result) :
  read_data L csv_path data w = Ok (res, w') →
  only_allocates w w'
  ∧ match res with
    | TrainData x y _ =>
        heap w !! x = None ∧ heap w !! y = None ∧ x ≠ y
        ∧ is_Some (heap w' !! x) ∧ is_Some (heap w' !! y)
    | TestData x _ => heap w !! x = None ∧ is_Some (heap w' !! x)
    end.
Proof.
  unfold read_data. intros H.
  apply M_bind_Ok_inv in H as (dev & w1 & Hread & H).
  assert (w1 = w) as ->.
  { unfold pd_read_csv in Hread. destruct (files w !! csv_path); by simplify_eq. }
  apply M_bind_Ok_inv in H as ([dev' srr] & w2 & [_ ->]%lift_Ok_inv & H).
  by apply read_data_return_frame in H.
Qed.

Lemma X8_witness :
  ∃ x y srr w',
    read_data demo_library "./dsl_data/development.csv" "train" demo_world
      = Ok (TrainData x y srr, w')
    ∧ only_allocates demo_world w' ∧ x ≠ y.
Proof.
  destruct (read_data demo_library "./dsl_data/development.csv" "train"
              demo_world) as [[[x y srr | x srr] w'] |] eqn:Hrun;
    [| vm_compute in Hrun; discriminate Hrun
     | vm_compute in Hrun; discriminate Hrun].
  destruct (X8_read_data_only_allocates _ _ _ _ _ _ Hrun)
    as (Hframe & _ & _ & Hne & _).
  exists x, y, srr, w'. split; [reflexivity |]. split; [exact Hframe | exact Hne].
Defined.

(** ** What [read_data] returns for training data *)

Lemma lookup_foldr_delete (m : row) (cols : list string) (c : string) :
  foldr delete m cols !! c = if decide (c ∈ cols) then None else m !! c.
Proof.
  induction cols as [| d cols IH]; cbn [foldr].
  - destruct (decide (c ∈ [])) as [H | H]; [by apply elem_of_nil in H | done].
  - destruct (decide (c = d)) as [-> | Hne].
    + rewrite lookup_delete_eq.
      destruct (decide (d ∈ d :: cols)) as [H | H]; [done |].
      destruct H. by left.
    + rewrite lookup_delete_ne by done. rewrite IH.
      destruct (decide (c ∈ cols)) as [H | H],
               (decide (c ∈ d :: cols)) as [H' | H']; try done.
      * destruct H'. by right.
      * apply elem_of_cons in H' as [? | ?]; done.
Qed.

Lemma fresh_insert_ne (h : gmap nat DataFrame) (df : DataFrame) :
  fresh (dom (<[fresh (dom h) := df]> h)) ≠ fresh (dom h).
Proof.
  intros Heq. apply (is_fresh (dom (<[fresh (dom h) := df]> h))).
  rewrite Heq, dom_insert_L. set_solver.
Qed.

Lemma loaded_frame_lookup (L : library) (f : csv) (i : nat) (r : row)
    (wv : wave) (rate : Z) :
  records f !! i = Some r →
  load_row L r = Ok (wv, rate) →
  body (loaded_frame L f) !! i = Some (i, <["Signal" := CWave wv]> r).
Proof.
  intros Hr Hload. unfold loaded_frame, map_signal, set_column_scalar,
    frame_of_csv. simpl.
  rewrite !list_lookup_fmap, list_lookup_imap, Hr. simpl.
  unfold signal_row, load_cell. simpl.
  by rewrite load_row_insert_signal, Hload, insert_insert_eq.
Qed.

(** X9. For a development file whose audio files load, [read_data] returns
    two new frames with the rows of the file in order, labelled
    [0 .. n-1] in both.  A row of [X] holds the samples of its audio file
    under [Signal] and the other columns of the record, without [Id],
    [action], [object] and [path].  A row of [Y] holds the action, the
    object and, under [intention], their concatenation, and nothing else. *)
Theorem X9_read_data_training_frames
    (L : library) (csv_path : string) (w : world) (f : csv)
    (wrs : list (wave * Z)) (rate : Z) :
  files w !! csv_path = Some f →
  Forall2 (λ r wr, load_row L r = Ok wr) (records f) wrs →
  last_rate wrs = Some rate →
  training_columns f →
  ∃ X Y dfX dfY w',
    read_data L csv_path "train" w = Ok (TrainData X Y rate, w')
    ∧ heap w' !! X = Some dfX ∧ heap w' !! Y = Some dfY
    ∧ columns dfY = ["action"; "object"; "intention"]
    ∧ index dfX = seq 0 (length (records f))
    ∧ index dfY = seq 0 (length (records f))
    ∧ ∀ i r wr, records f !! i = Some r → wrs !! i = Some wr →
        ∃ rx ry, body dfX !! i = Some (i, rx) ∧ body dfY !! i = Some (i, ry)
                 ∧ training_rows r wr.1 rx ry.
Proof.
  intros Hf Hload Hrate [Hhdr Hrows].
  destruct (map_result_Ok (λ ir : nat * row, str_add ir.2 "action" "object")
              (body (loaded_frame L f))) as [intention Hint].
  { apply Forall_lookup. intros i ir Hi.
    assert (is_Some (records f !! i)) as [r Hr].
    { apply lookup_lt_is_Some. apply lookup_lt_Some in Hi.
      destruct (loaded_frame_signals L f wrs Hload) as (_ & _ & Hlen).
      unfold df_len in Hlen. lia. }
    destruct (Forall2_lookup_l _ _ _ _ _ Hload Hr) as ([wv rt] & Hwr & Hl).
    rewrite (loaded_frame_lookup L f i r wv rt Hr Hl) in Hi.
    injection Hi as <-.
    destruct (proj1 (Forall_lookup _ _) Hrows i r Hr) as (a & o & Ha & Ho).
    unfold str_add, row_get. simpl.
    rewrite !lookup_insert_ne by done. rewrite Ha, Ho. by eexists. }
  pose proof (proj1 (map_result_Forall2 _ _ _) Hint) as Hint2.
  assert (Forall (λ c, c ∈ columns (loaded_frame L f))
            ["Id"; "action"; "object"; "path"]) as Hcols.
  { eapply Forall_impl; [exact Hhdr |]. intros c. apply loaded_frame_columns. }
  assert (index (loaded_frame L f) = seq 0 (length (records f))) as Hidx.
  { unfold loaded_frame.
    by rewrite index_map_signal, index_set_column_scalar, index_frame_of_csv. }
  assert (∀ i r wv rt, records f !! i = Some r → load_row L r = Ok (wv, rt) →
            body (loaded_frame L f) !! i = Some (i, <["Signal" := CWave wv]> r))
    as Hlookup by (intros; by eapply loaded_frame_lookup).
  rewrite (read_data_loaded L _ _ w f wrs Hf Hload), Hrate.
  remember (loaded_frame L f) as dev eqn:Hdev. clear Hdev.
  set (dfX := mkDataFrame
                (filter (λ c, c ∉ ["Id"; "action"; "object"; "path"]) (columns dev))
                ((λ ir : nat * row,
                    (ir.1, foldr delete ir.2 ["Id"; "action"; "object"; "path"]))
                   <$> body dev)).
  set (dfY := set_column_rows
                (mkDataFrame ["action"; "object"]
                   ((λ ir : nat * row,
                       (ir.1, filter (λ kv : string * cell,
                                        kv.1 ∈ ["action"; "object"]) ir.2))
                      <$> body dev))
                "intention" intention).
  exists (fresh (dom (heap w))),
         (fresh (dom (heap (with_object w (fresh (dom (heap w))) dfX)))),
         dfX, dfY,
         (with_object (with_object w (fresh (dom (heap w))) dfX)
            (fresh (dom (heap (with_object w (fresh (dom (heap w))) dfX)))) dfY).
  split; [| split; [| split; [| split; [| split; [| split]]]]].
  - unfold read_data_return.
    change (String.eqb "train" "train") with true. cbv iota.
    erewrite M_bind_lift.
    2:{ unfold drop_columns. by rewrite bool_decide_eq_true_2. }
    erewrite M_bind_Ok by reflexivity.
    erewrite M_bind_lift.
    2:{ unfold select_columns. rewrite bool_decide_eq_true_2; [done |].
        apply Forall_cons in Hcols as [_ Hcols].
        apply Forall_cons in Hcols as [Ha Hcols].
        apply Forall_cons in Hcols as [Ho _]. by repeat constructor. }
    erewrite M_bind_lift by exact Hint.
    reflexivity.
  - cbn [heap with_object]. rewrite lookup_insert_ne; [apply lookup_insert_eq |].
    apply fresh_insert_ne.
  - cbn [heap with_object]. apply lookup_insert_eq.
  - reflexivity.
  - unfold index, dfX. cbn [body]. rewrite <- list_fmap_compose.
    rewrite <- Hidx. by apply list_fmap_ext.
  - unfold index, dfY, set_column_rows. cbn [body].
    rewrite (zip_with_fst_index (λ ir v, <["intention" := v]> ir.2)).
    + rewrite <- list_fmap_compose, <- Hidx. by apply list_fmap_ext.
    + rewrite length_fmap. symmetry. by eapply Forall2_length.
  - intros i r [wv rt] Hr Hwr.
    pose proof (Forall2_lookup_lr _ _ _ i r (wv, rt) Hload Hr Hwr) as Hl.
    pose proof (Hlookup i r wv rt Hr Hl) as Hrow.
    destruct (proj1 (Forall_lookup _ _) Hrows i r Hr) as (a & o & Ha & Ho).
    destruct (Forall2_lookup_l _ _ _ _ _ Hint2 Hrow) as (c & Hc & Hadd).
    assert (c = CStr (a +:+ o)) as ->.
    { unfold str_add, row_get in Hadd. cbn [snd] in Hadd.
      rewrite !lookup_insert_ne in Hadd by done.
      rewrite Ha, Ho in Hadd. simpl in Hadd. congruence. }
    eexists _, _. split; [| split].
    + unfold dfX. cbn [body]. rewrite list_lookup_fmap, Hrow. reflexivity.
    + unfold dfY, set_column_rows. cbn [body].
      rewrite lookup_zip_with, list_lookup_fmap, Hrow. cbn [fmap option_fmap option_map mbind option_bind].
      rewrite Hc. reflexivity.
    + exists a, o. cbn [fst snd].
      split; [done |]. split; [done |]. split.
      { rewrite lookup_foldr_delete, decide_False by compute_done.
        apply lookup_insert_eq. }
      split.
      { intros c' Hc'. by rewrite lookup_foldr_delete, decide_True. }
      split.
      { intros c' Hc' Hne.
        rewrite lookup_foldr_delete, decide_False by done.
        by rewrite lookup_insert_ne. }
      split.
      { rewrite lookup_insert_ne by done.
        apply map_lookup_filter_Some_2; [| simpl; compute_done].
        by rewrite lookup_insert_ne. }
      split.
      { rewrite lookup_insert_ne by done.
        apply map_lookup_filter_Some_2; [| simpl; compute_done].
        by rewrite lookup_insert_ne. }
      split; [apply lookup_insert_eq |].
      intros c' Hc'. rewrite lookup_insert_ne.
      2:{ intros <-. apply Hc'. compute_done. }
      apply map_lookup_filter_None. right. intros x _. simpl.
      intros Hin. apply Hc'.
      apply elem_of_cons in Hin as [-> | Hin]; [compute_done |].
      apply elem_of_cons in Hin as [-> | Hin]; [compute_done |].
      by apply elem_of_nil in Hin.
Qed.

Lemma X9_witness :
  ∃ X Y dfX dfY w',
    read_data demo_library "./dsl_data/development.csv" "train" demo_world
      = Ok (TrainData X Y 1, w')
    ∧ heap w' !! X = Some dfX ∧ heap w' !! Y = Some dfY
    ∧ columns dfY = ["action"; "object"; "intention"]
    ∧ index dfX = [0; 1; 2] ∧ index dfY = [0; 1; 2].
Proof.
  destruct (X9_read_data_training_frames demo_library
              "./dsl_data/development.csv" demo_world demo_development
              [ ([0; 3; 0; 0]%Q, 1%Z); ([5; 0; 1]%Q, 1%Z);
                ([1; 2; 3; 4]%Q, 1%Z) ] 1)
    as (X & Y & dfX & dfY & w' & Hrun & HX & HY & Hc & HiX & HiY & _).
  - reflexivity.
  - repeat constructor.
  - reflexivity.
  - split.
    + repeat constructor; compute_done.
    + repeat constructor; eexists _, _; split; reflexivity.
  - exists X, Y, dfX, dfY, w'. repeat split; assumption.
Defined.

(** ** More on [remove_outliers] *)

Lemma remove_outliers_step_world (t t' : list Q) (ir : nat * row)
    (w w' : world) :
  remove_outliers_step t ir w = Ok (t', w') → w' = w.
Proof.
  unfold remove_outliers_step. intros H.
  apply M_bind_Ok_inv in H as (c & w1 & [_ ->]%lift_Ok_inv & H).
  apply M_bind_Ok_inv in H as (sr & w2 & Hsr & H).
  assert (w2 = w) as ->.
  { unfold get_srr in Hsr. destruct (glob_srr w); by simplify_eq. }
  apply M_bind_Ok_inv in H as (d & w3 & [_ ->]%lift_Ok_inv & H).
  by injection H as _ <-.
Qed.

Lemma remove_outliers_loop_world (rows : list (nat * row)) (t t' : list Q)
    (w w' : world) :
  for_each_M remove_outliers_step rows t w = Ok (t', w') → w' = w.
Proof.
  revert t. induction rows as [| ir rows IH]; intros t; simpl.
  - by intros [= _ <-].
  - intros H. apply M_bind_Ok_inv in H as (t1 & w1 & Hstep & H).
    apply remove_outliers_step_world in Hstep as ->. by eapply IH.
Qed.

Lemma drop_rows_Ok_inv (df df' : DataFrame) (labels : list nat) :
  drop_rows df labels = Ok df' →
  df' = mkDataFrame (columns df)
          (filter (λ ir : nat * row, ir.1 ∉ labels) (body df)).
Proof.
  unfold drop_rows. case_bool_decide; [| done]. by intros [= <-].
Qed.

(** X10. Whatever frames [remove_outliers] is called with, when it returns
    it has not changed any of them: the two results are new objects, every
    existing frame, the files and the globals are as before.  Both results
    are cut with one and the same set of labels, so rows of [x] and [y]
    that carry the same label stay or go together, and the rows that stay
    keep their order. *)
Theorem X10_remove_outliers_copies_and_cuts_both_alike
    (x y : nat) (max_length : Q) (w w' : world) (lx ly : nat) :
  is_Some (heap w !! y) →
  remove_outliers x y max_length w = Ok ((lx, ly), w') →
  only_allocates w w'
  ∧ heap w !! lx = None ∧ heap w !! ly = None ∧ lx ≠ ly
  ∧ ∃ (dfx dfy : DataFrame) (outliers : list nat),
      heap w !! x = Some dfx ∧ heap w !! y = Some dfy
      ∧ heap w' !! lx
        = Some (mkDataFrame (columns dfx)
                  (filter (λ ir : nat * row, ir.1 ∉ outliers) (body dfx)))
      ∧ heap w' !! ly
        = Some (mkDataFrame (columns dfy)
                  (filter (λ ir : nat * row, ir.1 ∉ outliers) (body dfy))).
Proof.
  unfold remove_outliers. intros [dfy0 Hy] H.
  apply M_bind_Ok_inv in H as (xt & w1 & HX & H).
  assert (w1 = w) as ->.
  { unfold get_X_trimed in HX. destruct (glob_X_trimed w); by simplify_eq. }
  apply M_bind_Ok_inv in H as (dft & w1 & Hdft & H).
  assert (w1 = w) as ->.
  { unfold deref in Hdft. destruct (heap w !! xt); by simplify_eq. }
  apply M_bind_Ok_inv in H as (t & w1 & Hloop & H).
  apply remove_outliers_loop_world in Hloop as ->.
  cbv zeta in H.
  apply M_bind_Ok_inv in H as (dfx & w1 & Hdx & H).
  assert (w1 = w ∧ heap w !! x = Some dfx) as [-> Hx].
  { unfold deref in Hdx. destruct (heap w !! x); by simplify_eq. }
  apply M_bind_Ok_inv in H as (dfx' & w1 & [Hdrop ->]%lift_Ok_inv & H).
  apply drop_rows_Ok_inv in Hdrop as ->.
  apply M_bind_Ok_inv in H as (lx' & w1 & Hax & H).
  apply alloc_spec in Hax as (Hlx1 & Hlx2 & Hlx3).
  apply M_bind_Ok_inv in H as (dfy & w2 & Hdy & H).
  assert (w2 = w1 ∧ heap w1 !! y = Some dfy) as [-> Hy1].
  { unfold deref in Hdy. destruct (heap w1 !! y); by simplify_eq. }
  apply M_bind_Ok_inv in H as (dfy' & w2 & [Hdrop ->]%lift_Ok_inv & H).
  apply drop_rows_Ok_inv in Hdrop as ->.
  apply M_bind_Ok_inv in H as (ly' & w2 & Hay & H).
  apply alloc_spec in Hay as (Hly1 & Hly2 & Hly3).
  injection H as <- <- <-.
  assert (dfy = dfy0) as ->.
  { apply (proj1 Hlx3) in Hy. congruence. }
  split; [by eapply only_allocates_trans |].
  split; [done |]. split.
  { destruct (heap w !! ly') as [df |] eqn:Hwl; [| done].
    apply (proj1 Hlx3) in Hwl. congruence. }
  split; [congruence |].
  exists dfx, dfy0, (np_where_gt t max_length).
  split; [done |]. split; [done |]. split; [| done].
  by apply (proj1 Hly3).
Qed.

Lemma X10_witness :
  ∃ lx ly w',
    remove_outliers 2 3 3 (demo_session 1) = Ok ((lx, ly), w')
    ∧ only_allocates (demo_session 1) w'
    ∧ heap w' !! 2 = Some demo_other.
Proof.
  destruct (remove_outliers 2 3 3 (demo_session 1)) as [[[lx ly] w'] |] eqn:Hrun;
    [| vm_compute in Hrun; discriminate Hrun].
  destruct (X10_remove_outliers_copies_and_cuts_both_alike 2 3 3
              (demo_session 1) w' lx ly) as (Hframe & _).
  - eexists. reflexivity.
  - exact Hrun.
  - exists lx, ly, w'. split; [reflexivity |]. split; [exact Hframe |].
    apply (proj1 Hframe). reflexivity.
Defined.

(** X11. Called as the training cell calls it, with [x] the frame that the
    global [X_trimed] names, labelled [0 .. n-1] like [y], and the global
    [srr] a rate other than 0, [remove_outliers] keeps exactly the
    recordings whose duration, their number of samples divided by [srr], is
    at most [max_length]; they keep their order, and the labels that remain
    in the returned [y] are those that remain in the returned [x]. *)
Theorem X11_remove_outliers_in_the_training_cell
    (x y : nat) (max_length : Q) (sr : Z) (w : world) (dfx dfy : DataFrame)
    (ts : list wave) :
  glob_X_trimed w = Some x → glob_srr w = Some sr → sr ≠ 0%Z →
  heap w !! x = Some dfx → heap w !! y = Some dfy →
  holds_signals dfx (CWave <$> ts) →
  index dfx = seq 0 (length ts) → index dfy = seq 0 (length ts) →
  ∃ lx ly dfx' dfy' w',
    remove_outliers x y max_length w = Ok ((lx, ly), w')
    ∧ heap w' !! lx = Some dfx' ∧ heap w' !! ly = Some dfy'
    ∧ signals dfx' = Some <$> (CWave <$> retained sr max_length ts)
    ∧ (∀ t, t ∈ retained sr max_length ts
            ↔ t ∈ ts ∧ (duration sr t <= max_length)%Q)
    ∧ retained sr max_length ts `sublist_of` ts
    ∧ index dfy' = index dfx'
    ∧ body dfx' `sublist_of` body dfx
    ∧ body dfy' `sublist_of` body dfy.
Proof.
  intros HX Hsr Hnz Hx Hy Hdfx Hix Hiy.
  destruct (remove_outliers_on_X_trimed x y max_length sr w dfx dfy ts
              HX Hsr Hnz Hx Hy Hdfx Hix Hiy)
    as (dfx' & dfy' & Hrun & Hsig & Hidx & Hsx & Hsy).
  cbv zeta in Hrun. eexists _, _, dfx', dfy', _.
  split; [exact Hrun |]. split.
  { cbn [heap with_object]. rewrite lookup_insert_ne; [apply lookup_insert_eq |].
    apply fresh_insert_ne. }
  split; [cbn [heap with_object]; apply lookup_insert_eq |].
  split; [apply Hsig |]. split.
  { intros t. unfold retained. rewrite list_elem_of_filter, Qle_bool_iff. tauto. }
  split; [apply sublist_filter |]. done.
Qed.

Lemma X11_witness :
  ∃ lx ly dfx' dfy' w',
    remove_outliers 0 1 3 (demo_session 1) = Ok ((lx, ly), w')
    ∧ heap w' !! lx = Some dfx' ∧ heap w' !! ly = Some dfy'
    ∧ signals dfx' = [Some (CWave [3]%Q); Some (CWave [5; 1]%Q)]
    ∧ index dfy' = index dfx'.
Proof.
  destruct (X11_remove_outliers_in_the_training_cell 0 1 3 1 (demo_session 1)
              demo_trimmed demo_labels [[3]; [5; 1]; [1; 2; 3; 4]]%Q)
    as (lx & ly & dfx' & dfy' & w' & Hrun & Hlx & Hly & Hsig & _ & _ & Hidx & _).
  - reflexivity.
  - reflexivity.
  - discriminate.
  - reflexivity.
  - reflexivity.
  - split; [compute_done |]. split; [compute_done | reflexivity].
  - reflexivity.
  - reflexivity.
  - exists lx, ly, dfx', dfy', w'.
    split; [exact Hrun |]. split; [exact Hlx |]. split; [exact Hly |].
    split; [exact Hsig | exact Hidx].
Defined.

(** X12. [remove_outliers] raises [KeyError] when a recording of the global
    [X_trimed] is too long and its position is not a label of [x]: the
    positions found in [X_trimed] are dropped from [x] by label. *)
Theorem X12_remove_outliers_KeyError
    (x y xt : nat) (max_length : Q) (sr : Z) (w : world)
    (dft dfx : DataFrame) (ts : list wave) (k : nat) (t : wave) :
  glob_X_trimed w = Some xt → glob_srr w = Some sr → sr ≠ 0%Z →
  heap w !! xt = Some dft → heap w !! x = Some dfx →
  signals dft = Some <$> (CWave <$> ts) →
  ts !! k = Some t → ¬ (duration sr t <= max_length)%Q →
  k ∉ index dfx →
  remove_outliers x y max_length w = Raise KeyError.
Proof.
  intros HX Hsr Hnz Hxt Hx Hsig Hk Hlong Hnot.
  apply signals_Forall2, Forall2_fmap_r in Hsig.
  unfold remove_outliers.
  erewrite M_bind_Ok by (unfold get_X_trimed; by rewrite HX).
  erewrite M_bind_Ok by (by apply deref_Ok).
  erewrite M_bind_Ok by (by apply (remove_outliers_loop sr _ ts)).
  cbv zeta. simpl app.
  erewrite M_bind_Ok by (by apply deref_Ok).
  apply M_bind_Raise. unfold lift, drop_rows.
  rewrite bool_decide_eq_false_2; [done |].
  intros Hall. apply Hnot.
  apply (proj1 (Forall_forall _ _) Hall).
  unfold np_where_gt. apply np_where_gt_from_elem. split; [lia |].
  exists (duration sr t). rewrite Nat.sub_0_r, list_lookup_fmap, Hk.
  split; [done |].
  destruct (Qle_bool (duration sr t) max_length) eqn:Hd; [| done].
  by apply Qle_bool_iff in Hd.
Qed.

Lemma X12_witness :
  remove_outliers 2 3 3 demo_short_session = Raise KeyError.
Proof.
  apply (X12_remove_outliers_KeyError 2 3 0 3 1 demo_short_session
           demo_trimmed
           (mkDataFrame ["Signal"] [ (0, {[ "Signal" := CWave [7]%Q ]}) ])
           [[3]; [5; 1]; [1; 2; 3; 4]]%Q 2 [1; 2; 3; 4]%Q).
  - reflexivity.
  - reflexivity.
  - discriminate.
  - reflexivity.
  - reflexivity.
  - reflexivity.
  - reflexivity.
  - by vm_compute.
  - compute_done.
Defined.

(** ** When a stage of [test_output_csv] fails *)

Lemma map_result_Raise_inv {A B : Type} (f : A → result B) (l : list A)
    (e : exn) :
  map_result f l = Raise e →
  ∃ pre a post, l = pre ++ a :: post
                ∧ Forall (λ a, ∃ b, f a = Ok b) pre ∧ f a = Raise e.
Proof.
  induction l as [| a l IH]; simpl; [done |].
  destruct (f a) as [b |] eqn:Ha; simpl.
  - destruct (map_result f l) as [bs |] eqn:Hl; simpl; [done |].
    intros [= ->]. destruct (IH eq_refl) as (pre & a' & post & -> & Hpre & Ha').
    exists (a :: pre), a', post. split; [done |]. split; [| done].
    constructor; [by eexists | done].
  - intros [= ->]. exists [], a, l. by repeat split.
Qed.

Lemma map_result_fmap {A B C : Type} (f : B → result C) (g : A → B)
    (l : list A) :
  map_result f (g <$> l) = map_result (λ a, f (g a)) l.
Proof.
  induction l as [| a l IH]; [done |]. rewrite fmap_cons. cbn [map_result].
  by rewrite IH.
Qed.

Lemma for_each_signal_step_fails (g : row → result cell)
    (pre post : list (nat * row)) (ir : nat * row) (df : DataFrame) (e : exn) :
  Forall (λ ir : nat * row, ∃ c, g ir.2 = Ok c) pre →
  g ir.2 = Raise e →
  for_each (signal_step g) (pre ++ ir :: post) df = Raise e.
Proof.
  intros Hpre Hir. revert df.
  induction Hpre as [| ir0 pre [c Hc] _ IH]; intros df; simpl.
  - unfold signal_step. by rewrite Hir.
  - rewrite (signal_step_Ok g df ir0 c Hc). simpl. apply IH.
Qed.

Lemma signal_loop_fails {B : Type} (g : row → result cell)
    (h : wave → result B) (df : DataFrame) (wvs : list wave) (e : exn) :
  (∀ r wv, r !! "Signal" = Some (CWave wv) →
           match h wv with
           | Ok _ => ∃ c, g r = Ok c
           | Raise e => g r = Raise e
           end) →
  signals df = Some <$> (CWave <$> wvs) →
  map_result h wvs = Raise e →
  for_each (signal_step g) (iterrows df) df = Raise e.
Proof.
  intros Hgh Hsig Hfail.
  apply signals_Forall2, Forall2_fmap_r in Hsig.
  apply map_result_Raise_inv in Hfail as (pre & wv & post & -> & Hpre & Hwv).
  apply Forall2_app_inv_r in Hsig as (rpre & rrest & Hrpre & Hrrest & Hbody).
  apply Forall2_cons_inv_r in Hrrest as (ir & rpost & Hir & _ & ->).
  unfold iterrows. rewrite Hbody.
  apply for_each_signal_step_fails.
  - apply Forall_lookup. intros i ir0 Hi.
    destruct (Forall2_lookup_l _ _ _ _ _ Hrpre Hi) as (wv0 & Hwv0 & Hsig0).
    destruct (proj1 (Forall_lookup _ _) Hpre i wv0 Hwv0) as [b Hb].
    specialize (Hgh ir0.2 wv0 Hsig0). by rewrite Hb in Hgh.
  - specialize (Hgh ir.2 wv Hir). by rewrite Hwv in Hgh.
Qed.

Lemma trim_audios_fails (L : library) (x : nat) (top_db hop_length : Z)
    (w : world) (df : DataFrame) (wvs : list wave) (e : exn) :
  heap w !! x = Some df →
  signals df = Some <$> (CWave <$> wvs) →
  map_result (λ wv, librosa_effects_trim L wv top_db hop_length) wvs
    = Raise e →
  trim_audios L x top_db hop_length w = Raise e.
Proof.
  intros Hx Hsig Hfail. unfold trim_audios.
  erewrite M_bind_Ok by (by apply deref_Ok).
  apply M_bind_Raise. unfold lift.
  rewrite (for_each_ext _ _ _ _ (trim_audios_step_signal L top_db hop_length)).
  rewrite (signal_loop_fails _
             (λ wv, librosa_effects_trim L wv top_db hop_length) df wvs e);
    [done | | done | done].
  intros r wv Hr. unfold trim_cell, row_get. rewrite Hr. simpl.
  destruct (librosa_effects_trim L wv top_db hop_length); [by eexists | done].
Qed.

Lemma convert_to_mfcc_fails (L : library) (x : nat) (srr : Z)
    (max_audio_len : Q) (w : world) (df : DataFrame) (wvs : list wave)
    (e : exn) :
  heap w !! x = Some df →
  signals df = Some <$> (CWave <$> wvs) →
  map_result (λ wv, mfcc ← librosa_feature_mfcc L wv srr;
                    pad_or_truncate mfcc srr max_audio_len) wvs = Raise e →
  convert_to_mfcc L x srr max_audio_len w = Raise e.
Proof.
  intros Hx Hsig Hfail. unfold convert_to_mfcc.
  erewrite M_bind_Ok by (by apply deref_Ok).
  apply M_bind_Raise. unfold lift.
  rewrite (for_each_ext _ _ _ _ (convert_to_mfcc_step_signal L srr max_audio_len)).
  rewrite (signal_loop_fails _
             (λ wv, mfcc ← librosa_feature_mfcc L wv srr;
                    pad_or_truncate mfcc srr max_audio_len) df wvs e);
    [done | | done | done].
  intros r wv Hr. unfold mfcc_cell, row_get. rewrite Hr. simpl.
  destruct (librosa_feature_mfcc L wv srr) as [m |]; simpl; [| done].
  destruct (pad_or_truncate m srr max_audio_len); [by eexists | done].
Qed.

Lemma read_data_fails (L : library) (csv_path data : string) (w : world)
    (f : csv) (e : exn) :
  files w !! csv_path = Some f →
  map_result (load_row L) (records f) = Raise e →
  read_data L csv_path data w = Raise e.
Proof.
  intros Hf Hfail.
  apply map_result_Raise_inv in Hfail as (pre & r & post & Hrecs & Hpre & Hr).
  unfold read_data. erewrite M_bind_Ok.
  2:{ unfold pd_read_csv. by rewrite Hf. }
  apply M_bind_Raise. unfold lift, iterrows, set_column_scalar, frame_of_csv.
  simpl. rewrite Hrecs, imap_app, fmap_app. simpl.
  rewrite (read_data_loop_fails L _ _ _ _ e); [done | |].
  - apply Forall_fmap, Forall_lookup. intros i ir Hi.
    rewrite list_lookup_imap in Hi.
    destruct (pre !! i) as [r0 |] eqn:Hr0; simpl in Hi; [| done].
    injection Hi as <-. simpl.
    rewrite load_row_insert_signal.
    by apply (proj1 (Forall_lookup _ _) Hpre i r0).
  - simpl. by rewrite load_row_insert_signal.
Qed.

Lemma test_output_csv_fails (L : library)
    (saved_model_path output_csv_path evaluate_csv_path : string)
    (le : LabelEncoder) (max_audio_length : Q) (top_db hop_length : Z)
    (w : world) (model : keras_model L) (f : csv) (e : exn) :
  load_model L saved_model_path = Ok model →
  files w !! evaluate_csv_path = Some f →
  "path" ∈ header f →
  predicted_labels L model le max_audio_length top_db hop_length (records f)
    = Raise e →
  test_output_csv L saved_model_path output_csv_path evaluate_csv_path le
    max_audio_length top_db hop_length w = Raise e.
Proof.
  intros Hmodel Hf Hpath Hfail.
  unfold test_output_csv. erewrite M_bind_lift by exact Hmodel.
  unfold predicted_labels in Hfail.
  destruct (map_result (load_row L) (records f)) as [wrs |] eqn:Hwrs;
    simpl in Hfail.
  2:{ injection Hfail as ->. apply M_bind_Raise.
      by apply (read_data_fails L _ _ w f). }
  apply map_result_Forall2 in Hwrs.
  destruct (last_rate wrs) as [srr |] eqn:Hlast; simpl in Hfail.
  2:{ injection Hfail as <-. apply M_bind_Raise.
      apply (read_data_no_rows L _ _ w f Hf); [| done].
      unfold last_rate in Hlast. destruct (last wrs) eqn:Hl; [done |].
      apply last_None in Hl. subst wrs. by apply Forall2_nil_inv_r in Hwrs. }
  destruct (loaded_frame_signals L f wrs Hwrs) as (Hdev & Hcols & _).
  destruct (read_data_return_test "Not_train" (loaded_frame L f) srr w
              (CWave <$> wrs.*1) eq_refl) as (df1 & Hread & Hdf1 & _);
    [| done |].
  { rewrite Hcols. simpl. case_bool_decide; set_solver. }
  set (l1 := fresh (dom (heap w))) in *.
  set (w1 := with_object w l1 df1) in *.
  erewrite M_bind_Ok.
  2:{ rewrite (read_data_loaded L _ _ w f wrs Hf Hwrs), Hlast. exact Hread. }
  erewrite M_bind_lift by reflexivity. cbv beta iota zeta.
  destruct (map_result
              (λ wr : wave * Z, librosa_effects_trim L wr.1 top_db hop_length)
              wrs) as [trimmed |] eqn:Htrim; simpl in Hfail.
  2:{ injection Hfail as ->. apply M_bind_Raise.
      apply (trim_audios_fails L l1 top_db hop_length w1 df1 (wrs.*1));
        [apply lookup_insert_eq | apply Hdf1 |].
      rewrite (map_result_fmap
                 (λ wv, librosa_effects_trim L wv top_db hop_length) fst).
      exact Htrim. }
  pose proof (proj1 (map_result_Forall2 _ _ _) Htrim) as Htrim2.
  destruct (trim_audios_signals L l1 top_db hop_length w1 df1 (wrs.*1) trimmed)
    as (df2 & Htrim_run & Hdf2 & _); [apply lookup_insert_eq | done | |].
  { by apply Forall2_fmap_l. }
  set (w2 := with_object w1 l1 df2) in *.
  pose proof (df_copy_spec l1 w2 df2 (lookup_insert_eq _ _ _)) as Hcopy.
  set (l2 := fresh (dom (heap w2))) in *.
  set (w3 := with_object w2 l2 df2) in *.
  erewrite M_bind_Ok by exact Htrim_run.
  erewrite M_bind_Ok by exact Hcopy.
  destruct (map_result
              (λ wv, mfcc ← librosa_feature_mfcc L wv srr;
                     pad_or_truncate mfcc srr max_audio_length) trimmed)
    as [X_n_test |] eqn:Hmfcc; simpl in Hfail.
  2:{ injection Hfail as ->. apply M_bind_Raise.
      apply (convert_to_mfcc_fails L l2 srr max_audio_length w3 df2 trimmed);
        [apply lookup_insert_eq | apply Hdf2 | done]. }
  apply map_result_Forall2 in Hmfcc.
  destruct (convert_to_mfcc_signals L l2 srr max_audio_length w3 df2 trimmed
              X_n_test) as (df3 & Hmfcc_run & Hdf3 & _);
    [apply lookup_insert_eq | done | done |].
  set (w4 := with_object w3 l2 df3) in *.
  pose proof (convert_to_numpy_test l2 None [] "not train" w4 df3 X_n_test
                (lookup_insert_eq _ _ _) Hdf3 eq_refl) as Hnumpy.
  erewrite M_bind_Ok by exact Hmfcc_run.
  erewrite M_bind_Ok by exact Hnumpy. cbv beta iota zeta.
  destruct (model_predict L model X_n_test) as [ps |] eqn:Hps; simpl in Hfail.
  2:{ injection Hfail as ->. by apply M_bind_Raise. }
  erewrite M_bind_lift by reflexivity.
  destruct (map_result np_argmax ps) as [codes |] eqn:Hcodes; simpl in Hfail.
  2:{ injection Hfail as ->. by apply M_bind_Raise. }
  erewrite M_bind_lift by reflexivity.
  apply M_bind_Raise. unfold lift. by rewrite Hfail.
Qed.



(** X14. A model and an encoder that do not fit: when the arg-max of some
    row of scores is not the index of a class of the encoder,
    [test_output_csv] raises the [ValueError] of [inverse_transform]
    instead of returning 0. *)
Theorem X14_test_output_csv_rejects_an_unknown_index (L : library)
    (saved_model_path output_csv_path evaluate_csv_path : string)
    (le : LabelEncoder) (max_audio_length : Q) (top_db hop_length : Z)
    (w : world) (model : keras_model L) (f : csv)
    (wrs : list (wave * Z)) (srr : Z) (trimmed : list wave)
    (X_n_test : list matrix) (predicted_y : list (list Q))
    (codes : list nat) (k : nat) :
  load_model L saved_model_path = Ok model →
  files w !! evaluate_csv_path = Some f →
  "path" ∈ header f →
  map_result (load_row L) (records f) = Ok wrs →
  last_rate wrs = Some srr →
  map_result (λ wr : wave * Z,
                librosa_effects_trim L wr.1 top_db hop_length) wrs
    = Ok trimmed →
  map_result (λ wv, mfcc ← librosa_feature_mfcc L wv srr;
                    pad_or_truncate mfcc srr max_audio_length) trimmed
    = Ok X_n_test →
  model_predict L model X_n_test = Ok predicted_y →
  map_result np_argmax predicted_y = Ok codes →
  k ∈ codes → length (classes_ le) ≤ k →
  test_output_csv L saved_model_path output_csv_path evaluate_csv_path le
    max_audio_length top_db hop_length w = Raise ValueError.
Proof.
  intros Hmodel Hf Hpath Hwrs Hsrr Htrim Hmfcc Hps Hcodes Hk Hlen.
  apply (test_output_csv_fails L _ _ _ le _ _ _ w model f ValueError);
    try done.
  unfold predicted_labels. rewrite Hwrs. simpl. rewrite Hsrr. simpl.
  rewrite Htrim. simpl. rewrite Hmfcc. simpl. rewrite Hps. simpl.
  rewrite Hcodes. simpl. apply le_inverse_transform_unknown. by exists k.
Qed.

Lemma X14_witness :
  test_output_csv demo_library "audio_classification.hdf5" "output.csv"
    "./dsl_data/evaluation.csv" (mkLabelEncoder ["decreaseheat"]) 3 10 10
    demo_world = Raise ValueError.
Proof.
  apply (X14_test_output_csv_rejects_an_unknown_index demo_library
           "audio_classification.hdf5" "output.csv"
           "./dsl_data/evaluation.csv" (mkLabelEncoder ["decreaseheat"])
           3 10 10 demo_world tt demo_evaluation
           [ ([5; 0; 1]%Q, 1%Z); ([0; 3; 0; 0]%Q, 1%Z) ] 1
           [ [5; 0; 1]%Q; [3]%Q ]
           [ [[5]; [6]]%Q; [[3]; [4]]%Q ]
           [ [2 # 3; 1 # 3]%Q; [1 # 4; 3 # 4]%Q ] [0; 1] 1).
  - reflexivity.
  - reflexivity.
  - compute_done.
  - reflexivity.
  - reflexivity.
  - reflexivity.
  - vm_compute. reflexivity.
  - vm_compute. reflexivity.
  - reflexivity.
  - compute_done.
  - simpl. lia.
Defined.

(** ** The training cell, end to end *)

Lemma kept_fst (sr : Z) (ts : list wave) (labels : list string) :
  length ts = length labels →
  (kept sr ts labels).*1 = retained sr max_lenght ts.
Proof.
  unfold kept, retained. revert labels.
  induction ts as [| t ts IH]; intros [| s labels] Hlen; simpl in *; try done.
  rewrite !filter_cons. simpl.
  destruct (decide (Qle_bool (duration sr t) max_lenght = true)); simpl;
    [f_equal |]; apply IH; lia.
Qed.

Lemma remove_outliers_frames (x y : nat) (max_length : Q) (sr : Z)
    (w : world) (dfx dfy : DataFrame) (ts : list wave) :
  glob_X_trimed w = Some x → glob_srr w = Some sr → sr ≠ 0%Z →
  heap w !! x = Some dfx → heap w !! y = Some dfy →
  holds_signals dfx (CWave <$> ts) →
  index dfx = seq 0 (length ts) → index dfy = seq 0 (length ts) →
  ∃ outliers : list nat,
    let dfx' := mkDataFrame (columns dfx)
                  (filter (λ ir : nat * row, ir.1 ∉ outliers) (body dfx)) in
    let dfy' := mkDataFrame (columns dfy)
                  (filter (λ ir : nat * row, ir.1 ∉ outliers) (body dfy)) in
    let lx := fresh (dom (heap w)) in
    let ly := fresh (dom (heap (with_object w lx dfx'))) in
    remove_outliers x y max_length w
    = Ok ((lx, ly), with_object (with_object w lx dfx') ly dfy')
    ∧ (∀ i t, ts !! i = Some t →
         i ∉ outliers ↔ Qle_bool (duration sr t) max_length = true).
Proof.
  intros HX Hsr Hnz Hx Hy (Hcol & Hnd & Hsig) Hix Hiy.
  set (outliers := np_where_gt (duration sr <$> ts) max_length).
  assert (∀ i t, ts !! i = Some t →
            i ∉ outliers ↔ Qle_bool (duration sr t) max_length = true)
    as Hout.
  { intros i t Hi. unfold outliers, np_where_gt.
    rewrite np_where_gt_from_elem, Nat.sub_0_r, list_lookup_fmap, Hi. simpl.
    split.
    - intros Hn. destruct (Qle_bool (duration sr t) max_length) eqn:Hd; [done |].
      destruct Hn. split; [lia |]. by eexists.
    - intros Hd (_ & d & [= <-] & Hd'). congruence. }
  assert (Forall (λ l, l ∈ seq 0 (length ts)) outliers) as Hlabels.
  { apply Forall_forall. intros k Hk. unfold outliers, np_where_gt in Hk.
    apply np_where_gt_from_elem in Hk as (_ & d & Hd & _).
    apply lookup_lt_Some in Hd. rewrite length_fmap in Hd.
    apply elem_of_seq. lia. }
  apply signals_Forall2, Forall2_fmap_r in Hsig.
  exists outliers. cbv zeta. split; [| exact Hout].
  unfold remove_outliers.
  erewrite M_bind_Ok by (unfold get_X_trimed; by rewrite HX).
  erewrite M_bind_Ok by (by apply deref_Ok).
  erewrite M_bind_Ok by (by apply (remove_outliers_loop sr _ ts)).
  cbv zeta. simpl app. fold outliers.
  erewrite M_bind_Ok by (by apply deref_Ok).
  erewrite M_bind_lift by (apply drop_rows_Ok; by rewrite Hix).
  erewrite M_bind_Ok by reflexivity.
  erewrite M_bind_Ok.
  2:{ apply deref_Ok. simpl.
      rewrite lookup_insert_ne; [exact Hy |].
      intros Heq. apply (is_fresh (dom (heap w))). rewrite Heq.
      by apply elem_of_dom. }
  erewrite M_bind_lift by (apply drop_rows_Ok; by rewrite Hiy).
  reflexivity.
Qed.

Lemma filter_by_position {B : Type} (R : nat * row → B → Prop)
    (Q : B → Prop) `{∀ b, Decision (Q b)} (df : DataFrame) (bs : list B)
    (outliers : list nat) :
  index df = seq 0 (length bs) →
  Forall2 R (body df) bs →
  (∀ i b, bs !! i = Some b → i ∉ outliers ↔ Q b) →
  Forall2 R (filter (λ ir : nat * row, ir.1 ∉ outliers) (body df))
    (filter Q bs).
Proof.
  intros Hidx HR Hout.
  assert (df_len df = length bs) as Hlen.
  { apply (f_equal length) in Hidx. unfold index in Hidx.
    by rewrite length_fmap, length_seq in Hidx. }
  apply (filter_Forall2 R). apply Forall2_same_length_lookup. split.
  - by eapply Forall2_length.
  - intros i ir b Hir Hb. split.
    + by apply (Forall2_lookup_lr _ _ _ i ir b HR).
    + rewrite (index_lookup df 0 i ir) by (by rewrite ?Hlen).
      by apply Hout.
Qed.

Lemma training_features_frames (L : library) (X Y : nat) (srr : Z) (w : world)
    (dfX dfY : DataFrame) (wvs ts : list wave) (labels : list string) :
  heap w !! X = Some dfX → heap w !! Y = Some dfY → X ≠ Y →
  holds_signals dfX (CWave <$> wvs) →
  index dfX = seq 0 (length wvs) → index dfY = seq 0 (length wvs) →
  holds_intentions dfY labels →
  srr ≠ 0%Z →
  Forall2 (λ wv t, librosa_effects_trim L wv 10 10 = Ok t) wvs ts →
  Forall (λ t, ∃ m, librosa_feature_mfcc L t srr = Ok m)
    (retained srr max_lenght ts) →
  ∃ X_mfcc y_no_outliers w' dfm dfy ms,
    training_features L X Y srr w = Ok ((X_mfcc, y_no_outliers), w')
    ∧ heap w' !! X_mfcc = Some dfm ∧ heap w' !! y_no_outliers = Some dfy
    ∧ holds_signals dfm (CMfcc <$> ms)
    ∧ Forall2 (λ p m, feature_of L srr p.1 = Ok m) (kept srr ts labels) ms
    ∧ holds_intentions dfy (kept srr ts labels).*2
    ∧ files w' = files w.
Proof.
  intros HX HY Hne HdfX HiX HiY [HcolY HlabY] Hnz Htrim Hmfcc.
  set (w1 := mkWorld (heap w) (files w) (glob_X_trimed w) (Some srr)).
  destruct (trim_audios_signals L X 10 10 w1 dfX wvs ts HX HdfX Htrim)
    as (df2 & Htrim_run & Hdf2 & Hi2).
  set (w2 := with_object w1 X df2) in *.
  set (w3 := mkWorld (heap w2) (files w2) (Some X) (glob_srr w2)).
  assert (length ts = length wvs) as Hlen
    by (symmetry; by eapply Forall2_length).
  assert (length labels = length wvs) as Hlab.
  { apply Forall2_length in HlabY. apply (f_equal length) in HiY.
    unfold index in HiY. rewrite length_fmap, length_seq in HiY. lia. }
  destruct (remove_outliers_frames X Y max_lenght srr w3 df2 dfY ts)
    as (outliers & Hrm & Hout); try done.
  { apply lookup_insert_eq. }
  { simpl. by rewrite lookup_insert_ne. }
  { by rewrite Hi2, HiX, Hlen. }
  { by rewrite HiY, Hlen. }
  cbv zeta in Hrm.
  set (dfx' := mkDataFrame (columns df2)
                 (filter (λ ir : nat * row, ir.1 ∉ outliers) (body df2))) in *.
  set (dfy' := mkDataFrame (columns dfY)
                 (filter (λ ir : nat * row, ir.1 ∉ outliers) (body dfY))) in *.
  set (lx := fresh (dom (heap w3))) in *.
  set (w4 := with_object w3 lx dfx') in *.
  set (ly := fresh (dom (heap w4))) in *.
  set (w5 := with_object w4 ly dfy') in *.
  assert (lx ≠ ly) as Hlxy.
  { intros Heq. apply (is_fresh (dom (heap w4))). fold ly. rewrite <- Heq.
    simpl. rewrite dom_insert_L. set_solver. }
  assert (holds_signals dfx' (CWave <$> retained srr max_lenght ts)) as Hdfx'.
  { destruct Hdf2 as (Hc2 & Hnd2 & Hsig2).
    split; [done |]. split.
    - unfold index. simpl. by apply NoDup_index_filter.
    - apply signals_Forall2. simpl. apply Forall2_fmap_r.
      apply (filter_by_position
               (λ (ir : nat * row) t, ir.2 !! "Signal" = Some (CWave t))
               (λ t, Qle_bool (duration srr t) max_lenght = true)).
      + by rewrite Hi2, HiX, Hlen.
      + by apply signals_Forall2, Forall2_fmap_r in Hsig2.
      + exact Hout. }
  assert (holds_intentions dfy' (kept srr ts labels).*2) as Hdfy'.
  { split; [done |]. simpl. apply Forall2_fmap_r.
    apply (filter_by_position
             (λ (ir : nat * row) (p : wave * string),
                ir.2 !! "intention" = Some (CStr p.2))
             (λ p : wave * string,
                Qle_bool (duration srr p.1) max_lenght = true)).
    - rewrite length_zip_with, HiY. f_equal. lia.
    - apply Forall2_same_length_lookup. split.
      + apply Forall2_length in HlabY. rewrite length_zip_with. lia.
      + intros i ir [t s] Hir Hp. apply lookup_zip_with_Some in Hp.
        destruct Hp as (t' & s' & [= <- <-] & Ht & Hs). simpl.
        by apply (Forall2_lookup_lr _ _ _ i ir s HlabY).
    - intros i [t s] Hp. apply lookup_zip_with_Some in Hp.
      destruct Hp as (t' & s' & [= <- <-] & Ht & Hs). simpl.
      by apply Hout. }
  destruct (map_result_Ok (feature_of L srr) (retained srr max_lenght ts))
    as [ms Hms].
  { eapply Forall_impl; [exact Hmfcc |]. intros t [m Hm]. unfold feature_of.
    rewrite Hm. simpl. apply pad_or_truncate_Ok. }
  apply map_result_Forall2 in Hms.
  destruct (convert_to_mfcc_signals L lx srr max_lenght w5 dfx'
              (retained srr max_lenght ts) ms)
    as (df & Hmfcc_run & Hdf & _); [| done | done |].
  { simpl. rewrite lookup_insert_ne by done. apply lookup_insert_eq. }
  exists lx, ly, (with_object w5 lx df), df, dfy', ms.
  split; [| split; [| split; [| split; [| split; [| split]]]]].
  - unfold training_features.
    erewrite M_bind_Ok by reflexivity. fold w1.
    erewrite M_bind_Ok by exact Htrim_run.
    erewrite M_bind_Ok by reflexivity. fold w3.
    erewrite M_bind_Ok by exact Hrm. cbv beta iota zeta.
    erewrite M_bind_Ok by exact Hmfcc_run.
    reflexivity.
  - apply lookup_insert_eq.
  - simpl. rewrite lookup_insert_ne by done. apply lookup_insert_eq.
  - done.
  - rewrite <- (kept_fst srr ts labels) in Hms by lia.
    by apply Forall2_fmap_l in Hms.
  - done.
  - done.
Qed.

Lemma convert_to_numpy_train (x y : nat) (w : world) (dx dy : DataFrame)
    (ms : list matrix) (labels : list string) :
  heap w !! x = Some dx → heap w !! y = Some dy →
  holds_signals dx (CMfcc <$> ms) →
  holds_intentions dy labels →
  convert_to_numpy x ["Signal"] (Some y) ["intention"] "train" w
  = Ok ((ms, Some ((λ s, [CStr s]) <$> labels)), w).
Proof.
  intros Hx Hy (Hcol & Hnd & Hsig) [HcolY HlabY].
  unfold convert_to_numpy.
  rewrite (M_bind_Ok _ _ _ _ _ (deref_Ok x w dx Hx)).
  erewrite M_bind_lift.
  2:{ unfold select_columns. rewrite bool_decide_eq_true_2; [done |].
      by repeat constructor. }
  rewrite (M_bind_lift _ _ _ ms).
  2:{ simpl.
      apply map_result_Forall2, Forall2_fmap_l, Forall2_lookup. intros i.
      pose proof (signals_lookup dx _ i Hsig) as Hi.
      rewrite list_lookup_fmap in Hi.
      destruct (body dx !! i) as [ir |].
      - destruct Hi as (c & Hc & Hci).
        destruct (ms !! i) as [m |]; simpl in Hci; [| done].
        injection Hci as <-. constructor. simpl. unfold row_get.
        rewrite (map_lookup_filter_Some_2 _ _ "Signal" (CMfcc m));
          [done | done |].
        simpl. set_solver.
      - destruct (ms !! i); [done | constructor]. }
  change (negb (String.eqb "train" "train")) with false. cbv iota.
  erewrite M_bind_lift by reflexivity.
  rewrite (M_bind_Ok _ _ _ _ _ (deref_Ok y w dy Hy)).
  erewrite M_bind_lift.
  2:{ unfold select_columns. rewrite bool_decide_eq_true_2; [done |].
      by repeat constructor. }
  rewrite (M_bind_lift _ _ _ ((λ s, [CStr s]) <$> labels)); [reflexivity |].
  simpl.
  apply map_result_Forall2, Forall2_fmap_l, Forall2_fmap_r.
  eapply Forall2_impl; [exact HlabY |]. intros ir s Hs. simpl.
  unfold row_get.
  rewrite (map_lookup_filter_Some_2 _ _ "intention" (CStr s)); [done | done |].
  simpl. set_solver.
Qed.

Lemma column_or_1d_labels (labels : list string) :
  column_or_1d ((λ s, [CStr s]) <$> labels) = Ok labels.
Proof.
  unfold column_or_1d. apply map_result_Forall2, Forall2_fmap_l.
  by apply Forall2_same_length_lookup_2; [| intros i s s' -> [= ->]].
Qed.

Lemma training_cell_rest_run (L : library) (X Y : nat) (srr : Z) (w : world)
    (dfX dfY : DataFrame) (wvs ts : list wave) (labels : list string) :
  heap w !! X = Some dfX → heap w !! Y = Some dfY → X ≠ Y →
  holds_signals dfX (CWave <$> wvs) →
  index dfX = seq 0 (length wvs) → index dfY = seq 0 (length wvs) →
  holds_intentions dfY labels →
  srr ≠ 0%Z →
  Forall2 (λ wv t, librosa_effects_trim L wv 10 10 = Ok t) wvs ts →
  Forall (λ t, ∃ m, librosa_feature_mfcc L t srr = Ok m)
    (retained srr max_lenght ts) →
  ∃ X_n w',
    Forall2 (λ p m, feature_of L srr p.1 = Ok m) (kept srr ts labels) X_n
    ∧ files w' = files w
    ∧ training_cell_rest L X Y srr w
      = match convert_y_to_oneHot (kept srr ts labels).*2 with
        | Ok (y_oneHot, le) => Ok ((X_n, y_oneHot, le), w')
        | Raise e => Raise e
        end.
Proof.
  intros HX HY Hne HdfX HiX HiY HlabY Hnz Htrim Hmfcc.
  destruct (training_features_frames L X Y srr w dfX dfY wvs ts labels)
    as (X_mfcc & y_no & w' & dfm & dfy & ms & Hrun & Hm & Hy & Hdfm & Hms
        & Hdfy & Hfiles); try done.
  exists ms, w'. split; [done |]. split; [done |].
  unfold training_cell_rest.
  erewrite M_bind_Ok by exact Hrun. cbv beta iota zeta.
  erewrite M_bind_Ok by (by eapply convert_to_numpy_train).
  cbv beta iota zeta.
  erewrite M_bind_lift by reflexivity.
  erewrite M_bind_lift by apply column_or_1d_labels.
  destruct (convert_y_to_oneHot (kept srr ts labels).*2) as [[oh le] | e];
    reflexivity.
Qed.

Lemma read_data_return_labels (dev : DataFrame) (rate : Z) (w : world)
    (cs : list cell) (labels : list string) :
  Forall (λ c, c ∈ columns dev) ["Id"; "action"; "object"; "path"] →
  Forall2 (λ (ir : nat * row) s, intention_of ir.2 s) (body dev) labels →
  holds_signals dev cs →
  ∃ dfX dfY,
    let lx := fresh (dom (heap w)) in
    let ly := fresh (dom (heap (with_object w lx dfX))) in
    read_data_return "train" dev (Some rate) w
    = Ok (TrainData lx ly rate, with_object (with_object w lx dfX) ly dfY)
    ∧ holds_signals dfX cs
    ∧ index dfX = index dev
    ∧ index dfY = index dev
    ∧ holds_intentions dfY labels.
Proof.
  intros Hcols Hrows (Hcol & Hnd & Hsig).
  assert (map_result (λ ir : nat * row, str_add ir.2 "action" "object")
            (body dev) = Ok (CStr <$> labels)) as Hint.
  { apply map_result_Forall2, Forall2_fmap_r.
    eapply Forall2_impl; [exact Hrows |].
    intros ir s (a & o & Ha & Ho & ->). simpl.
    unfold str_add, row_get. by rewrite Ha, Ho. }
  assert (length labels = length (body dev)) as Hlen.
  { symmetry. by eapply Forall2_length. }
  unfold read_data_return.
  change (String.eqb "train" "train") with true. cbv iota.
  eexists _, _. cbv zeta. split; [| split; [| split; [| split]]].
  - erewrite M_bind_lift.
    2:{ unfold drop_columns. by rewrite bool_decide_eq_true_2. }
    erewrite M_bind_Ok by reflexivity.
    erewrite M_bind_lift.
    2:{ unfold select_columns. rewrite bool_decide_eq_true_2; [done |].
        apply Forall_cons in Hcols as [_ Hcols].
        apply Forall_cons in Hcols as [Ha Hcols].
        apply Forall_cons in Hcols as [Ho _]. by repeat constructor. }
    erewrite M_bind_lift by exact Hint.
    reflexivity.
  - split; [| split]; simpl.
    + apply list_elem_of_filter. split; [| done]. compute_done.
    + unfold index in *. simpl. rewrite <- list_fmap_compose.
      erewrite list_fmap_ext; [exact Hnd |]. done.
    + rewrite <- Hsig. unfold signals. simpl. rewrite <- list_fmap_compose.
      apply list_fmap_ext. intros i ir _. simpl.
      by rewrite !lookup_delete_ne.
  - unfold index. simpl. rewrite <- list_fmap_compose.
    by apply list_fmap_ext.
  - unfold index, set_column_rows. simpl.
    rewrite (zip_with_fst_index (λ ir v, <["intention" := v]> ir.2)).
    + rewrite <- list_fmap_compose. by apply list_fmap_ext.
    + by rewrite !length_fmap.
  - split; [simpl; set_solver |].
    unfold set_column_rows. cbn [body].
    apply Forall2_same_length_lookup. split.
    + rewrite length_zip_with, !length_fmap. lia.
    + intros i ir s Hir Hs. apply lookup_zip_with_Some in Hir.
      destruct Hir as (ir0 & c & -> & _ & Hc).
      rewrite list_lookup_fmap, Hs in Hc. injection Hc as <-.
      simpl. apply lookup_insert_eq.
Qed.

Lemma training_cell_run (L : library) (w : world) (f : csv)
    (wrs : list (wave * Z)) (srr : Z) (ts : list wave)
    (labels : list string) :
  files w !! "./dsl_data/development.csv" = Some f →
  Forall (λ c, c ∈ header f) ["Id"; "action"; "object"; "path"] →
  Forall2 intention_of (records f) labels →
  Forall2 (λ r wr, load_row L r = Ok wr) (records f) wrs →
  last_rate wrs = Some srr → srr ≠ 0%Z →
  Forall2 (λ (wr : wave * Z) t, librosa_effects_trim L wr.1 10 10 = Ok t)
    wrs ts →
  Forall (λ t, ∃ m, librosa_feature_mfcc L t srr = Ok m)
    (retained srr max_lenght ts) →
  ∃ X_n w',
    Forall2 (λ p m, feature_of L srr p.1 = Ok m) (kept srr ts labels) X_n
    ∧ files w' = files w
    ∧ training_cell L w
      = match convert_y_to_oneHot (kept srr ts labels).*2 with
        | Ok (y_oneHot, le) => Ok ((X_n, y_oneHot, le), w')
        | Raise e => Raise e
        end.
Proof.
  intros Hf Hhdr Hlab Hload Hrate Hnz Htrim Hmfcc.
  destruct (loaded_frame_signals L f wrs Hload) as (Hdev & _ & Hlen).
  assert (index (loaded_frame L f) = seq 0 (length wrs)) as Hidx.
  { unfold loaded_frame.
    rewrite index_map_signal, index_set_column_scalar, index_frame_of_csv.
    by rewrite (Forall2_length _ _ _ Hload). }
  destruct (read_data_return_labels (loaded_frame L f) srr w
              (CWave <$> wrs.*1) labels) as (dfX & dfY & Hrun & HX & HiX & HiY & HY).
  { eapply Forall_impl; [exact Hhdr |]. intros c. apply loaded_frame_columns. }
  { apply Forall2_same_length_lookup. split.
    - unfold df_len in Hlen. rewrite Hlen. by eapply Forall2_length.
    - intros i ir s Hir Hs.
      assert (is_Some (records f !! i)) as [r Hr].
      { apply lookup_lt_is_Some. apply lookup_lt_Some in Hs.
        apply Forall2_length in Hlab. lia. }
      destruct (Forall2_lookup_l _ _ _ _ _ Hload Hr) as ([wv rt] & _ & Hl).
      rewrite (loaded_frame_lookup L f i r wv rt Hr Hl) in Hir.
      injection Hir as <-.
      destruct (Forall2_lookup_lr _ _ _ i r s Hlab Hr Hs)
        as (a & o & Ha & Ho & ->).
      exists a, o. simpl. by rewrite !lookup_insert_ne. }
  { done. }
  cbv zeta in Hrun.
  set (lx := fresh (dom (heap w))) in *.
  set (w1 := with_object w lx dfX) in *.
  set (ly := fresh (dom (heap w1))) in *.
  set (w2 := with_object w1 ly dfY) in *.
  assert (ly ≠ lx) as Hne.
  { intros Heq. apply (is_fresh (dom (heap w1))). fold ly. rewrite Heq.
    simpl. rewrite dom_insert_L. set_solver. }
  destruct (training_cell_rest_run L lx ly srr w2 dfX dfY (wrs.*1) ts labels)
    as (X_n & w' & Hms & Hfiles & Hrest); try done.
  { simpl. rewrite lookup_insert_ne by done. apply lookup_insert_eq. }
  { apply lookup_insert_eq. }
  { by rewrite HiX, Hidx, length_fmap. }
  { by rewrite HiY, Hidx, length_fmap. }
  { by apply Forall2_fmap_l. }
  exists X_n, w'. split; [done |]. split; [done |].
  unfold training_cell.
  erewrite M_bind_Ok.
  2:{ rewrite (read_data_loaded L _ _ w f wrs Hf Hload), Hrate. exact Hrun. }
  erewrite M_bind_lift by reflexivity. cbv beta iota zeta.
  exact Hrest.
Qed.

(** X15. The training cell on a development file whose audio files load
    and trim: the recordings that last at most [max_lenght] seconds at the
    rate of the last file are kept, in order, each with the label of its
    own record.  Row [i] of [X_n] is the padded or cut coefficient matrix
    of the [i]-th of them and row [i] of [y_oneHot] is the one-hot code of
    its label, the action followed by the object; the classes of the
    encoder are the distinct labels that were kept.  No file changes. *)
Theorem X15_training_cell_aligns_features_and_labels
    (L : library) (w : world) (f : csv) (wrs : list (wave * Z)) (srr : Z)
    (ts : list wave) (labels : list string) :
  files w !! "./dsl_data/development.csv" = Some f →
  Forall (λ c, c ∈ header f) ["Id"; "action"; "object"; "path"] →
  Forall2 intention_of (records f) labels →
  Forall2 (λ r wr, load_row L r = Ok wr) (records f) wrs →
  last_rate wrs = Some srr → srr ≠ 0%Z →
  Forall2 (λ (wr : wave * Z) t, librosa_effects_trim L wr.1 10 10 = Ok t)
    wrs ts →
  Forall (λ t, ∃ m, librosa_feature_mfcc L t srr = Ok m)
    (retained srr max_lenght ts) →
  kept srr ts labels ≠ [] →
  ∃ X_n y_oneHot le w',
    training_cell L w = Ok ((X_n, y_oneHot, le), w')
    ∧ classes_ le = np_unique (kept srr ts labels).*2
    ∧ Forall2 (λ p m, feature_of L srr p.1 = Ok m) (kept srr ts labels) X_n
    ∧ Forall2 (λ p v, ∃ k, classes_ le !! k = Some p.2
                           ∧ v = <[k := 1%Q]>
                                   (replicate (length (classes_ le)) 0%Q))
        (kept srr ts labels) y_oneHot
    ∧ files w' = files w.
Proof.
  intros Hf Hhdr Hlab Hload Hrate Hnz Htrim Hmfcc Hkept.
  destruct (training_cell_run L w f wrs srr ts labels)
    as (X_n & w' & Hms & Hfiles & Hrun); try done.
  destruct (convert_y_to_oneHot_spec (kept srr ts labels).*2)
    as (codes & Hidx & _ & Hoh).
  { intros Hnil. apply fmap_nil_inv in Hnil. done. }
  rewrite Hoh in Hrun.
  eexists X_n, _, _, w'. split; [exact Hrun |]. split; [done |].
  split; [done |]. split; [| done].
  apply Forall2_fmap_r. apply Forall2_fmap_l in Hidx.
  eapply Forall2_impl; [exact Hidx |]. intros p k Hk. simpl in *.
  exists k. split; [by apply index_of_Some | done].
Qed.

Lemma X15_witness :
  ∃ X_n y_oneHot le w',
    training_cell demo_library demo_world = Ok ((X_n, y_oneHot, le), w')
    ∧ classes_ le = ["increasevolume"]
    ∧ length X_n = 1 ∧ length y_oneHot = 1.
Proof.
  destruct (X15_training_cell_aligns_features_and_labels demo_library
              demo_world demo_development
              [ ([0; 3; 0; 0]%Q, 1%Z); ([5; 0; 1]%Q, 1%Z);
                ([1; 2; 3; 4]%Q, 1%Z) ] 1
              [ [3]%Q; [5; 0; 1]%Q; [1; 2; 3; 4]%Q ]
              [ "increasevolume"; "decreaseheat"; "increasevolume" ])
    as (X_n & y_oneHot & le & w' & Hrun & Hle & HX & HY & _).
  - reflexivity.
  - repeat constructor; compute_done.
  - repeat constructor; eexists _, _; repeat split; reflexivity.
  - repeat constructor.
  - reflexivity.
  - discriminate.
  - repeat constructor.
  - repeat constructor; by eexists.
  - vm_compute. discriminate.
  - exists X_n, y_oneHot, le, w'. split; [exact Hrun |].
    split; [exact Hle |].
    apply Forall2_length in HX, HY. split; [by rewrite <- HX | by rewrite <- HY].
Defined.

(** X16. When every recording of the development file lasts more than
    [max_lenght] seconds once trimmed, nothing is left to encode and the
    training cell raises the [ValueError] of [max] on an empty array. *)
Theorem X16_training_cell_with_nothing_kept
    (L : library) (w : world) (f : csv) (wrs : list (wave * Z)) (srr : Z)
    (ts : list wave) (labels : list string) :
  files w !! "./dsl_data/development.csv" = Some f →
  Forall (λ c, c ∈ header f) ["Id"; "action"; "object"; "path"] →
  Forall2 intention_of (records f) labels →
  Forall2 (λ r wr, load_row L r = Ok wr) (records f) wrs →
  last_rate wrs = Some srr → srr ≠ 0%Z →
  Forall2 (λ (wr : wave * Z) t, librosa_effects_trim L wr.1 10 10 = Ok t)
    wrs ts →
  Forall (λ t, ¬ (duration srr t <= max_lenght)%Q) ts →
  training_cell L w = Raise ValueError.
Proof.
  intros Hf Hhdr Hlab Hload Hrate Hnz Htrim Hlong.
  assert (kept srr ts labels = []) as Hkept.
  { destruct (kept srr ts labels) as [| [t s] l] eqn:Hk; [done |].
    assert ((t, s) ∈ kept srr ts labels) as Hin by (rewrite Hk; left).
    unfold kept in Hin. apply list_elem_of_filter in Hin as [Hd Hin].
    apply elem_of_zip_l in Hin. apply Qle_bool_iff in Hd.
    by destruct (proj1 (Forall_forall _ _) Hlong t Hin). }
  assert (retained srr max_lenght ts = []) as Hret.
  { rewrite <- (kept_fst srr ts labels), Hkept; [done |].
    apply Forall2_length in Hlab, Hload, Htrim. lia. }
  destruct (training_cell_run L w f wrs srr ts labels)
    as (X_n & w' & _ & _ & Hrun); try done.
  { rewrite Hret. constructor. }
  by rewrite Hrun, Hkept.
Qed.

Lemma X16_witness : training_cell demo_library demo_long_world = Raise ValueError.
Proof.
  apply (X16_training_cell_with_nothing_kept demo_library demo_long_world
           (mkCsv ["Id"; "path"; "action"; "object"]
              [ demo_record "two.wav" "decrease" "heat" 0;
                demo_record "four.wav" "increase" "volume" 1 ])
           [ ([5; 0; 1]%Q, 1%Z); ([1; 2; 3; 4]%Q, 1%Z) ] 1
           [ [5; 0; 1]%Q; [1; 2; 3; 4]%Q ]
           [ "decreaseheat"; "increasevolume" ]).
  - reflexivity.
  - repeat constructor; compute_done.
  - repeat constructor; eexists _, _; repeat split; reflexivity.
  - repeat constructor.
  - reflexivity.
  - discriminate.
  - repeat constructor.
  - repeat constructor; vm_compute; intros H; apply H; reflexivity.
Defined.

(** ** [convert_to_numpy] reads, and nothing else *)

Lemma deref_Ok_inv (x : nat) (w w' : world) (df : DataFrame) :
  deref x w = Ok (df, w') → w' = w ∧ heap w !! x = Some df.
Proof. unfold deref. destruct (heap w !! x); by intros [= <- <-]. Qed.

Lemma select_columns_Ok_inv (df df' : DataFrame) (cols : list string) :
  select_columns df cols = Ok df' →
  columns df' = cols ∧ df_len df' = df_len df.
Proof.
  unfold select_columns. case_bool_decide; [| done]. intros [= <-].
  unfold df_len. simpl. by rewrite length_fmap.
Qed.

Lemma map_result_length {A B : Type} (f : A → result B) (l : list A)
    (k : list B) :
  map_result f l = Ok k → length k = length l.
Proof.
  intros H. apply map_result_Forall2 in H. symmetry. by eapply Forall2_length.
Qed.

(** X17. [convert_to_numpy] changes nothing: no frame, no file, no global.
    [X_n] has one matrix per row of [x].  For training data [y] must be
    given, and [Y_n] has one row per row of [y], as wide as [y_columns];
    nothing relates the number of rows of [X_n] to that of [Y_n].  For any
    other value of [data] no [Y_n] is returned and [y] is not looked at. *)
Theorem X17_convert_to_numpy_reads_only
    (x : nat) (x_columns : list string) (y : option nat)
    (y_columns : list string) (data : string) (w w' : world)
    (X_n : list matrix) (Y_n : option (list (list cell))) :
  convert_to_numpy x x_columns y y_columns data w = Ok ((X_n, Y_n), w') →
  w' = w
  ∧ (∃ dx, heap w !! x = Some dx ∧ length X_n = df_len dx)
  ∧ if String.eqb data "train"
    then ∃ ly dy rows,
           y = Some ly ∧ heap w !! ly = Some dy ∧ Y_n = Some rows
           ∧ length rows = df_len dy
           ∧ Forall (λ r : list cell, length r = length y_columns) rows
    else Y_n = None.
Proof.
  unfold convert_to_numpy. intros H.
  apply M_bind_Ok_inv in H as (dx & w1 & [-> Hx]%deref_Ok_inv & H).
  apply M_bind_Ok_inv in H as (x_temp & w1 & [Hsel ->]%lift_Ok_inv & H).
  apply select_columns_Ok_inv in Hsel as [_ Hlen].
  apply M_bind_Ok_inv in H as (x_temp_2 & w1 & [Hx2 ->]%lift_Ok_inv & H).
  apply map_result_length in Hx2.
  destruct (String.eqb data "train"); simpl in H.
  - apply M_bind_Ok_inv in H as (ly & w1 & [Hy ->]%lift_Ok_inv & H).
    destruct y as [ly' |]; [| done]. injection Hy as ->.
    apply M_bind_Ok_inv in H as (dy & w1 & [-> Hly]%deref_Ok_inv & H).
    apply M_bind_Ok_inv in H as (y_temp & w1 & [Hsel ->]%lift_Ok_inv & H).
    apply select_columns_Ok_inv in Hsel as [Hcols HlenY].
    apply M_bind_Ok_inv in H as (rows & w1 & [Hrows ->]%lift_Ok_inv & H).
    injection H as <- <- <-.
    split; [done |]. split.
    { exists dx. split; [done |]. unfold df_len in *. lia. }
    exists ly, dy, rows. split; [done |]. split; [done |]. split; [done |].
    split.
    + apply map_result_length in Hrows. unfold df_len in *. lia.
    + apply map_result_Forall2 in Hrows.
      apply Forall_forall. intros r Hr.
      apply list_elem_of_lookup in Hr as [i Hi].
      destruct (Forall2_lookup_r _ _ _ _ _ Hrows Hi) as (ir & _ & Hir).
      apply map_result_length in Hir. by rewrite Hir, Hcols.
  - injection H as <- <- <-.
    split; [done |]. split; [| done].
    exists dx. split; [done |]. unfold df_len in *. lia.
Qed.

Lemma X17_witness :
  ∃ X_n Y_n,
    convert_to_numpy 0 ["Signal"] (Some 1) ["intention"] "train"
      (mkWorld {[ 0 := mkDataFrame ["Signal"]
                         [ (0, {[ "Signal" := CMfcc [[1]; [2]]%Q ]}) ];
                  1 := demo_labels ]} ∅ None None)
    = Ok ((X_n, Some Y_n),
          mkWorld {[ 0 := mkDataFrame ["Signal"]
                            [ (0, {[ "Signal" := CMfcc [[1]; [2]]%Q ]}) ];
                     1 := demo_labels ]} ∅ None None)
    ∧ length X_n = 1 ∧ length Y_n = 3.
Proof.
  set (w := mkWorld {[ 0 := mkDataFrame ["Signal"]
                              [ (0, {[ "Signal" := CMfcc [[1]; [2]]%Q ]}) ];
                       1 := demo_labels ]} ∅ None None).
  destruct (convert_to_numpy 0 ["Signal"] (Some 1) ["intention"] "train" w)
    as [[[X_n Y_n] w'] |] eqn:Hrun; [| vm_compute in Hrun; discriminate Hrun].
  destruct (X17_convert_to_numpy_reads_only 0 ["Signal"] (Some 1)
              ["intention"] "train" w w' X_n Y_n Hrun)
    as (-> & (dx & Hdx & HX) & H).
  simpl in H. destruct H as (ly & dy & rows & [= <-] & Hdy & -> & Hrows & _).
  exists X_n, rows. split; [reflexivity |].
  vm_compute in Hdx. injection Hdx as <-.
  vm_compute in Hdy. injection Hdy as <-.
  split; [exact HX | exact Hrows].
Defined.

(** ** The globals of [remove_outliers] *)

(** X18. [remove_outliers] cannot run before the notebook has bound its
    globals, whatever frames it is given: without [X_trimed] it raises
    [NameError] at once; with [X_trimed] naming a frame that has a first
    recording it raises [NameError] when [srr] is unbound, and
    [ZeroDivisionError] when [srr] is 0. *)
Theorem X18_remove_outliers_needs_the_globals
    (x y xt : nat) (max_length : Q) (h : gmap nat DataFrame)
    (fs : gmap string csv) (dft : DataFrame) (ir : nat * row)
    (rows : list (nat * row)) (wv : wave) :
  h !! xt = Some dft → body dft = ir :: rows →
  ir.2 !! "Signal" = Some (CWave wv) →
  (∀ gs, remove_outliers x y max_length (mkWorld h fs None gs)
         = Raise NameError)
  ∧ remove_outliers x y max_length (mkWorld h fs (Some xt) None)
    = Raise NameError
  ∧ remove_outliers x y max_length (mkWorld h fs (Some xt) (Some 0%Z))
    = Raise ZeroDivisionError.
Proof.
  intros Hdft Hbody Hc.
  assert (∀ gs e,
            remove_outliers_step [] ir (mkWorld h fs (Some xt) gs) = Raise e →
            remove_outliers x y max_length (mkWorld h fs (Some xt) gs)
            = Raise e) as Hstep.
  { intros gs e He. unfold remove_outliers.
    erewrite M_bind_Ok by reflexivity.
    erewrite M_bind_Ok by (by apply deref_Ok).
    apply M_bind_Raise. unfold iterrows. rewrite Hbody. simpl.
    by apply M_bind_Raise. }
  split; [| split].
  - intros gs. unfold remove_outliers. by apply M_bind_Raise.
  - apply Hstep. unfold remove_outliers_step.
    erewrite M_bind_lift by (unfold row_get; by rewrite Hc).
    by apply M_bind_Raise.
  - apply Hstep. unfold remove_outliers_step.
    erewrite M_bind_lift by (unfold row_get; by rewrite Hc).
    erewrite M_bind_Ok by reflexivity.
    by apply M_bind_Raise.
Qed.

Lemma X18_witness :
  remove_outliers 0 1 3 (mkWorld (heap (demo_session 1)) ∅ (Some 0) None)
  = Raise NameError
  ∧ remove_outliers 0 1 3 (mkWorld (heap (demo_session 1)) ∅ (Some 0) (Some 0%Z))
    = Raise ZeroDivisionError.
Proof.
  destruct (X18_remove_outliers_needs_the_globals 0 1 0 3
              (heap (demo_session 1)) ∅ demo_trimmed
              (0, {[ "Signal" := CWave [3]%Q ]})
              [ (1, {[ "Signal" := CWave [5; 1]%Q ]});
                (2, {[ "Signal" := CWave [1; 2; 3; 4]%Q ]}) ]
              [3]%Q eq_refl eq_refl eq_refl) as (_ & H1 & H2).
  split; [exact H1 | exact H2].
Defined.
